(** * Event-management backend: ticket inventory, purchase, cache and payment
      verification

    A shallow embedding of the ticket, purchase and payment controllers of the
    Express/Mongoose server, with the Redis cache in front of the listings.

    Conventions of the embedding.
    - JavaScript numbers are IEEE 754 doubles, with their rounding, their
      infinities and NaN (section Numbers).
    - Strings are [string]; a string stands for its UTF-8 bytes.
    - MongoDB collections are finite maps from the hexadecimal [_id] to the
      stored document; the Redis store is a finite map from keys to entries
      with an absolute expiry in seconds.
    - Every [await]ed driver call may reject; which one does is given by the
      per-request environment, as are the clock and the [_id] the driver
      allocates for a new document. *)

From Stdlib Require Import ZArith List String Ascii Bool Lia.
From stdpp Require Import base option gmap strings list.
Import ListNotations.

Local Open Scope string_scope.
Local Open Scope list_scope.
Local Open Scope Z_scope.

(** ** crypto: SHA-256 and HMAC (Node's [crypto.createHmac('sha256', key)]) *)

Module Crypto.

Definition bytes_of_string (s : string) : list Z :=
  List.map (fun c => Z.of_N (N_of_ascii c)) (list_ascii_of_string s).

Definition add32 (x y : Z) : Z := (x + y) mod 2 ^ 32.

Definition rotr (n x : Z) : Z :=
  Z.lor (Z.shiftr x n) ((Z.shiftl x (32 - n)) mod 2 ^ 32).

Definition not32 (x : Z) : Z := 2 ^ 32 - 1 - x.

Definition Ch (x y z : Z) : Z := Z.lxor (Z.land x y) (Z.land (not32 x) z).
Definition Maj (x y z : Z) : Z :=
  Z.lxor (Z.lxor (Z.land x y) (Z.land x z)) (Z.land y z).
Definition Sigma0 (x : Z) : Z := Z.lxor (Z.lxor (rotr 2 x) (rotr 13 x)) (rotr 22 x).
Definition Sigma1 (x : Z) : Z := Z.lxor (Z.lxor (rotr 6 x) (rotr 11 x)) (rotr 25 x).
Definition sigma0 (x : Z) : Z := Z.lxor (Z.lxor (rotr 7 x) (rotr 18 x)) (Z.shiftr x 3).
Definition sigma1 (x : Z) : Z := Z.lxor (Z.lxor (rotr 17 x) (rotr 19 x)) (Z.shiftr x 10).

(** The constants of FIPS 180-4: the first thirty-two bits of the fractional
    parts of the cube roots (round constants) and of the square roots
    (initial hash value) of the first primes. *)
Definition is_prime (n : nat) : bool :=
  forallb (fun d => negb (Nat.eqb (Nat.modulo n d) 0)) (List.seq 2 (n - 2)).

Definition primes (count : nat) : list Z :=
  List.map Z.of_nat (firstn count (List.filter is_prime (List.seq 2 400))).

(** Integer cube root on [n] bits, most significant bit first. *)
Fixpoint cube_root (n : nat) (x acc : Z) : Z :=
  match n with
  | O => acc
  | S n' =>
      let c := acc + 2 ^ Z.of_nat n' in
      if c * c * c <=? x then cube_root n' x c else cube_root n' x acc
  end.

Definition K256 : list Z :=
  Eval vm_compute in
    List.map (fun p => cube_root 40 (p * 2 ^ 96) 0 mod 2 ^ 32) (primes 64).

Definition H256 : list Z :=
  Eval vm_compute in List.map (fun p => Z.sqrt (p * 2 ^ 64) mod 2 ^ 32) (primes 8).

(** Big-endian bytes of a word, most significant first. *)
Fixpoint be_bytes (n : nat) (x : Z) : list Z :=
  match n with
  | O => []
  | S n' => (Z.shiftr x (8 * Z.of_nat n')) mod 256 :: be_bytes n' x
  end.

Fixpoint be_word (bs : list Z) (acc : Z) : Z :=
  match bs with
  | [] => acc
  | b :: bs' => be_word bs' (acc * 256 + b)
  end.

(** Padding: a one bit, zeros up to 56 modulo 64, then the bit length on
    eight bytes. *)
Definition pad (msg : list Z) : list Z :=
  let len := Z.of_nat (List.length msg) in
  let zeros := Z.to_nat ((55 - len) mod 64) in
  msg ++ 0x80 :: List.repeat 0 zeros ++ be_bytes 8 (8 * len).

Fixpoint words (n : nat) (bs : list Z) : list Z :=
  match n with
  | O => []
  | S n' => be_word (firstn 4 bs) 0 :: words n' (skipn 4 bs)
  end.

(** Message schedule, most recent word first. *)
Fixpoint schedule (n : nat) (w : list Z) : list Z :=
  match n with
  | O => w
  | S n' =>
      let wt := add32 (add32 (sigma1 (nth 1 w 0)) (nth 6 w 0))
                      (add32 (sigma0 (nth 14 w 0)) (nth 15 w 0)) in
      schedule n' (wt :: w)
  end.

Record regs := Regs { ra : Z; rb : Z; rc : Z; rd : Z; re : Z; rf : Z; rg : Z; rh : Z }.

Definition round (r : regs) (kw : Z * Z) : regs :=
  let t1 := add32 (add32 (add32 (rh r) (Sigma1 (re r))) (Ch (re r) (rf r) (rg r)))
                  (add32 (fst kw) (snd kw)) in
  let t2 := add32 (Sigma0 (ra r)) (Maj (ra r) (rb r) (rc r)) in
  Regs (add32 t1 t2) (ra r) (rb r) (rc r) (add32 (rd r) t1) (re r) (rf r) (rg r).

Definition regs_of (h : list Z) : regs :=
  Regs (nth 0 h 0) (nth 1 h 0) (nth 2 h 0) (nth 3 h 0)
       (nth 4 h 0) (nth 5 h 0) (nth 6 h 0) (nth 7 h 0).

Definition compress (h : list Z) (block : list Z) : list Z :=
  let w := List.rev (schedule 48 (List.rev (words 16 block))) in
  let r0 := regs_of h in
  let r := fold_left round (combine K256 w) r0 in
  [ add32 (ra r0) (ra r); add32 (rb r0) (rb r); add32 (rc r0) (rc r); add32 (rd r0) (rd r);
    add32 (re r0) (re r); add32 (rf r0) (rf r); add32 (rg r0) (rg r); add32 (rh r0) (rh r) ].

Fixpoint blocks (n : nat) (h : list Z) (bs : list Z) : list Z :=
  match n with
  | O => h
  | S n' => blocks n' (compress h (firstn 64 bs)) (skipn 64 bs)
  end.

Definition sha256 (msg : list Z) : list Z :=
  let p := pad msg in
  flat_map (be_bytes 4) (blocks (Nat.div (List.length p) 64) H256 p).

Definition hmac_sha256 (key msg : list Z) : list Z :=
  let k0 := if (64 <? Z.of_nat (List.length key)) then sha256 key else key in
  let k := k0 ++ List.repeat 0 (64 - List.length k0)%nat in
  let ipad := List.map (Z.lxor 0x36) k in
  let opad := List.map (Z.lxor 0x5c) k in
  sha256 (opad ++ sha256 (ipad ++ msg)).

Definition hex_digit (d : Z) : ascii :=
  if d <? 10 then ascii_of_N (Z.to_N (48 + d)) else ascii_of_N (Z.to_N (87 + d)).

Fixpoint hex (bs : list Z) : string :=
  match bs with
  | [] => EmptyString
  | b :: bs' => String (hex_digit (b / 16)) (String (hex_digit (b mod 16)) (hex bs'))
  end.

(** [crypto.createHmac('sha256', key).update(body).digest('hex')] *)
Definition createHmac_sha256_hex (key body : string) : string :=
  hex (hmac_sha256 (bytes_of_string key) (bytes_of_string body)).

End Crypto.

(** ** Numbers

    A JavaScript number is an IEEE 754 double. Every finite double is a
    whole multiple of the smallest positive one, [2^-1074]: [Fin n] is the
    number [n * 2^-1074], so that one is [Fin (2^1074)]. The doubles are the
    [Fin n] whose [n] has at most 53 significant bits and is below [2^2098]
    in magnitude ([is_double]); the operations yield only these. The two
    zeros are not told apart: nothing used here ([-], [*], the comparisons,
    [JSON.stringify]) distinguishes them. *)

Definition one : Z := 2 ^ 1074.

Inductive number :=
| Fin (n : Z)
| Inf (negative : bool)
| NaN.

(** The whole number nearest to [p / d], the even one when two are as near
    ([d] positive). *)
Definition nearest_even (p d : Z) : Z :=
  let q := p / d in
  match 2 * (p mod d) ?= d with
  | Lt => q
  | Gt => q + 1
  | Eq => if Z.even q then q else q + 1
  end.

(** The double nearest to [p / d] counted in units of [2^-1074] (round to
    nearest, ties to even): of the bits of the quotient all but the first 53
    are rounded away, and a result of [2^1024] or more is an infinity. *)
Definition round53 (p d : Z) : number :=
  let k := Z.max 0 (Z.log2 (Z.abs p / d) + 1 - 53) in
  let n := nearest_even p (d * 2 ^ k) * 2 ^ k in
  if 2 ^ 2098 <=? Z.abs n then Inf (n <? 0) else Fin n.

(** The number a whole literal denotes, and the one a decimal literal
    [m * 10^e] denotes (as [JSON.parse] reads them). *)
Definition int (i : Z) : number := round53 (i * one) 1.

Definition decimal (m e : Z) : number :=
  if 0 <=? e then round53 (m * 10 ^ e * one) 1 else round53 (m * one) (10 ^ (- e)).

Definition zero : number := Fin 0.

Definition is_nan (a : number) : bool :=
  match a with NaN => true | _ => false end.

Definition is_finite (a : number) : bool :=
  match a with Fin _ => true | _ => false end.

(** [a - b] *)
Definition js_sub (a b : number) : number :=
  match a, b with
  | NaN, _ | _, NaN => NaN
  | Fin x, Fin y => round53 (x - y) 1
  | Fin _, Inf s => Inf (negb s)
  | Inf s, Fin _ => Inf s
  | Inf s, Inf s' => if Bool.eqb s s' then NaN else Inf s
  end.

(** [a * b] *)
Definition js_mul (a b : number) : number :=
  match a, b with
  | NaN, _ | _, NaN => NaN
  | Fin x, Fin y => round53 (x * y) one
  | Fin x, Inf s | Inf s, Fin x => if x =? 0 then NaN else Inf (xorb s (x <? 0))
  | Inf s, Inf s' => Inf (xorb s s')
  end.

(** [a < b], [a === b], [a > b], [a <= b], [a >= b]: all false on NaN. *)
Definition js_lt (a b : number) : bool :=
  match a, b with
  | Fin x, Fin y => x <? y
  | Fin _, Inf s => negb s
  | Inf s, Fin _ => s
  | Inf s, Inf s' => s && negb s'
  | _, _ => false
  end.

Definition js_eq (a b : number) : bool :=
  match a, b with
  | Fin x, Fin y => x =? y
  | Inf s, Inf s' => Bool.eqb s s'
  | _, _ => false
  end.

Definition js_gt (a b : number) : bool := js_lt b a.
Definition js_le (a b : number) : bool := js_lt a b || js_eq a b.
Definition js_ge (a b : number) : bool := js_le b a.

(** The numbers that are doubles: a finite one has at most 53 significant
    bits and is below [2^1024]. *)
Definition is_double (a : number) : Prop :=
  match a with
  | Fin n =>
      Z.abs n < 2 ^ 2098 /\
      exists m k, 0 <= k /\ n = m * 2 ^ k /\ Z.abs m <= 2 ^ 53
  | _ => True
  end.

(** The whole number a number is, if it is one. *)
Definition whole (a : number) : option Z :=
  match a with
  | Fin n => if n mod one =? 0 then Some (n / one) else None
  | _ => None
  end.

(** ** JSON payloads, errors and responses *)

(** What [res.json] sends and what [JSON.stringify] stores. A key whose
    value is [undefined] is left out of an object, as [JSON.stringify]
    does. *)
#[local] Unset Elimination Schemes.
Inductive json :=
| JNull
| JBool (b : bool)
| JNum (n : number)
| JStr (s : string)
| JArr (xs : list json)
| JObj (fields : list (string * json)).
#[local] Set Elimination Schemes.

(** A number as [JSON.stringify] writes it: [null] for NaN and the
    infinities. *)
Definition jnum (a : number) : json :=
  if is_finite a then JNum a else JNull.

(** The error objects that reach [next(err)].
    - [AppErr]: [new AppError(statusCode, message)], with the defaults
      [status = false] and [isOperational = true]; its [name] is ["Error"].
    - [JoiError]: the [error] of [schema.validate]; [name] is
      ["ValidationError"] and [details] holds the messages.
    - [MongooseValidationError]: a document failed its schema ([required]);
      [name] is ["ValidationError"] too, but it has [errors], not [details].
    - [DuplicateKey key value]: the server's E11000, [code = 11000],
      [keyPattern = {key: 1}], [keyValue = {key: value}].
    - [OtherError name]: anything else, known by its [name]. *)
Inductive Error :=
| AppErr (statusCode : Z) (message : json)
| JoiError (details : list string)
| MongooseValidationError
| DuplicateKey (key : string) (value : string)
| OtherError (name : string).

Definition MongoNetworkError : Error := OtherError "MongoNetworkError".
Definition DocumentNotFoundError : Error := OtherError "DocumentNotFoundError".
Definition TypeError : Error := OtherError "TypeError".

Definition err_code (e : Error) : option Z :=
  match e with DuplicateKey _ _ => Some 11000 | _ => None end.

Definition err_keyPattern (e : Error) (k : string) : bool :=
  match e with DuplicateKey key _ => String.eqb key k | _ => false end.

Definition err_name (e : Error) : string :=
  match e with
  | AppErr _ _ => "Error"
  | JoiError _ => "ValidationError"
  | MongooseValidationError => "ValidationError"
  | DuplicateKey _ _ => "MongoServerError"
  | OtherError name => name
  end.

Definition err_keyValue (e : Error) : string :=
  match e with DuplicateKey _ v => v | _ => "undefined" end.

Inductive Response :=
| Json (status : Z) (body : json)     (* res.status(status).json(body) *)
| Send (status : Z) (text : string)   (* res.send(text) *)
| FinalHandler (e : Error).           (* the error handler threw: Express answers 500 itself *)

(** How a controller leaves: it answers, hands an error to [next], or
    throws. *)
Inductive Result :=
| Respond (r : Response)
| Next (e : Error)
| Throw (e : Error).

Definition handleValidationError (error : Error) : Error + Error :=
  match error with
  | JoiError details => inr (AppErr 400 (JArr (List.map JStr details)))
  | _ => inl TypeError   (* error.details is undefined: .map throws *)
  end.

Definition handleDuplicateEmailError (error : Error) : Error :=
  AppErr 409 (JStr ("This " +:+ err_keyValue error +:+ " already exists")).

Definition handleDuplicateUserNameError (error : Error) : Error :=
  AppErr 409 (JStr ("Username " +:+ err_keyValue error
                    +:+ " is already taken, please use a different name")).

Definition handleDuplicateTicketError (error : Error) : Error :=
  AppErr 409 (JStr ("This ticket type " +:+ err_keyValue error
                    +:+ " exists, please use a different type")).

Definition handleTokenExpiredError : Error :=
  AppErr 401 (JStr "Session expired, please login again").

Definition handleJsonWebTokenError : Error :=
  AppErr 401 (JStr "You are not authorized to access this page").

(** [errorResult]: only an [AppError] is operational and carries [status]
    and [statusCode] (never zero, so the first line of [errorHandler],
    [err.statusCode = err.statusCode || 500], leaves it alone); any other
    error gets [statusCode = 500] from that line and has no [status]. *)
Definition errorResult (error : Error) : Response :=
  match error with
  | AppErr statusCode message =>
      Json statusCode (JObj [("status", JBool false); ("message", message)])
  | _ => Json 500 (JObj [("message", JStr "Something went wrong")])
  end.

Definition is_code_11000 (e : Error) : bool :=
  match err_code e with Some c => c =? 11000 | None => false end.

Definition errorHandler (err : Error) : Response :=
  if is_code_11000 err && err_keyPattern err "email" then
    errorResult (handleDuplicateEmailError err)
  else if is_code_11000 err && err_keyPattern err "userName" then
    errorResult (handleDuplicateUserNameError err)
  else if String.eqb (err_name err) "ValidationError" then
    match handleValidationError err with
    | inr err' => errorResult err'
    | inl thrown => FinalHandler thrown
    end
  else if is_code_11000 err && err_keyPattern err "ticketType" then
    errorResult (handleDuplicateTicketError err)
  else if String.eqb (err_name err) "TokenExpiredError" then
    errorResult handleTokenExpiredError
  else if String.eqb (err_name err) "JsonWebTokenError" then
    errorResult handleJsonWebTokenError
  else errorResult err.

(** [tryCatch(controller)] followed by the global error handler: a thrown
    error goes to [next], and [next(err)] reaches [errorHandler]. *)
Definition tryCatch (r : Result) : Result :=
  match r with Throw e => Next e | _ => r end.

Definition respond (r : Result) : Response :=
  match tryCatch r with
  | Respond resp => resp
  | Next e => errorHandler e
  | Throw e => FinalHandler e
  end.

Definition status_of (r : Response) : Z :=
  match r with
  | Json status _ => status
  | Send status _ => status
  | FinalHandler _ => 500
  end.

(** ** Identifiers and strings *)

Definition is_hex_char (c : ascii) : bool :=
  let n := N_of_ascii c in
  ((48 <=? n) && (n <=? 57) || (97 <=? n) && (n <=? 102) || (65 <=? n) && (n <=? 70))%N.

(** [mongoose.Types.ObjectId.isValid] on a string: twelve characters, or
    twenty-four hexadecimal digits. *)
Definition ObjectId_isValid (id : string) : bool :=
  (String.length id =? 12)%nat
  || ((String.length id =? 24)%nat && forallb is_hex_char (list_ascii_of_string id)).

Definition lower_char (c : ascii) : ascii :=
  let n := N_of_ascii c in
  if ((65 <=? n) && (n <=? 90))%N then ascii_of_N (n + 32) else c.

Fixpoint lowercase (s : string) : string :=
  match s with
  | EmptyString => EmptyString
  | String c s' => String (lower_char c) (lowercase s')
  end.

(** The hexadecimal [_id] a valid string is cast to: the digits themselves,
    or the twelve bytes written in hexadecimal. *)
Definition castObjectId (id : string) : string :=
  if (String.length id =? 12)%nat then Crypto.hex (Crypto.bytes_of_string id)
  else lowercase id.

(** The white space and line terminators of ECMAScript, each by the bytes
    of its UTF-8 encoding: U+0009 to U+000D, U+0020, U+00A0, U+1680, U+2000
    to U+200A, U+2028, U+2029, U+202F, U+205F, U+3000 and U+FEFF. *)
Definition is_white_space (code : list ascii) : bool :=
  match List.map N_of_ascii code with
  | [a] => ((9 <=? a) && (a <=? 13) || (a =? 32))%N
  | [a; b] => ((a =? 194) && (b =? 160))%N
  | [a; b; c] =>
      ((a =? 225) && (b =? 154) && (c =? 128)
       || (a =? 226) && (b =? 128)
          && ((128 <=? c) && (c <=? 138) || (c =? 168) || (c =? 169) || (c =? 175))
       || (a =? 226) && (b =? 129) && (c =? 159)
       || (a =? 227) && (b =? 128) && (c =? 128)
       || (a =? 239) && (b =? 187) && (c =? 191))%N
  | _ => false
  end.

(** What is left of [l] behind one leading character that [P] accepts (a
    character is one to three bytes long here). *)
Definition behind (P : list ascii -> bool) (l : list ascii) : option (list ascii) :=
  if P (take 1 l) then Some (drop 1 l)
  else if P (take 2 l) then Some (drop 2 l)
  else if P (take 3 l) then Some (drop 3 l)
  else None.

Fixpoint strip (P : list ascii -> bool) (fuel : nat) (l : list ascii) : list ascii :=
  match fuel with
  | O => l
  | S fuel' =>
      match behind P l with
      | Some rest => strip P fuel' rest
      | None => l
      end
  end.

Definition trimStart (l : list ascii) : list ascii :=
  strip is_white_space (length l) l.

(** From the end the bytes are met in reverse. *)
Definition trimEnd (l : list ascii) : list ascii :=
  rev (strip (fun code => is_white_space (rev code)) (length l) (rev l)).

(** [String.prototype.trim], which the schema option [trim: true] and Joi's
    [trim()] apply. *)
Definition trim (s : string) : string :=
  string_of_list_ascii (trimEnd (trimStart (list_ascii_of_string s))).

(** JavaScript truthiness of a string. *)
Definition truthy (s : string) : bool := negb (String.eqb s "").

(** ** The stores: MongoDB collections and the Redis cache *)

Record Ticket := mkTicket {
  t_admin : string;
  t_event : string;
  t_ticketType : string;
  t_price : number;
  t_ticketsAvailable : number }.

Record PurchasedTicket := mkPurchasedTicket {
  p_user : string;
  p_event : string;
  p_ticketType : string;
  p_ticketsQuantity : number;
  p_totalPrice : number;
  p_purchasedAt : Z }.

Record Payment := mkPayment {
  pay_user : string;
  pay_razorpay_payment_id : string;
  pay_razorpay_order_id : string;
  pay_razorpay_signature : string }.

(** Of an event only the owner and the [events.active] flag are read here. *)
Record Event := mkEvent { ev_admin : string; ev_active : bool }.

(** [c_createdAt] is the rendering [createdAt.toLocaleString()]. *)
Record Comment := mkComment {
  c_user : string;
  c_event : string;
  c_comments : string;
  c_createdAt : string }.

(** A Redis entry: the JSON value whose [JSON.stringify] text is stored (a
    text that is never empty, hence always truthy), and the absolute time in
    seconds at which it expires. *)
Record CacheEntry := mkCacheEntry { ce_value : json; ce_expiry : Z }.

Record Store := mkStore {
  tickets : gmap string Ticket;
  purchasedTickets : gmap string PurchasedTicket;
  payments : gmap string Payment;
  events : gmap string Event;
  comments : gmap string Comment;
  admins : gmap string string;   (* userName of each admin *)
  users : gmap string string;    (* userName of each user *)
  redis : gmap string CacheEntry }.

Definition set_tickets (s : Store) (ts : gmap string Ticket) : Store :=
  mkStore ts (purchasedTickets s) (payments s) (events s) (comments s)
          (admins s) (users s) (redis s).

Definition set_purchasedTickets (s : Store) (ps : gmap string PurchasedTicket) : Store :=
  mkStore (tickets s) ps (payments s) (events s) (comments s)
          (admins s) (users s) (redis s).

Definition set_payments (s : Store) (ps : gmap string Payment) : Store :=
  mkStore (tickets s) (purchasedTickets s) ps (events s) (comments s)
          (admins s) (users s) (redis s).

Definition set_redis (s : Store) (r : gmap string CacheEntry) : Store :=
  mkStore (tickets s) (purchasedTickets s) (payments s) (events s) (comments s)
          (admins s) (users s) r.

(** The awaited calls of the controllers; each may reject. *)
Inductive Call :=
| Ticket_findById_call
| Ticket_find_call
| Ticket_create_call
| Ticket_findByIdAndUpdate_call
| Ticket_save_call
| Events_findById_call
| PurchaseTicketModel_create_call
| paymentModel_create_call
| Comments_find_call
| client_get_call
| client_set_call.

(** What a request does not decide: the clock (seconds), the [_id] the
    driver allocates for a document it creates, and which calls reject. *)
Record Env := mkEnv {
  now : Z;
  newId : string;
  rejects : Call -> bool }.

Definition await {A : Type} (env : Env) (c : Call) (r : Error + A) : Error + A :=
  if rejects env c then inl MongoNetworkError else r.

(** The authenticated principal [req.user] set by the [auth] middleware: a
    stored user or admin document. [user_id] is the hexadecimal text of its
    [_id] ([req.user.id], and [req.user._id] up to that rendering); the
    empty string stands for a principal without one. *)
Record User := mkUser { user_id : string; user_role : string }.

Record Request (B : Type) := mkRequest {
  req_user : User;
  req_params_id : string;
  req_body : B }.
Arguments mkRequest {B} _ _ _.
Arguments req_user {B} _.
Arguments req_params_id {B} _.
Arguments req_body {B} _.

(** *** Redis *)

(** [client.get(key)]: the value unless absent or expired. *)
Definition client_get (env : Env) (s : Store) (key : string) : Error + option json :=
  await env client_get_call
    (inr (match redis s !! key with
          | Some e => if now env <? ce_expiry e then Some (ce_value e) else None
          | None => None
          end)).

(** [client.set(key, JSON.stringify(value), "EX", seconds)] *)
Definition client_set (env : Env) (s : Store) (key : string) (value : json) (seconds : Z)
  : Error + Store :=
  await env client_set_call
    (inr (set_redis s (<[key := mkCacheEntry value (now env + seconds)]> (redis s)))).

(** *** Joi schemas

    A body field is [None] when the key is absent; a present key has the
    JSON type the schema names. *)

Definition dq : string := String (ascii_of_N 34) EmptyString.

Definition is_required (k : string) : Error :=
  JoiError [dq +:+ k +:+ dq +:+ " is required"].

Definition not_empty (k : string) : Error :=
  JoiError [dq +:+ k +:+ dq +:+ " is not allowed to be empty"].

(** [Joi.string().required()]: any string but the empty one. *)
Definition joi_string (k : string) (v : option string) : Error + string :=
  match v with
  | None => inl (is_required k)
  | Some s => if truthy s then inr s else inl (not_empty k)
  end.

Definition MAX_SAFE_INTEGER : number := Eval vm_compute in int (2 ^ 53 - 1).
Definition MIN_SAFE_INTEGER : number := Eval vm_compute in int (- (2 ^ 53 - 1)).

Definition is_infinity (k : string) : Error :=
  JoiError [dq +:+ k +:+ dq +:+ " cannot be infinity"].

Definition not_a_number (k : string) : Error :=
  JoiError [dq +:+ k +:+ dq +:+ " must be a number"].

Definition not_safe (k : string) : Error :=
  JoiError [dq +:+ k +:+ dq +:+ " must be a safe number"].

(** [Joi.number().required()]: any number of the safe range, whole or not
    and of either sign. *)
Definition joi_number (k : string) (v : option number) : Error + number :=
  match v with
  | None => inl (is_required k)
  | Some (Inf _) => inl (is_infinity k)
  | Some NaN => inl (not_a_number k)
  | Some value =>
      if js_gt value MAX_SAFE_INTEGER || js_lt value MIN_SAFE_INTEGER
      then inl (not_safe k)
      else inr value
  end.

Record PurchaseBody := mkPurchaseBody {
  b_ticketType : option string;
  b_ticketsQuantity : option number }.

Record PurchaseValue := mkPurchaseValue {
  v_ticketType : string;
  v_ticketsQuantity : number }.

(** [purchaseTicketSchema]: [ticketType: Joi.string().required()],
    [ticketsQuantity: Joi.number().required()]. *)
Definition purchaseTicketSchema_validate (body : PurchaseBody) : Error + PurchaseValue :=
  match joi_string "ticketType" (b_ticketType body) with
  | inl e => inl e
  | inr ticketType =>
      match joi_number "ticketsQuantity" (b_ticketsQuantity body) with
      | inl e => inl e
      | inr ticketsQuantity => inr (mkPurchaseValue ticketType ticketsQuantity)
      end
  end.

Record TicketBody := mkTicketBody {
  tb_ticketType : option string;
  tb_price : option number;
  tb_ticketsAvailable : option number }.

Record TicketValue := mkTicketValue {
  tv_ticketType : string;
  tv_price : number;
  tv_ticketsAvailable : number }.

(** [ticketSchema]: [ticketType: Joi.string().required()],
    [price: Joi.number().required()],
    [ticketsAvailable: Joi.number().required()]. *)
Definition ticketSchema_validate (body : TicketBody) : Error + TicketValue :=
  match joi_string "ticketType" (tb_ticketType body) with
  | inl e => inl e
  | inr ticketType =>
      match joi_number "price" (tb_price body) with
      | inl e => inl e
      | inr price =>
          match joi_number "ticketsAvailable" (tb_ticketsAvailable body) with
          | inl e => inl e
          | inr ticketsAvailable => inr (mkTicketValue ticketType price ticketsAvailable)
          end
      end
  end.

(** *** Mongoose models *)

Definition set_ticketsAvailable (ticket : Ticket) (n : number) : Ticket :=
  mkTicket (t_admin ticket) (t_event ticket) (t_ticketType ticket) (t_price ticket) n.

(** The unique index on [ticketType]: is the type held by a document other
    than [self]? *)
Definition ticketType_taken (ts : gmap string Ticket) (self ticketType : string) : bool :=
  existsb (fun it => negb (String.eqb (fst it) self)
                     && String.eqb (t_ticketType (snd it)) ticketType)
          (map_to_list ts).

Definition Ticket_findById (env : Env) (s : Store) (id : string)
  : Error + option (string * Ticket) :=
  await env Ticket_findById_call
    (inr (let oid := castObjectId id in
          match tickets s !! oid with
          | Some t => Some (oid, t)
          | None => None
          end)).

(** [Ticket.find({ event: eventId })], in no promised order. *)
Definition Ticket_find (env : Env) (s : Store) (eventId : string)
  : Error + list (string * Ticket) :=
  await env Ticket_find_call
    (inr (List.filter (fun it => String.eqb (t_event (snd it)) (castObjectId eventId))
                      (map_to_list (tickets s)))).

(** [Ticket.create(doc)]: the setters ([trim]) and validators ([required])
    run first, then the server checks its unique indexes. *)
Definition Ticket_create (env : Env) (s : Store) (doc : Ticket)
  : Error + ((string * Ticket) * Store) :=
  await env Ticket_create_call
    (let doc' := mkTicket (t_admin doc) (castObjectId (t_event doc))
                          (trim (t_ticketType doc)) (t_price doc) (t_ticketsAvailable doc) in
     if negb (truthy (t_ticketType doc')) then inl MongooseValidationError
     else match tickets s !! newId env with
          | Some _ => inl (DuplicateKey "_id" (newId env))
          | None =>
              if ticketType_taken (tickets s) (newId env) (t_ticketType doc')
              then inl (DuplicateKey "ticketType" (t_ticketType doc'))
              else inr ((newId env, doc'),
                        set_tickets s (<[newId env := doc']> (tickets s)))
          end).

(** [Ticket.findByIdAndUpdate(id, { adminId, eventId, ticketType, price,
    ticketsAvailable }, { new: true })]: [adminId] and [eventId] are no paths
    of the schema and are dropped; setters run, validators do not. *)
Definition Ticket_findByIdAndUpdate (env : Env) (s : Store) (id : string)
    (ticketType : string) (price ticketsAvailable : number)
  : Error + (option (string * Ticket) * Store) :=
  await env Ticket_findByIdAndUpdate_call
    (let oid := castObjectId id in
     match tickets s !! oid with
     | None => inr (None, s)
     | Some t =>
         let t' := mkTicket (t_admin t) (t_event t) (trim ticketType) price ticketsAvailable in
         if ticketType_taken (tickets s) oid (trim ticketType)
         then inl (DuplicateKey "ticketType" (trim ticketType))
         else inr (Some (oid, t'), set_tickets s (<[oid := t']> (tickets s)))
     end).

(** [doc.save()] of a ticket loaded as [loaded] and now holding [updated]:
    only the modified path [ticketsAvailable] is written, onto whatever the
    collection holds by then. *)
Definition Ticket_save (env : Env) (s : Store) (id : string) (loaded updated : Ticket)
  : Error + Store :=
  await env Ticket_save_call
    (match tickets s !! id with
     | None => inl DocumentNotFoundError
     | Some cur =>
         if js_eq (t_ticketsAvailable updated) (t_ticketsAvailable loaded) then inr s
         else inr (set_tickets s
                     (<[id := set_ticketsAvailable cur (t_ticketsAvailable updated)]>
                        (tickets s)))
     end).

Definition Events_findById (env : Env) (s : Store) (id : string) : Error + option Event :=
  await env Events_findById_call (inr (events s !! castObjectId id)).

(** [PurchaseTicketModel.create(doc)]; it resolves to the created document
    or rejects. A NaN fails the cast to [Number], which fails the validation
    as a missing [ticketType] does. *)
Definition PurchaseTicketModel_create (env : Env) (s : Store) (doc : PurchasedTicket)
  : Error + (option (string * PurchasedTicket) * Store) :=
  await env PurchaseTicketModel_create_call
    (let doc' := mkPurchasedTicket (p_user doc) (p_event doc) (trim (p_ticketType doc))
                                   (p_ticketsQuantity doc) (p_totalPrice doc) (now env) in
     if is_nan (p_ticketsQuantity doc') || is_nan (p_totalPrice doc')
        || negb (truthy (p_ticketType doc'))
     then inl MongooseValidationError
     else match purchasedTickets s !! newId env with
          | Some _ => inl (DuplicateKey "_id" (newId env))
          | None =>
              inr (Some (newId env, doc'),
                   set_purchasedTickets s (<[newId env := doc']> (purchasedTickets s)))
          end).

(** ** ticketController *)

Definition app_error (statusCode : Z) (msg : string) : Result :=
  Next (AppErr statusCode (JStr msg)).

Definition ticket_json (id : string) (t : Ticket) : json :=
  JObj [("id", JStr id); ("type", JStr (t_ticketType t));
        ("price", jnum (t_price t)); ("ticketsAvailable", jnum (t_ticketsAvailable t))].

Definition createTicketController (env : Env) (s : Store) (req : Request TicketBody)
  : Store * Result :=
  match ticketSchema_validate (req_body req) with
  | inl error => (s, Next error)
  | inr value =>
      let adminId := user_id (req_user req) in
      if negb (truthy adminId) then (s, app_error 401 "unauthorized access")
      else
        let eventId := req_params_id req in
        if negb (ObjectId_isValid eventId) then (s, app_error 400 "invalid event id")
        else
          match Events_findById env s eventId with
          | inl e => (s, Throw e)
          | inr None => (s, app_error 404 "event not found")
          | inr (Some existingEvent) =>
              if negb (ev_active existingEvent) then
                (s, Respond (Json 200 (JObj [("status", JBool true);
                                             ("message", JStr "event is inactive")])))
              else if negb (String.eqb (ev_admin existingEvent) adminId) then
                (s, app_error 403 "you are not authorized to create tickets")
              else
                match Ticket_create env s
                        (mkTicket adminId eventId (tv_ticketType value) (tv_price value)
                                  (tv_ticketsAvailable value)) with
                | inl e => (s, Throw e)
                | inr ((id, newTicket), s') =>
                    (s', Respond (Json 201 (JObj [("status", JBool true);
                                                  ("message", JStr "ticket created successfully");
                                                  ("ticket", ticket_json id newTicket)])))
                end
          end
  end.

Definition updateTicketByIdController (env : Env) (s : Store) (req : Request TicketBody)
  : Store * Result :=
  match ticketSchema_validate (req_body req) with
  | inl error => (s, Next error)
  | inr value =>
      let adminId := user_id (req_user req) in
      if negb (truthy adminId) then (s, app_error 401 "unauthorized access")
      else
        let ticketId := req_params_id req in
        if negb (truthy ticketId) || negb (ObjectId_isValid ticketId) then
          (s, app_error 400 "invalid ticket id")
        else
          match Ticket_findById env s ticketId with
          | inl e => (s, Throw e)
          | inr None => (s, app_error 404 "no tickets found")
          | inr (Some (_, existingTicket)) =>
              (* [existingTicket.event] is an ObjectId, always truthy *)
              if negb (String.eqb (t_admin existingTicket) adminId) then
                (s, app_error 403 "you are not authorized to update this ticket")
              else
                match Ticket_findByIdAndUpdate env s ticketId (tv_ticketType value)
                        (tv_price value) (tv_ticketsAvailable value) with
                | inl e => (s, Throw e)
                | inr (None, s') =>
                    (s', app_error 400 "Ticket not found or could not be updated")
                | inr (Some (id, updatedTicket), s') =>
                    (s', Respond (Json 200 (JObj [("status", JBool true);
                                                  ("message", JStr "ticket updated successfully");
                                                  ("ticket", ticket_json id updatedTicket)])))
                end
          end
  end.

(** [doc.admin.userName] of every populated ticket; a ticket whose admin is
    gone is populated with [null], and reading [userName] off it throws. *)
Fixpoint ticket_views (names : gmap string string) (docs : list (string * Ticket))
  : option (list json) :=
  match docs with
  | [] => Some []
  | (id, doc) :: rest =>
      match names !! t_admin doc with
      | None => None
      | Some userName =>
          match ticket_views names rest with
          | None => None
          | Some views =>
              Some (JObj [("id", JStr id); ("createdBy", JStr userName);
                          ("type", JStr (t_ticketType doc)); ("price", jnum (t_price doc));
                          ("ticketsAvailable", jnum (t_ticketsAvailable doc))] :: views)
          end
      end
  end.

Definition listing_ok (field : string) (payload : json) : Result :=
  Respond (Json 200 (JObj [("status", JBool true); ("message", JStr "successful");
                           (field, payload)])).

Definition is_nil {A : Type} (l : list A) : bool :=
  match l with [] => true | _ => false end.

Definition ticketListByEventController (env : Env) (s : Store) (req : Request unit)
  : Store * Result :=
  let eventId := req_params_id req in
  let key := "tickets:" +:+ eventId in
  match client_get env s key with
  | inl e => (s, Throw e)
  | inr (Some cachedData) => (s, listing_ok "tickets" cachedData)
  | inr None =>
      if negb (ObjectId_isValid eventId) then (s, app_error 400 "invalid event id")
      else
        let userId := user_id (req_user req) in
        if negb (truthy userId) then (s, app_error 401 "unauthorized access")
        else
          match Ticket_find env s eventId with
          | inl e => (s, Throw e)
          | inr allTickets =>
              if is_nil allTickets then
                (s, app_error 404 "no tickets found with this event")
              else
                match ticket_views (admins s) allTickets with
                | None => (s, Throw TypeError)
                | Some views =>
                    let tickets := JArr views in
                    match client_set env s key tickets (60 * 60) with
                    | inl e => (s, Throw e)
                    | inr s' => (s', listing_ok "tickets" tickets)
                    end
                end
          end
  end.

(** ** purchaseTicketController *)

(** [updateTicketsAvailable(ticket, quantity)] *)
Definition updateTicketsAvailable (ticket : Ticket) (quantity : number) : Ticket :=
  let remainingTickets := js_sub (t_ticketsAvailable ticket) quantity in
  if js_ge remainingTickets zero then set_ticketsAvailable ticket remainingTickets
  else set_ticketsAvailable ticket zero.

Definition purchase_json (id : string) (p : PurchasedTicket) : json :=
  JObj [("id", JStr id); ("ticketType", JStr (p_ticketType p));
        ("quantity", jnum (p_ticketsQuantity p)); ("price", jnum (p_totalPrice p))].

(** The controller runs in three stretches, each ending with the effect of
    the call it awaits: [Ticket.findById], [PurchaseTicketModel.create] and
    [updatedTicket.save()]. Between two stretches other requests may run. *)

(** From the top to [await Ticket.findById(ticketId)]. *)
Definition purchase_find (env : Env) (s : Store) (req : Request PurchaseBody)
  : Result + (PurchaseValue * option (string * Ticket)) :=
  match purchaseTicketSchema_validate (req_body req) with
  | inl error => inl (Next error)
  | inr value =>
      let userId := user_id (req_user req) in
      if negb (truthy userId) then inl (app_error 401 "unauthorized access")
      else
        let ticketId := req_params_id req in
        if negb (ObjectId_isValid ticketId) then inl (app_error 400 "invalid event id")
        else
          match Ticket_findById env s ticketId with
          | inl e => inl (Throw e)
          | inr existingTicket => inr (value, existingTicket)
          end
  end.

(** From there to [await PurchaseTicketModel.create(...)]. *)
Definition purchase_create (env : Env) (s : Store) (req : Request PurchaseBody)
    (value : PurchaseValue) (existingTicket : option (string * Ticket))
  : Store * (Result + ((string * Ticket) * option (string * PurchasedTicket))) :=
  match existingTicket with
  | None => (s, inl (app_error 400 "no tickets found"))
  | Some (id, ticket) =>
      let ticketType := v_ticketType value in
      let ticketsQuantity := v_ticketsQuantity value in
      if negb (String.eqb (t_ticketType ticket) ticketType) then
        (s, inl (app_error 400 "invalid ticket type"))
      else if js_gt ticketsQuantity (t_ticketsAvailable ticket) then
        (s, inl (app_error 400 "tickets not available"))
      else
        let totalPrice := js_mul (t_price ticket) ticketsQuantity in
        match PurchaseTicketModel_create env s
                (mkPurchasedTicket (user_id (req_user req)) (t_event ticket) ticketType
                                   ticketsQuantity totalPrice 0) with
        | inl e => (s, inl (Throw e))
        | inr (newPurchasedTicket, s') => (s', inr ((id, ticket), newPurchasedTicket))
        end
  end.

(** From there to [await updatedTicket.save()] and the answer. *)
Definition purchase_save (env : Env) (s : Store) (value : PurchaseValue)
    (existingTicket : string * Ticket)
    (newPurchasedTicket : option (string * PurchasedTicket))
  : Store * Result :=
  match newPurchasedTicket with
  | None => (s, app_error 400 "purchase failed, try again later")
  | Some (pid, purchased) =>
      let updatedTicket :=
        updateTicketsAvailable (snd existingTicket) (v_ticketsQuantity value) in
      match Ticket_save env s (fst existingTicket) (snd existingTicket) updatedTicket with
      | inl e => (s, Throw e)
      | inr s' =>
          (s', Respond (Json 201 (JObj [("status", JBool true);
                                        ("message", JStr "purchase successful");
                                        ("data", purchase_json pid purchased)])))
      end
  end.

(** One request served without any other in between. *)
Definition purchaseTicketController (env : Env) (s : Store) (req : Request PurchaseBody)
  : Store * Result :=
  match purchase_find env s req with
  | inl r => (s, r)
  | inr (value, existingTicket) =>
      match purchase_create env s req value existingTicket with
      | (s1, inl r) => (s1, r)
      | (s1, inr (ticket, newPurchasedTicket)) =>
          purchase_save env s1 value ticket newPurchasedTicket
      end
  end.

(** *** Requests served concurrently

    Node runs one stretch at a time and may switch request at every
    [await]. A pending purchase is at one of the three points above. *)
Inductive Thread :=
| AtFind (env : Env) (req : Request PurchaseBody)
| AtCreate (env : Env) (req : Request PurchaseBody) (value : PurchaseValue)
           (existingTicket : option (string * Ticket))
| AtSave (env : Env) (req : Request PurchaseBody) (value : PurchaseValue)
         (existingTicket : string * Ticket)
         (newPurchasedTicket : option (string * PurchasedTicket))
| Answered (req : Request PurchaseBody) (r : Response).

Definition thread_step (s : Store) (th : Thread) : Store * Thread :=
  match th with
  | AtFind env req =>
      match purchase_find env s req with
      | inl r => (s, Answered req (respond r))
      | inr (value, existingTicket) => (s, AtCreate env req value existingTicket)
      end
  | AtCreate env req value existingTicket =>
      match purchase_create env s req value existingTicket with
      | (s', inl r) => (s', Answered req (respond r))
      | (s', inr (ticket, newPurchasedTicket)) =>
          (s', AtSave env req value ticket newPurchasedTicket)
      end
  | AtSave env req value ticket newPurchasedTicket =>
      let '(s', r) := purchase_save env s value ticket newPurchasedTicket in
      (s', Answered req (respond r))
  | Answered req r => (s, th)
  end.

(** The scheduler resumes the request at position [i]. *)
Definition resume (i : nat) (c : Store * list Thread) : Store * list Thread :=
  match snd c !! i with
  | None => c
  | Some th =>
      let '(s', th') := thread_step (fst c) th in
      (s', <[i := th']> (snd c))
  end.

Definition run_schedule (schedule : list nat) (c : Store * list Thread)
  : Store * list Thread :=
  fold_left (fun c i => resume i c) schedule c.

(** The tickets a request was granted: its [ticketsQuantity], a whole
    number, when the answer is 201 and it names the ticket [id], else none. *)
Definition granted (id : string) (req : Request PurchaseBody) (r : Response) : Z :=
  if (status_of r =? 201) && String.eqb (castObjectId (req_params_id req)) id
  then default 0 (b_ticketsQuantity (req_body req) ≫= whole)
  else 0.

Definition granted_thread (id : string) (th : Thread) : Z :=
  match th with
  | Answered req r => granted id req r
  | _ => 0
  end.

Definition sum_Z (l : list Z) : Z := fold_right Z.add 0 l.

(** Requests served one after the other, each to completion. *)
Fixpoint serve (s : Store) (reqs : list (Env * Request PurchaseBody))
  : Store * list Response :=
  match reqs with
  | [] => (s, [])
  | (env, req) :: rest =>
      let '(s1, r) := purchaseTicketController env s req in
      let '(s2, rs) := serve s1 rest in
      (s2, respond r :: rs)
  end.

Definition granted_all (id : string) (reqs : list (Env * Request PurchaseBody))
    (rs : list Response) : Z :=
  sum_Z (List.map (fun x => granted id (snd (fst x)) (snd x)) (combine reqs rs)).

(** The requests as they arrive, and as they end. *)
Definition pending (reqs : list (Env * Request PurchaseBody)) : list Thread :=
  List.map (fun er => AtFind (fst er) (snd er)) reqs.

Definition answered (reqs : list (Env * Request PurchaseBody)) (rs : list Response)
  : list Thread :=
  List.map (fun x => Answered (snd (fst x)) (snd x)) (combine reqs rs).

(** The schedule without interleaving: from position [i] on, each of [n]
    requests is resumed three times before the next is started. *)
Fixpoint in_turn (i n : nat) : list nat :=
  match n with
  | O => []
  | S n' => i :: i :: i :: in_turn (S i) n'
  end.

(** ** commentListController *)

(** [Comments.find({ event: eventId })], in no promised order. *)
Definition Comments_find (env : Env) (s : Store) (eventId : string)
  : Error + list (string * Comment) :=
  await env Comments_find_call
    (inr (List.filter (fun ic => String.eqb (c_event (snd ic)) (castObjectId eventId))
                      (map_to_list (comments s)))).

(** [populate({ path: "user", select: "userName" })]: the user's [_id] and
    [userName], or [null] when the user is gone. *)
Definition populated_user (names : gmap string string) (uid : string) : json :=
  match names !! uid with
  | Some userName => JObj [("_id", JStr uid); ("userName", JStr userName)]
  | None => JNull
  end.

Definition comment_view (names : gmap string string) (ic : string * Comment) : json :=
  JObj [("id", JStr (fst ic)); ("user", populated_user names (c_user (snd ic)));
        ("comment", JStr (c_comments (snd ic))); ("time", JStr (c_createdAt (snd ic)))].

Definition commentListController (env : Env) (s : Store) (req : Request unit)
  : Store * Result :=
  let eventId := req_params_id req in
  let key := "comment:" +:+ eventId in
  match client_get env s key with
  | inl e => (s, Throw e)
  | inr (Some cachedData) => (s, listing_ok "allComments" cachedData)
  | inr None =>
      if negb (ObjectId_isValid eventId) then (s, app_error 400 "invalid event id")
      else
        match Comments_find env s eventId with
        | inl e => (s, Throw e)
        | inr commentsResult =>
            if is_nil commentsResult then
              (s, app_error 404 "no comments found for this event")
            else
              let allComments := JArr (List.map (comment_view (users s)) commentsResult) in
              match client_set env s key allComments (60 * 60) with
              | inl e => (s, Throw e)
              | inr s' => (s', listing_ok "allComments" allComments)
              end
        end
  end.

(** ** paymentController *)

Record PaymentBody := mkPaymentBody {
  razorpay_payment_id : option string;
  razorpay_order_id : option string;
  razorpay_signature : option string }.

(** The module's [let orderId;]: declared, and assigned nowhere. *)
Definition orderId : option string := None.

(** The secret passed to [crypto.createHmac]. *)
Definition key_secret : string := "ggMzScMI6LI4RpKdaudtuVQb".

(** A value under string concatenation ([+]): an absent one reads
    ["undefined"]. *)
Definition js_concat (v : option string) : string := default "undefined" v.

(** The schema paths of a payment are [required] and [trim]med strings. *)
Definition required_string (v : option string) : option string :=
  match v with
  | Some x => if truthy (trim x) then Some (trim x) else None
  | None => None
  end.

Definition payment_holds (ps : gmap string Payment) (field : Payment -> string)
    (v : string) : bool :=
  existsb (fun ip => String.eqb (field (snd ip)) v) (map_to_list ps).

(** [paymentModel.create(doc)]: validation, then the unique indexes in the
    order of the schema. *)
Definition paymentModel_create (env : Env) (s : Store) (user : string)
    (payment_id order_id signature : option string)
  : Error + (option (string * Payment) * Store) :=
  await env paymentModel_create_call
    (match required_string payment_id, required_string order_id,
           required_string signature with
     | Some pid, Some oid, Some sig =>
         match payments s !! newId env with
         | Some _ => inl (DuplicateKey "_id" (newId env))
         | None =>
             if payment_holds (payments s) pay_razorpay_payment_id pid then
               inl (DuplicateKey "razorpay_payment_id" pid)
             else if payment_holds (payments s) pay_razorpay_order_id oid then
               inl (DuplicateKey "razorpay_order_id" oid)
             else if payment_holds (payments s) pay_razorpay_signature sig then
               inl (DuplicateKey "razorpay_signature" sig)
             else
               let doc := mkPayment user pid oid sig in
               inr (Some (newId env, doc),
                    set_payments s (<[newId env := doc]> (payments s)))
         end
     | _, _, _ => inl MongooseValidationError
     end).

Definition option_string_eqb (a : option string) (b : string) : bool :=
  match a with Some x => String.eqb x b | None => false end.

(** The signature the controller computes for a request. *)
Definition generated_signature (body : PaymentBody) : string :=
  Crypto.createHmac_sha256_hex key_secret
    (js_concat orderId +:+ "|" +:+ js_concat (razorpay_payment_id body)).

Definition paymentVerification (env : Env) (s : Store) (req : Request PaymentBody)
  : Store * Result :=
  let userId := user_id (req_user req) in
  if negb (truthy userId) then (s, app_error 401 "unauthorized access")
  else
    let body := req_body req in
    if negb (option_string_eqb (razorpay_signature body) (generated_signature body)) then
      (s, app_error 400 "payment failed")
    else
      match paymentModel_create env s userId (razorpay_payment_id body)
              (razorpay_order_id body) (razorpay_signature body) with
      | inl e => (s, Throw e)
      | inr (None, s') => (s', app_error 400 "payment failed, try again later")
      | inr (Some _, s') => (s', Respond (Send 200 "success"))
      end.

(** The signature as the specification words it: the HMAC-SHA256, under the
    shared secret, of [orderId + "|" + paymentId], both taken from the
    request. To be compared with [generated_signature]. *)
Definition expected_signature (order_id payment_id : string) : string :=
  Crypto.createHmac_sha256_hex key_secret (order_id +:+ "|" +:+ payment_id).

(** ** Derived notions used by the statements *)

(** The document [purchaseTicketController] hands to
    [PurchaseTicketModel.create], as stored. *)
Definition purchased_doc (env : Env) (req : Request PurchaseBody) (value : PurchaseValue)
    (ticket : Ticket) : PurchasedTicket :=
  mkPurchasedTicket (user_id (req_user req)) (t_event ticket) (trim (v_ticketType value))
    (v_ticketsQuantity value) (js_mul (t_price ticket) (v_ticketsQuantity value)) (now env).

(** The numbers Joi's [number()] lets through. *)
Definition is_safe (a : number) : bool :=
  is_finite a && negb (js_gt a MAX_SAFE_INTEGER || js_lt a MIN_SAFE_INTEGER).

(** A request that asks for a whole number of tickets, from none to
    [2^53 - 1], if it asks for a number at all. *)
Definition whole_quantity (req : Request PurchaseBody) : bool :=
  match b_ticketsQuantity (req_body req) with
  | None => true
  | Some q =>
      match whole q with
      | Some i => (0 <=? i) && (i <=? 2 ^ 53 - 1)
      | None => false
      end
  end.

(** No ticket of the collection has a negative [ticketsAvailable]. *)
Definition nonneg_inventory (s : Store) : Prop :=
  map_Forall (fun _ t => js_le zero (t_ticketsAvailable t) = true) (tickets s).

(** The routes that create or change a ticket. *)
Inductive Operation :=
| CreateTicket (req : Request TicketBody)      (* POST /tickets/create/:id *)
| UpdateTicket (req : Request TicketBody)      (* PUT /tickets/update/:id *)
| Purchase (req : Request PurchaseBody).       (* POST /purchaseTickets/purchase/:id *)

Definition perform (env : Env) (s : Store) (op : Operation) : Store * Result :=
  match op with
  | CreateTicket req => createTicketController env s req
  | UpdateTicket req => updateTicketByIdController env s req
  | Purchase req => purchaseTicketController env s req
  end.

(** The [ticketsAvailable] a request body asks to store, if any. *)
Definition supplied_ticketsAvailable (op : Operation) : option number :=
  match op with
  | CreateTicket req => tb_ticketsAvailable (req_body req)
  | UpdateTicket req => tb_ticketsAvailable (req_body req)
  | Purchase _ => None
  end.

(** The two cached listings. *)
Inductive Listing := TicketListing | CommentListing.

Definition cache_key (k : Listing) (eventId : string) : string :=
  match k with
  | TicketListing => "tickets:" +:+ eventId
  | CommentListing => "comment:" +:+ eventId
  end.

Definition listing_field (k : Listing) : string :=
  match k with
  | TicketListing => "tickets"
  | CommentListing => "allComments"
  end.

Definition list_controller (k : Listing) : Env -> Store -> Request unit -> Store * Result :=
  match k with
  | TicketListing => ticketListByEventController
  | CommentListing => commentListController
  end.

(** The answer to an error that is not operational. *)
Definition something_went_wrong : Response :=
  Json 500 (JObj [("message", JStr "Something went wrong")]).

Definition rejected (statusCode : Z) (msg : string) : Response :=
  Json statusCode (JObj [("status", JBool false); ("message", JStr msg)]).

(** ** A concrete deployment, for the examples *)

Module Scenario.

Definition no_rejects : Call -> bool := fun _ => false.

Definition ticketId : string := "64b7f0a1c2d3e4f5a6b7c8d9".
Definition eventId : string := "64b7f0a1c2d3e4f5a6b7c8e0".
Definition adminId : string := "64b7f0a1c2d3e4f5a6b7c8a0".
Definition buyerId : string := "64b7f0a1c2d3e4f5a6b7c8b0".

Definition admin : User := mkUser adminId "ADMIN".
Definition buyer : User := mkUser buyerId "USER".

(** One event with one ticket type: VIP, unit price 100, five left. *)
Definition store : Store :=
  mkStore {[ ticketId := mkTicket adminId eventId "VIP" (int 100) (int 5) ]} ∅ ∅
          {[ eventId := mkEvent adminId true ]} ∅
          {[ adminId := "alice" ]} {[ buyerId := "bob" ]} ∅.

Definition env_a : Env := mkEnv 1000 "650000000000000000000001" no_rejects.
Definition env_b : Env := mkEnv 1001 "650000000000000000000002" no_rejects.
Definition env_c : Env := mkEnv 1002 "650000000000000000000003" no_rejects.

(** The purchase record cannot be persisted. *)
Definition env_create_rejects : Env :=
  mkEnv 1000 "650000000000000000000001"
        (fun c => match c with PurchaseTicketModel_create_call => true | _ => false end).

Definition buy (q : Z) : Request PurchaseBody :=
  mkRequest buyer ticketId (mkPurchaseBody (Some "VIP") (Some (int q))).

Definition list_tickets : Request unit := mkRequest buyer eventId tt.

Definition new_ticket (n : Z) : Request TicketBody :=
  mkRequest admin eventId (mkTicketBody (Some "Standard") (Some (int 40)) (Some (int n))).

Definition reprice (price : Z) : Request TicketBody :=
  mkRequest admin ticketId (mkTicketBody (Some "VIP") (Some (int price)) (Some (int 5))).

(** A listing cached under a key that is no event id. *)
Definition warm_store : Store :=
  set_redis store {[ "tickets:not-an-id" := mkCacheEntry (JArr [JStr "cached"]) 4600 ]}.

(** The listing as a first read caches it: five VIP tickets available. *)
Definition listing_before : json :=
  JArr [JObj [("id", JStr ticketId); ("createdBy", JStr "alice");
              ("type", JStr "VIP"); ("price", JNum (int 100));
              ("ticketsAvailable", JNum (int 5))]].

Definition pay (order_id signature : string) : Request PaymentBody :=
  mkRequest buyer "" (mkPaymentBody (Some "pay_1") (Some order_id) (Some signature)).

End Scenario.

(** ** The other controllers of the ticket, purchase and comment files *)

Definition set_comments (s : Store) (cs : gmap string Comment) : Store :=
  mkStore (tickets s) (purchasedTickets s) (payments s) (events s) cs
          (admins s) (users s) (redis s).

(** The awaited calls of these controllers that the ones above do not make. *)
Inductive MoreCall :=
| Ticket_findByIdAndDelete_call
| PurchaseTicketModel_find_call
| PurchaseTicketModel_findById_call
| Comments_findById_call
| Comments_findByIdAndUpdate_call
| Comments_findByIdAndDelete_call.

(** The environment of a request, with the fate of these calls too. *)
Record FullEnv := mkFullEnv {
  base : Env;
  rejects_more : MoreCall -> bool }.

Definition await_more {A : Type} (env : FullEnv) (c : MoreCall) (r : Error + A)
  : Error + A :=
  if rejects_more env c then inl MongoNetworkError else r.

(** [next] is no parameter of [getAllPurchasedTicketsController] and of
    [purchasedTicketByIdController] (they are written [async (req, res)]) and
    no variable of their module: [return next(err)] throws this. *)
Definition ReferenceError : Error := OtherError "ReferenceError".

(** *** ticketController, continued *)

Definition Ticket_findByIdAndDelete (env : FullEnv) (s : Store) (id : string)
  : Error + (option (string * Ticket) * Store) :=
  await_more env Ticket_findByIdAndDelete_call
    (let oid := castObjectId id in
     match tickets s !! oid with
     | None => inr (None, s)
     | Some t => inr (Some (oid, t), set_tickets s (delete oid (tickets s)))
     end).

Definition deleteTicketsByIdController (env : FullEnv) (s : Store) (req : Request unit)
  : Store * Result :=
  let ticketId := req_params_id req in
  if negb (truthy ticketId) || negb (ObjectId_isValid ticketId) then
    (s, app_error 400 "invalid ticket id")
  else
    let adminId := user_id (req_user req) in
    if negb (truthy adminId) then (s, app_error 401 "unauthorized access")
    else
      match Ticket_findById (base env) s ticketId with
      | inl e => (s, Throw e)
      | inr None => (s, app_error 404 "no tickets found")
      | inr (Some (_, existingTicket)) =>
          if negb (String.eqb (t_admin existingTicket) adminId) then
            (s, app_error 403 "you are not authorized to delete this ticket")
          else
            match Ticket_findByIdAndDelete env s ticketId with
            | inl e => (s, Throw e)
            | inr (None, s') =>
                (s', app_error 400 "Ticket not found or could not be deleted")
            | inr (Some _, s') =>
                (s', Respond (Json 200 (JObj [("status", JBool true);
                                              ("message", JStr "tickets deleted successfully")])))
            end
      end.

(** [singleTicketByIdController]; its cache reads and writes are commented
    out in the source. The ticket is populated with its admin, and
    [existingTicket.admin.userName] throws when the admin is gone. *)
Definition singleTicketByIdController (env : Env) (s : Store) (req : Request unit)
  : Store * Result :=
  let ticketId := req_params_id req in
  if negb (ObjectId_isValid ticketId) then (s, app_error 400 "invalid event id")
  else
    let userId := user_id (req_user req) in
    if negb (truthy userId) then (s, app_error 401 "unauthorized access")
    else
      match Ticket_findById env s ticketId with
      | inl e => (s, Throw e)
      | inr None => (s, app_error 404 "ticket not found")
      | inr (Some (id, existingTicket)) =>
          match admins s !! t_admin existingTicket with
          | None => (s, Throw TypeError)
          | Some userName =>
              let resObj :=
                JObj [("id", JStr id); ("createBy", JStr userName);
                      ("type", JStr (t_ticketType existingTicket));
                      ("price", jnum (t_price existingTicket));
                      ("ticketsAvailable", jnum (t_ticketsAvailable existingTicket))] in
              (s, Respond (Json 200 (JObj [("status", JBool true);
                                           ("message", JStr "successful");
                                           ("ticket", resObj)])))
          end
      end.

(** The ticket routes behind [isAdmin]. The [auth] middleware has set
    [req.user] before. *)
Definition isAdmin (user : User) : option Error :=
  if negb (String.eqb (user_role user) "ADMIN")
  then Some (AppErr 401 (JStr "You are not authorized"))
  else None.

Inductive TicketRoute :=
| PostCreate (req : Request TicketBody)     (* post("/create/:id", auth, isAdmin, ...) *)
| PutUpdate (req : Request TicketBody)      (* put("/update/:id", auth, isAdmin, ...) *)
| DeleteDelete (req : Request unit).        (* delete("/delete/:id", auth, isAdmin, ...) *)

Definition route_user (r : TicketRoute) : User :=
  match r with
  | PostCreate req => req_user req
  | PutUpdate req => req_user req
  | DeleteDelete req => req_user req
  end.

Definition ticketRoute (env : FullEnv) (s : Store) (r : TicketRoute) : Store * Result :=
  match isAdmin (route_user r) with
  | Some err => (s, Next err)
  | None =>
      match r with
      | PostCreate req => createTicketController (base env) s req
      | PutUpdate req => updateTicketByIdController (base env) s req
      | DeleteDelete req => deleteTicketsByIdController env s req
      end
  end.

(** *** purchaseTicketController, continued *)

(** [PurchaseTicketModel.find({ user: userId })], in no promised order. *)
Definition PurchaseTicketModel_find (env : FullEnv) (s : Store) (userId : string)
  : Error + list (string * PurchasedTicket) :=
  await_more env PurchaseTicketModel_find_call
    (inr (List.filter (fun ip => String.eqb (p_user (snd ip)) userId)
                      (map_to_list (purchasedTickets s)))).

Definition PurchaseTicketModel_findById (env : FullEnv) (s : Store) (id : string)
  : Error + option (string * PurchasedTicket) :=
  await_more env PurchaseTicketModel_findById_call
    (inr (let oid := castObjectId id in
          match purchasedTickets s !! oid with
          | Some p => Some (oid, p)
          | None => None
          end)).

Definition purchased_view (ip : string * PurchasedTicket) : json :=
  JObj [("id", JStr (fst ip)); ("ticket", JStr (p_ticketType (snd ip)));
        ("ticketsQuantity", jnum (p_ticketsQuantity (snd ip)));
        ("price", jnum (p_totalPrice (snd ip)))].

(** [getAllPurchasedTicketsController]; the read of the cache is commented
    out in the source, the write is not. *)
Definition getAllPurchasedTicketsController (env : FullEnv) (s : Store)
    (req : Request unit) : Store * Result :=
  let userId := user_id (req_user req) in
  if negb (truthy userId) then (s, Throw ReferenceError)
  else
    let key := "users:" +:+ userId in
    match PurchaseTicketModel_find env s userId with
    | inl e => (s, Throw e)
    | inr allTickets =>
        if is_nil allTickets then (s, Throw ReferenceError)
        else
          let tickets := JArr (List.map purchased_view allTickets) in
          match client_set (base env) s key tickets (60 * 60) with
          | inl e => (s, Throw e)
          | inr s' => (s', listing_ok "tickets" tickets)
          end
    end.

(** [purchasedTicketByIdController]; its cache reads and writes are
    commented out in the source. *)
Definition purchasedTicketByIdController (env : FullEnv) (s : Store)
    (req : Request unit) : Store * Result :=
  let purchasedTicketId := req_params_id req in
  let userId := user_id (req_user req) in
  if negb (truthy userId) then (s, Throw ReferenceError)
  else if negb (ObjectId_isValid purchasedTicketId) then (s, Throw ReferenceError)
  else
    match PurchaseTicketModel_findById env s purchasedTicketId with
    | inl e => (s, Throw e)
    | inr None => (s, Throw ReferenceError)
    | inr (Some (id, purchasedTicket)) =>
        let resObj :=
          JObj [("id", JStr id); ("ticketType", JStr (p_ticketType purchasedTicket));
                ("ticketsQuantity", jnum (p_ticketsQuantity purchasedTicket));
                ("price", jnum (p_totalPrice purchasedTicket))] in
        (s, Respond (Json 200 (JObj [("status", JBool true);
                                     ("message", JStr "successful");
                                     ("ticket", resObj)])))
    end.

(** *** commentController, continued *)

Record CommentBody := mkCommentBody { cb_comment : option string }.

(** [commentSchema]: [comment: Joi.string().trim().required()]; the value is
    trimmed before it is tested for emptiness. *)
Definition commentSchema_validate (body : CommentBody) : Error + string :=
  match cb_comment body with
  | None => inl (is_required "comment")
  | Some c => if truthy (trim c) then inr (trim c) else inl (not_empty "comment")
  end.

Definition Comments_findById (env : FullEnv) (s : Store) (id : string)
  : Error + option (string * Comment) :=
  await_more env Comments_findById_call
    (inr (let oid := castObjectId id in
          match comments s !! oid with
          | Some c => Some (oid, c)
          | None => None
          end)).

(** [Comments.findByIdAndUpdate(id, { user, event, comments }, { new: true })] *)
Definition Comments_findByIdAndUpdate (env : FullEnv) (s : Store) (id : string)
    (user event text : string)
  : Error + (option (string * Comment) * Store) :=
  await_more env Comments_findByIdAndUpdate_call
    (let oid := castObjectId id in
     match comments s !! oid with
     | None => inr (None, s)
     | Some c =>
         let c' := mkComment user event (trim text) (c_createdAt c) in
         inr (Some (oid, c'), set_comments s (<[oid := c']> (comments s)))
     end).

Definition Comments_findByIdAndDelete (env : FullEnv) (s : Store) (id : string)
  : Error + (option (string * Comment) * Store) :=
  await_more env Comments_findByIdAndDelete_call
    (let oid := castObjectId id in
     match comments s !! oid with
     | None => inr (None, s)
     | Some c => inr (Some (oid, c), set_comments s (delete oid (comments s)))
     end).

Definition editCommentController (env : FullEnv) (s : Store) (req : Request CommentBody)
  : Store * Result :=
  match commentSchema_validate (req_body req) with
  | inl error => (s, Next error)
  | inr comment =>
      let userId := user_id (req_user req) in
      if negb (truthy userId) then (s, app_error 401 "unauthorized access")
      else
        let commentId := req_params_id req in
        if negb (ObjectId_isValid commentId) then (s, app_error 400 "invalid comment Id")
        else
          match Comments_findById env s commentId with
          | inl e => (s, Throw e)
          | inr None => (s, app_error 404 "comment not found")
          | inr (Some (_, existingComment)) =>
              if negb (String.eqb (c_user existingComment) userId) then
                (s, app_error 401 "you are not authorized to edit this comment")
              else
                match Comments_findByIdAndUpdate env s commentId userId
                        (c_event existingComment) comment with
                | inl e => (s, Throw e)
                | inr (None, s') => (s', app_error 400 "failed to edit comment")
                | inr (Some (id, editedComment), s') =>
                    (s', Respond (Json 200
                           (JObj [("status", JBool true);
                                  ("message", JStr "comment updated successfully");
                                  ("data", JObj [("id", JStr id);
                                                 ("comment", JStr (c_comments editedComment))])])))
                end
          end
  end.

Definition deleteCommentController (env : FullEnv) (s : Store) (req : Request unit)
  : Store * Result :=
  let userId := user_id (req_user req) in
  if negb (truthy userId) then (s, app_error 401 "unauthorized access")
  else
    let commentId := req_params_id req in
    if negb (ObjectId_isValid commentId) then (s, app_error 400 "invalid comment Id")
    else
      match Comments_findById env s commentId with
      | inl e => (s, Throw e)
      | inr None => (s, app_error 404 "comment not found")
      | inr (Some (_, existingComment)) =>
          if negb (String.eqb (c_user existingComment) userId) then
            (s, app_error 401 "you are not authorized to delete this comment")
          else
            match Comments_findByIdAndDelete env s commentId with
            | inl e => (s, Throw e)
            | inr (None, s') =>
                (s', app_error 400 "failed to delete comment, try again later")
            | inr (Some _, s') =>
                (s', Respond (Json 200 (JObj [("status", JBool true);
                                              ("message", JStr "comment deleted successfully")])))
            end
      end.

(** *** Notions used by the further statements *)

(** The entry of a ticket in the listing of its event. *)
Definition ticket_view (names : gmap string string) (it : string * Ticket) : option json :=
  match names !! t_admin (snd it) with
  | Some userName =>
      Some (JObj [("id", JStr (fst it)); ("createdBy", JStr userName);
                  ("type", JStr (t_ticketType (snd it))); ("price", jnum (t_price (snd it)));
                  ("ticketsAvailable", jnum (t_ticketsAvailable (snd it)))])
  | None => None
  end.

(** No two payments share a payment id, an order id or a signature. *)
Definition unique_payments (s : Store) : Prop :=
  forall i j p q,
    payments s !! i = Some p -> payments s !! j = Some q ->
    pay_razorpay_payment_id p = pay_razorpay_payment_id q
    \/ pay_razorpay_order_id p = pay_razorpay_order_id q
    \/ pay_razorpay_signature p = pay_razorpay_signature q ->
    i = j.

(** No two tickets share a ticket type. *)
Definition unique_ticketTypes (s : Store) : Prop :=
  forall i j t u,
    tickets s !! i = Some t -> tickets s !! j = Some u ->
    t_ticketType t = t_ticketType u -> i = j.

Module Cases.

Definition full (env : Env) : FullEnv := mkFullEnv env (fun _ => false).

Definition commentId : string := "64b7f0a1c2d3e4f5a6b7c8c0".

(** The store of the scenario with one comment of the buyer. *)
Definition commented : Store :=
  set_comments Scenario.store
    {[ commentId := mkComment Scenario.buyerId Scenario.eventId "see you there" "1/1/2024" ]}.

Definition other : User := mkUser "64b7f0a1c2d3e4f5a6b7c8b1" "USER".
Definition other_admin : User := mkUser "64b7f0a1c2d3e4f5a6b7c8a1" "ADMIN".

Definition ask (u : User) (id : string) : Request unit := mkRequest u id tt.

Definition edit (u : User) (text : string) : Request CommentBody :=
  mkRequest u commentId (mkCommentBody (Some text)).

(** The save of the ticket cannot be done. *)
Definition env_save_rejects : Env :=
  mkEnv 1000 "650000000000000000000001"
        (fun c => match c with Ticket_save_call => true | _ => false end).

(** The store of the scenario with its event closed. *)
Definition closed : Store :=
  mkStore (tickets Scenario.store) ∅ ∅
          {[ Scenario.eventId := mkEvent Scenario.adminId false ]} ∅
          (admins Scenario.store) (users Scenario.store) ∅.

End Cases.

(** * Properties *)

(** The answer to a concrete error is computed and is not 201. *)
Ltac not_201 := cbn; discriminate.

(** A stretch that ends the request without touching the store. *)
Ltac refused := intros [= <- <-]; split; [reflexivity | not_201].

(** ** The hash against published test vectors *)

Example sha256_abc :
  Crypto.hex (Crypto.sha256 (Crypto.bytes_of_string "abc"))
  = "ba7816bf8f01cfea414140de5dae2223b00361a396177a9cb410ff61f20015ad".
Proof. vm_compute. reflexivity. Qed.

Example sha256_empty :
  Crypto.hex (Crypto.sha256 [])
  = "e3b0c44298fc1c149afbf4c8996fb92427ae41e4649b934ca495991b7852b855".
Proof. vm_compute. reflexivity. Qed.

Example hmac_rfc4231_case2 :
  Crypto.createHmac_sha256_hex "Jefe" "what do ya want for nothing?"
  = "5bdcc146bf60754e6a042426089575c75a003f089d2739839dec58b964ec3843".
Proof. vm_compute. reflexivity. Qed.

(** ** Numbers *)

Lemma one_pos : 0 < one.
Proof. unfold one. apply Z.pow_pos_nonneg; lia. Qed.

Lemma nearest_even_exact q d : 0 < d -> nearest_even (q * d) d = q.
Proof.
  intros Hd. unfold nearest_even.
  rewrite Z.div_mul by lia. rewrite Z.mod_mul by lia.
  destruct (2 * 0 ?= d) eqn:H; [apply Z.compare_eq in H; lia | reflexivity |].
  apply Z.compare_gt_iff in H. lia.
Qed.

Lemma nearest_even_nonneg p d : 0 <= p -> 0 < d -> 0 <= nearest_even p d.
Proof.
  intros Hp Hd. unfold nearest_even.
  assert (0 <= p / d) by (apply Z.div_pos; lia).
  destruct (_ ?= _); [destruct (Z.even _)|..]; lia.
Qed.

(** Rounding keeps the sign. *)
Lemma round53_nonneg p d : 0 <= p -> 0 < d -> js_le zero (round53 p d) = true.
Proof.
  intros Hp Hd. unfold round53.
  set (k := Z.max 0 _).
  assert (Hk : 0 < 2 ^ k) by (apply Z.pow_pos_nonneg; lia).
  assert (Hn : 0 <= nearest_even p (d * 2 ^ k) * 2 ^ k).
  { apply Z.mul_nonneg_nonneg; [apply nearest_even_nonneg|]; nia. }
  destruct (_ <=? _).
  - destruct (_ <? _) eqn:Hneg; [apply Z.ltb_lt in Hneg; lia | reflexivity].
  - unfold js_le, js_lt, js_eq, zero.
    destruct (0 <? _) eqn:H; [reflexivity|]. apply Z.ltb_ge in H.
    apply Z.eqb_eq. lia.
Qed.

Lemma nearest_even_bounds p d b :
  0 < d -> - (b * d) <= p < b * d -> - b <= nearest_even p d <= b.
Proof.
  intros Hd Hp. unfold nearest_even.
  assert (- b <= p / d) by (apply Z.div_le_lower_bound; lia).
  assert (p / d < b) by (apply Z.div_lt_upper_bound; lia).
  destruct (_ ?= _); [destruct (Z.even _)|..]; lia.
Qed.

(** Rounding yields doubles. *)
Lemma round53_double p d : 0 < d -> is_double (round53 p d).
Proof.
  intros Hd. unfold round53.
  set (x := Z.abs p / d). set (k := Z.max 0 (Z.log2 x + 1 - 53)).
  assert (Hk : 0 <= k) by lia.
  assert (Hpk : 0 < 2 ^ k) by (apply Z.pow_pos_nonneg; lia).
  assert (Hx0 : 0 <= x) by (apply Z.div_pos; lia).
  assert (Hx : x < 2 ^ (k + 53)).
  { destruct (Z.eq_dec x 0) as [->|Hnz]; [apply Z.pow_pos_nonneg; lia|].
    apply Z.lt_le_trans with (2 ^ Z.succ (Z.log2 x)); [apply Z.log2_spec; lia|].
    apply Z.pow_le_mono_r; lia. }
  assert (Hp : Z.abs p < 2 ^ 53 * (d * 2 ^ k)).
  { rewrite Z.pow_add_r in Hx by lia.
    assert (Z.abs p < (x + 1) * d).
    { pose proof (Z.div_mod (Z.abs p) d ltac:(lia)) as Hdm.
      pose proof (Z.mod_pos_bound (Z.abs p) d Hd). subst x. nia. }
    nia. }
  destruct (_ <=? _) eqn:Hov; [exact I|]. apply Z.leb_gt in Hov.
  split; [exact Hov|].
  exists (nearest_even p (d * 2 ^ k)), k. split; [exact Hk|]. split; [reflexivity|].
  apply Z.abs_le. apply nearest_even_bounds; [nia | lia].
Qed.

Lemma arithmetic_yields_doubles a b :
  is_double (js_sub a b) /\ is_double (js_mul a b).
Proof.
  split; destruct a as [x|s|], b as [y|s'|]; cbn [js_sub js_mul is_double];
    try exact I; try (destruct (_ =? _); exact I); try (destruct (Bool.eqb _ _); exact I).
  - apply round53_double. lia.
  - apply round53_double, one_pos.
Qed.

(** A whole number below [2^53] in magnitude is a double, and rounding
    leaves it alone. *)
Lemma round53_whole i d :
  0 < d -> Z.abs i < 2 ^ 53 -> round53 (i * one * d) d = Fin (i * one).
Proof.
  intros Hd Hi. pose proof one_pos as Hone. unfold round53.
  replace (Z.abs (i * one * d) / d) with (Z.abs i * one).
  2:{ rewrite !Z.abs_mul, (Z.abs_eq one), (Z.abs_eq d) by lia.
      rewrite Z.div_mul by lia. reflexivity. }
  set (k := Z.max 0 _).
  assert (Hk : 0 <= k <= 1074).
  { subst k. destruct (Z.eq_dec i 0) as [->|Hnz].
    - change (Z.abs 0) with 0. rewrite Z.mul_0_l. change (Z.log2 0) with 0. lia.
    - assert (0 < Z.abs i) by lia.
      unfold one. rewrite Z.log2_mul_pow2 by lia.
      assert (Z.log2 (Z.abs i) < 53) by (apply Z.log2_lt_pow2; lia).
      pose proof (Z.log2_nonneg (Z.abs i)). lia. }
  assert (Hsplit : one = 2 ^ (1074 - k) * 2 ^ k).
  { unfold one. rewrite <- Z.pow_add_r by lia. f_equal. lia. }
  assert (Hpk : 0 < 2 ^ k) by (apply Z.pow_pos_nonneg; lia).
  replace (i * one * d) with (i * 2 ^ (1074 - k) * (d * 2 ^ k)) by (rewrite Hsplit; ring).
  rewrite nearest_even_exact by nia.
  replace (i * 2 ^ (1074 - k) * 2 ^ k) with (i * one) by (rewrite Hsplit; ring).
  assert (Hlt : Z.abs (i * one) < 2 ^ 2098).
  { rewrite Z.abs_mul, (Z.abs_eq one) by lia.
    apply Z.lt_trans with (2 ^ 53 * one); [nia|].
    unfold one. rewrite <- Z.pow_add_r by lia. apply Z.pow_lt_mono_r; lia. }
  destruct (_ <=? _) eqn:H; [apply Z.leb_le in H; lia | reflexivity].
Qed.

Lemma int_exact i : Z.abs i < 2 ^ 53 -> int i = Fin (i * one).
Proof.
  intros Hi. unfold int. rewrite <- (Z.mul_1_r (i * one)) at 1.
  apply round53_whole; [lia | exact Hi].
Qed.

Lemma js_sub_int a b :
  Z.abs a < 2 ^ 53 -> Z.abs b < 2 ^ 53 -> Z.abs (a - b) < 2 ^ 53 ->
  js_sub (int a) (int b) = int (a - b).
Proof.
  intros Ha Hb Hab. rewrite !int_exact by assumption. cbn [js_sub].
  replace (a * one - b * one) with ((a - b) * one * 1) by ring.
  apply round53_whole; [lia | exact Hab].
Qed.

Lemma js_mul_int a b :
  Z.abs a < 2 ^ 53 -> Z.abs b < 2 ^ 53 -> Z.abs (a * b) < 2 ^ 53 ->
  js_mul (int a) (int b) = int (a * b).
Proof.
  intros Ha Hb Hab. rewrite !int_exact by assumption. cbn [js_mul].
  replace (a * one * (b * one)) with (a * b * one * one) by ring.
  apply round53_whole; [apply one_pos | exact Hab].
Qed.

Lemma js_lt_int a b :
  Z.abs a < 2 ^ 53 -> Z.abs b < 2 ^ 53 -> js_lt (int a) (int b) = (a <? b).
Proof.
  intros Ha Hb. rewrite !int_exact by assumption. cbn [js_lt].
  pose proof one_pos as Hone.
  destruct (a <? b) eqn:H.
  - apply Z.ltb_lt in H. apply Z.ltb_lt. nia.
  - apply Z.ltb_ge in H. apply Z.ltb_ge. nia.
Qed.

Lemma js_eq_int a b :
  Z.abs a < 2 ^ 53 -> Z.abs b < 2 ^ 53 -> js_eq (int a) (int b) = (a =? b).
Proof.
  intros Ha Hb. rewrite !int_exact by assumption. cbn [js_eq].
  pose proof one_pos as Hone.
  destruct (a =? b) eqn:H.
  - apply Z.eqb_eq in H. apply Z.eqb_eq. nia.
  - apply Z.eqb_neq in H. apply Z.eqb_neq. nia.
Qed.

Lemma whole_int i : Z.abs i < 2 ^ 53 -> whole (int i) = Some i.
Proof.
  intros Hi. rewrite int_exact by exact Hi. pose proof one_pos. cbn [whole].
  rewrite Z.mod_mul by lia. cbn. rewrite Z.div_mul by lia. reflexivity.
Qed.

Lemma round53_not_nan p d : is_nan (round53 p d) = false.
Proof. unfold round53. destruct (_ <=? _); reflexivity. Qed.

(** A product of finite numbers is a number, if only an infinity. *)
Lemma js_mul_not_nan a b :
  is_finite a = true -> is_finite b = true -> is_nan (js_mul a b) = false.
Proof.
  destruct a as [x| |], b as [y| |]; try discriminate. intros _ _.
  apply round53_not_nan.
Qed.

Lemma js_le_not_gt a b : js_le a b = true -> js_gt a b = false.
Proof.
  unfold js_le, js_gt.
  destruct a as [x|[]|], b as [y|[]|]; cbn; try reflexivity; try discriminate.
  intros H. apply orb_true_iff in H. apply Z.ltb_ge. lia.
Qed.

Lemma whole_Some a i : whole a = Some i -> a = Fin (i * one).
Proof.
  destruct a as [n| |]; cbn [whole]; try discriminate.
  destruct (n mod one =? 0) eqn:H; [|discriminate].
  intros [= <-]. apply Z.eqb_eq in H. f_equal.
  pose proof one_pos. rewrite Z.mul_comm. apply Z.div_exact; lia.
Qed.

Lemma whole_Fin i : whole (Fin (i * one)) = Some i.
Proof.
  pose proof one_pos. cbn [whole].
  rewrite Z.mod_mul by lia. cbn. rewrite Z.div_mul by lia. reflexivity.
Qed.

Lemma js_eq_eq a b : js_eq a b = true -> a = b.
Proof.
  destruct a as [x|s|], b as [y|s'|]; cbn; try discriminate.
  - intros H. apply Z.eqb_eq in H. congruence.
  - intros H. apply Bool.eqb_prop in H. congruence.
Qed.

(** What is at or below a number that exists is taken from it with a
    result at or above zero. *)
Lemma js_sub_nonneg a b :
  is_finite b = true -> js_le b a = true -> js_le zero (js_sub a b) = true.
Proof.
  destruct b as [y| |]; [|discriminate..]. intros _.
  destruct a as [x|[]|]; cbn [js_sub]; try (cbn; discriminate).
  - intros H. apply round53_nonneg; [|lia].
    unfold js_le, js_lt, js_eq in H. apply orb_true_iff in H as [H|H]; lia.
  - intros _. reflexivity.
Qed.

(** From here on the rounding is used through these lemmas or evaluated. *)
#[global] Opaque round53 one.

(** The arithmetic against what Node prints. *)
Example double_arithmetic :
  js_mul (decimal 435 (-2)) (int 100) = decimal 43499999999999994 (-14) /\
  js_mul (int (2 ^ 53 - 1)) (int 3) = int 27021597764222972 /\
  js_mul (int (- (2 ^ 53 - 1))) (int 3) = int (-27021597764222972) /\
  js_sub (int 2) (int (- (2 ^ 53 - 1))) = int 9007199254740992 /\
  js_sub (int (2 ^ 53 + 4)) (int 1) = int (2 ^ 53 + 4) /\
  js_sub (decimal 3 (-1)) (decimal 1 (-1)) = decimal 19999999999999998 (-17) /\
  js_mul (decimal 1 200) (decimal 1 200) = Inf false /\
  js_mul (decimal 5 (-324)) (decimal 5 (-1)) = zero /\
  decimal 1 999 = Inf false.
Proof. vm_compute. repeat split; reflexivity. Qed.

(** ** Trimming *)

Section Strip.

Variable P : list ascii -> bool.
Hypothesis P_nil : P [] = false.

Lemma behind_Some l rest :
  behind P l = Some rest ->
  (length rest < length l)%nat /\ exists lead, l = lead ++ rest.
Proof.
  unfold behind. intros H.
  assert (Hdrop : forall n, P (take (S n) l) = true ->
                            (length (drop (S n) l) < length l)%nat
                            /\ exists lead, l = lead ++ drop (S n) l).
  { intros n Hp. split.
    - destruct l; [rewrite take_nil, P_nil in Hp; discriminate|].
      rewrite length_drop. cbn. lia.
    - exists (take (S n) l). symmetry. apply take_drop. }
  destruct (P (take 1 l)) eqn:H1;
    [|destruct (P (take 2 l)) eqn:H2; [|destruct (P (take 3 l)) eqn:H3; [|discriminate]]];
    injection H as <-; apply Hdrop; assumption.
Qed.

Lemma behind_None_prefix l tail : behind P (l ++ tail) = None -> behind P l = None.
Proof.
  unfold behind. intros H.
  destruct (P (take 1 (l ++ tail))) eqn:H1; [discriminate|].
  destruct (P (take 2 (l ++ tail))) eqn:H2; [discriminate|].
  destruct (P (take 3 (l ++ tail))) eqn:H3; [discriminate|].
  assert (Hn : forall n, (n <= 3)%nat -> P (take n l) = false).
  { intros n Hn3. destruct (decide (n <= length l)%nat) as [Hle|Hgt].
    - rewrite <- (take_app_le l tail n) by exact Hle.
      destruct n as [|[|[|[|n]]]]; [exact P_nil | exact H1 | exact H2 | exact H3 | lia].
    - rewrite take_ge by lia.
      destruct l as [|a [|b [|c l']]]; [exact P_nil | | | cbn in Hgt; lia].
      + exact H1.
      + exact H2. }
  rewrite !Hn by lia. reflexivity.
Qed.

Lemma strip_fixed fuel l : behind P l = None -> strip P fuel l = l.
Proof. intros H. destruct fuel; [reflexivity|]. cbn. rewrite H. reflexivity. Qed.

Lemma strip_clean fuel l : (length l <= fuel)%nat -> behind P (strip P fuel l) = None.
Proof.
  revert l. induction fuel as [|fuel IH]; intros l Hl.
  - destruct l; [|cbn in Hl; lia]. cbn. unfold behind. cbn. rewrite P_nil. reflexivity.
  - cbn. destruct (behind P l) as [rest|] eqn:Hb; [|exact Hb].
    apply IH. apply behind_Some in Hb as [Hlt _]. lia.
Qed.

Lemma strip_suffix fuel l : exists lead, l = lead ++ strip P fuel l.
Proof.
  revert l. induction fuel as [|fuel IH]; intros l; [exists []; reflexivity|].
  cbn. destruct (behind P l) as [rest|] eqn:Hb; [|exists []; reflexivity].
  apply behind_Some in Hb as [_ [lead ->]].
  destruct (IH rest) as [lead' Hrest]. exists (lead ++ lead').
  rewrite <- app_assoc, <- Hrest. reflexivity.
Qed.

Lemma strip_idempotent l :
  strip P (length (strip P (length l) l)) (strip P (length l) l) = strip P (length l) l.
Proof. apply strip_fixed, strip_clean. lia. Qed.

End Strip.

Lemma trimEnd_prefix l : exists tail, l = trimEnd l ++ tail.
Proof.
  unfold trimEnd.
  destruct (strip_suffix (fun code => is_white_space (rev code)) eq_refl (length l) (rev l))
    as [lead Hl].
  exists (rev lead). rewrite <- rev_app_distr, <- Hl, rev_involutive. reflexivity.
Qed.

Lemma trimEnd_idempotent l : trimEnd (trimEnd l) = trimEnd l.
Proof.
  unfold trimEnd. rewrite rev_involutive, length_rev.
  rewrite <- (length_rev l). f_equal.
  apply strip_idempotent. reflexivity.
Qed.

Lemma trimStart_trimEnd l :
  behind is_white_space l = None -> trimStart (trimEnd l) = trimEnd l.
Proof.
  intros H. unfold trimStart. apply strip_fixed.
  destruct (trimEnd_prefix l) as [tail Hl]. rewrite Hl in H.
  exact (behind_None_prefix is_white_space eq_refl _ _ H).
Qed.

(** Trimming twice, as Joi and then Mongoose do, is trimming once. *)
Lemma trim_idempotent s : trim (trim s) = trim s.
Proof.
  unfold trim. rewrite list_ascii_of_string_of_list_ascii. f_equal.
  rewrite trimStart_trimEnd; [apply trimEnd_idempotent|].
  unfold trimStart. apply strip_clean; [reflexivity | lia].
Qed.


(** A no-break space before and a byte order mark after are trimmed like
    the blanks. *)
Example trim_unicode :
  trim (String (ascii_of_N 194) (String (ascii_of_N 160)
         ("hi " +:+ String (ascii_of_N 239) (String (ascii_of_N 187)
                      (String (ascii_of_N 191) EmptyString)))))
  = "hi"
  /\ trim "  a b  " = "a b".
Proof. vm_compute. split; reflexivity. Qed.

(** ** Awaited calls and validation *)

(** An awaited call that resolves did what the model says it does; one that
    rejects does so with a network error or with the model's own error. *)

Lemma await_inr {A : Type} (env : Env) (c : Call) (r : Error + A) (a : A) :
  await env c r = inr a -> r = inr a.
Proof. unfold await. destruct (rejects env c); [discriminate | auto]. Qed.

Lemma await_inl {A : Type} (env : Env) (c : Call) (r : Error + A) (e : Error) :
  await env c r = inl e -> e = MongoNetworkError \/ r = inl e.
Proof. unfold await. destruct (rejects env c); [left; congruence | auto]. Qed.

(** What [Joi.number().required()] lets through is the number of the
    request, and it is finite and of the safe range. *)
Lemma joi_number_inr k v x :
  joi_number k v = inr x -> v = Some x /\ is_safe x = true.
Proof.
  unfold joi_number, is_safe. destruct v as [[n|s|]|]; [|discriminate..].
  destruct (js_gt _ _ || js_lt _ _) eqn:H; [discriminate|].
  intros [= <-]. rewrite H. auto.
Qed.

Lemma joi_number_inl k v e :
  joi_number k v = inl e -> exists details, e = JoiError details.
Proof.
  unfold joi_number, is_required, is_infinity, not_a_number, not_safe.
  destruct v as [[n|s|]|]; [destruct (js_gt _ _ || js_lt _ _); [|discriminate]|..];
    intros [= <-]; eauto.
Qed.

Lemma joi_number_safe k x : is_safe x = true -> joi_number k (Some x) = inr x.
Proof.
  unfold is_safe, joi_number. destruct x as [n|s|]; [|discriminate..].
  cbn [is_finite andb]. destruct (js_gt _ _ || js_lt _ _); [discriminate | reflexivity].
Qed.

Lemma is_safe_finite x : is_safe x = true -> is_finite x = true.
Proof. unfold is_safe. intros H. apply andb_true_iff in H. tauto. Qed.

(** A validated purchase body carries the values of the request. *)
Lemma validate_fields body value :
  purchaseTicketSchema_validate body = inr value ->
  b_ticketType body = Some (v_ticketType value) /\
  b_ticketsQuantity body = Some (v_ticketsQuantity value).
Proof.
  unfold purchaseTicketSchema_validate, joi_string.
  destruct (b_ticketType body) as [ty|]; [|discriminate].
  destruct (truthy ty); [|discriminate].
  destruct (joi_number _ _) as [e|q] eqn:Hq; [discriminate|].
  apply joi_number_inr in Hq as [Hq _].
  intros [= <-]. auto.
Qed.

Lemma validate_safe body value :
  purchaseTicketSchema_validate body = inr value ->
  is_safe (v_ticketsQuantity value) = true.
Proof.
  unfold purchaseTicketSchema_validate.
  destruct (joi_string _ _); [discriminate|].
  destruct (joi_number _ _) as [e|q] eqn:Hq; [discriminate|].
  apply joi_number_inr in Hq as [_ Hq].
  intros [= <-]. exact Hq.
Qed.

Lemma validate_error body e :
  purchaseTicketSchema_validate body = inl e -> exists details, e = JoiError details.
Proof.
  unfold purchaseTicketSchema_validate, joi_string, is_required, not_empty.
  destruct (b_ticketType body) as [ty|]; [destruct (truthy ty)|];
    try (intros [= <-]; eauto; fail).
  destruct (joi_number _ _) as [e'|q] eqn:Hq; [|discriminate].
  apply joi_number_inl in Hq as [d ->]. intros [= <-]. eauto.
Qed.

(** ** purchaseTicketController, stretch by stretch *)

(** The first stretch ends the request only with an error. *)
Lemma purchase_find_inl env s req r :
  purchase_find env s req = inl r -> status_of (respond r) <> 201.
Proof.
  unfold purchase_find.
  destruct (purchaseTicketSchema_validate (req_body req)) as [e|value] eqn:Hv.
  { apply validate_error in Hv as [d ->]. intros [= <-]. not_201. }
  repeat case_match; intros [= <-]; try not_201.
  match goal with
  | H : Ticket_findById _ _ _ = inl _ |- _ =>
      apply await_inl in H as [-> | H]; [|discriminate]
  end.
  not_201.
Qed.

(** The second stretch ends the request only with an error, and then it has
    written nothing. *)
Lemma purchase_create_inl env s req value ex s' r :
  purchase_create env s req value ex = (s', inl r) ->
  s' = s /\ status_of (respond r) <> 201.
Proof.
  unfold purchase_create.
  destruct ex as [[id ticket]|]; [|refused].
  destruct (negb _); [refused|].
  destruct (js_gt _ _); [refused|].
  destruct (PurchaseTicketModel_create _ _ _) as [e|[np s1]] eqn:Hc; [|discriminate].
  intros [= <- <-]. split; [reflexivity|].
  apply await_inl in Hc as [-> | Hc]; [not_201|].
  cbv zeta in Hc. repeat case_match; simplify_eq; not_201.
Qed.

(** When the second stretch goes on, the ticket was found, its type and
    quantity passed the checks, and one record was inserted under a fresh
    [_id]. *)
Lemma purchase_create_inr env s req value ex s' tk np :
  purchase_create env s req value ex = (s', inr (tk, np)) ->
  ex = Some tk /\
  t_ticketType (snd tk) = v_ticketType value /\
  js_gt (v_ticketsQuantity value) (t_ticketsAvailable (snd tk)) = false /\
  purchasedTickets s !! newId env = None /\
  np = Some (newId env, purchased_doc env req value (snd tk)) /\
  s' = set_purchasedTickets s
         (<[newId env := purchased_doc env req value (snd tk)]> (purchasedTickets s)).
Proof.
  unfold purchase_create.
  destruct ex as [[id ticket]|]; [|discriminate].
  destruct (String.eqb (t_ticketType ticket) (v_ticketType value)) eqn:Hty; [|discriminate].
  cbn [negb].
  destruct (js_gt _ _) eqn:Hq; [discriminate|].
  destruct (PurchaseTicketModel_create _ _ _) as [e|[np1 s1]] eqn:Hc; [discriminate|].
  intros [= <- <- <-].
  apply await_inr in Hc. cbv zeta in Hc.
  cbn [p_user p_event p_ticketType p_ticketsQuantity p_totalPrice] in Hc.
  apply String.eqb_eq in Hty.
  destruct (_ || _ || _); [discriminate|].
  destruct (purchasedTickets s !! newId env) eqn:Hfresh; [discriminate|].
  injection Hc as <- <-.
  cbn [fst snd]. unfold purchased_doc. repeat split; auto.
Qed.

(** [updateTicketsAvailable] writes [ticketsAvailable] and nothing else,
    never a number below zero, and the difference when the quantity is a
    finite number at or below what is available. *)
Lemma updateTicketsAvailable_writes ticket q :
  updateTicketsAvailable ticket q
  = set_ticketsAvailable ticket (t_ticketsAvailable (updateTicketsAvailable ticket q)).
Proof. unfold updateTicketsAvailable. destruct (js_ge _ _); reflexivity. Qed.

Lemma updateTicketsAvailable_nonneg ticket q :
  js_le zero (t_ticketsAvailable (updateTicketsAvailable ticket q)) = true.
Proof.
  unfold updateTicketsAvailable.
  destruct (js_ge _ _) eqn:H; [exact H | reflexivity].
Qed.

Lemma updateTicketsAvailable_le ticket q :
  is_finite q = true ->
  js_le q (t_ticketsAvailable ticket) = true ->
  updateTicketsAvailable ticket q
  = set_ticketsAvailable ticket (js_sub (t_ticketsAvailable ticket) q).
Proof.
  intros Hfin Hq. unfold updateTicketsAvailable, js_ge.
  rewrite (js_sub_nonneg _ _ Hfin Hq). reflexivity.
Qed.

Lemma set_ticketsAvailable_same ticket :
  set_ticketsAvailable ticket (t_ticketsAvailable ticket) = ticket.
Proof. destruct ticket; reflexivity. Qed.

(** The third stretch: either [save] rejects and nothing is written, or the
    answer is 201 and only [ticketsAvailable] of the ticket is written. *)
Lemma purchase_save_cases env s value tk pid rec s' r :
  purchase_save env s value tk (Some (pid, rec)) = (s', r) ->
  (status_of (respond r) <> 201 /\ s' = s) \/
  (r = Respond (Json 201 (JObj [("status", JBool true);
                                ("message", JStr "purchase successful");
                                ("data", purchase_json pid rec)])) /\
   purchasedTickets s' = purchasedTickets s /\
   payments s' = payments s /\
   redis s' = redis s /\
   exists cur, tickets s !! fst tk = Some cur /\
     let n := t_ticketsAvailable (updateTicketsAvailable (snd tk) (v_ticketsQuantity value)) in
     tickets s' = if js_eq n (t_ticketsAvailable (snd tk)) then tickets s
                  else <[fst tk := set_ticketsAvailable cur n]> (tickets s)).
Proof.
  unfold purchase_save.
  destruct (Ticket_save _ _ _ _ _) as [e|s1] eqn:Hs; intros [= <- <-].
  - left. split; [|reflexivity].
    apply await_inl in Hs as [-> | Hs]; [cbn; discriminate|].
    repeat case_match; simplify_eq; cbn; discriminate.
  - right. apply await_inr in Hs.
    destruct (tickets s !! fst tk) as [cur|] eqn:Hcur; [|discriminate].
    split; [reflexivity|].
    destruct (js_eq _ _) eqn:Hn; injection Hs as <-; cbv zeta; rewrite ?Hn; eauto 10.
Qed.

(** When the first stretch goes on, the request passed validation and the
    ticket, if any, is the stored one. *)
Lemma purchase_find_inr env s req value ex :
  purchase_find env s req = inr (value, ex) ->
  purchaseTicketSchema_validate (req_body req) = inr value /\
  truthy (user_id (req_user req)) = true /\
  ObjectId_isValid (req_params_id req) = true /\
  ex = match tickets s !! castObjectId (req_params_id req) with
       | Some t => Some (castObjectId (req_params_id req), t)
       | None => None
       end.
Proof.
  unfold purchase_find.
  destruct (purchaseTicketSchema_validate _) as [e|v]; [discriminate|].
  destruct (truthy _); [|discriminate].
  destruct (ObjectId_isValid _); [|discriminate].
  cbn [negb].
  destruct (Ticket_findById _ _ _) as [e|t] eqn:Hf; [discriminate|].
  intros [= <- <-]. apply await_inr in Hf. injection Hf as <-. auto.
Qed.

(** A purchase that is not answered with 201 leaves the tickets alone. *)
Lemma purchase_uncommitted env s req :
  status_of (respond (snd (purchaseTicketController env s req))) <> 201 ->
  tickets (fst (purchaseTicketController env s req)) = tickets s.
Proof.
  unfold purchaseTicketController.
  destruct (purchase_find env s req) as [r|[value ex]] eqn:Hf; [reflexivity|].
  destruct (purchase_create env s req value ex) as [s1 [r|[tk np]]] eqn:Hc.
  { apply purchase_create_inl in Hc as [-> _]. reflexivity. }
  apply purchase_create_inr in Hc as (_ & _ & _ & _ & -> & ->).
  destruct (purchase_save _ _ _ _ _) as [s2 r] eqn:Hs.
  apply purchase_save_cases in Hs as [[_ ->] | [-> _]]; [reflexivity|].
  intros H. exfalso. apply H. reflexivity.
Qed.

(** What a purchase answered with 201 has done. *)
Lemma purchase_committed env s req :
  status_of (respond (snd (purchaseTicketController env s req))) = 201 ->
  exists value t,
    purchaseTicketSchema_validate (req_body req) = inr value /\
    tickets s !! castObjectId (req_params_id req) = Some t /\
    t_ticketType t = v_ticketType value /\
    js_gt (v_ticketsQuantity value) (t_ticketsAvailable t) = false /\
    purchasedTickets s !! newId env = None /\
    snd (purchaseTicketController env s req)
      = Respond (Json 201 (JObj [("status", JBool true);
                                 ("message", JStr "purchase successful");
                                 ("data", purchase_json (newId env)
                                            (purchased_doc env req value t))])) /\
    tickets (fst (purchaseTicketController env s req))
      = <[castObjectId (req_params_id req)
          := updateTicketsAvailable t (v_ticketsQuantity value)]> (tickets s) /\
    purchasedTickets (fst (purchaseTicketController env s req))
      = <[newId env := purchased_doc env req value t]> (purchasedTickets s).
Proof.
  unfold purchaseTicketController.
  destruct (purchase_find env s req) as [r|[value ex]] eqn:Hf.
  { intros H. exfalso. revert H. apply (purchase_find_inl _ _ _ _ Hf). }
  apply purchase_find_inr in Hf as (Hv & _ & _ & Hex).
  destruct (purchase_create env s req value ex) as [s1 [r|[tk np]]] eqn:Hc.
  { apply purchase_create_inl in Hc as [_ Hr]. intros H. exfalso. apply Hr, H. }
  apply purchase_create_inr in Hc as (Htk & Hty & Hq & Hfresh & -> & ->).
  destruct (purchase_save _ _ _ _ _) as [s2 r] eqn:Hs.
  apply purchase_save_cases in Hs as [[Hr _] | (-> & Hp & _ & _ & cur & Hcur & Ht)].
  { intros H. exfalso. apply Hr, H. }
  intros _.
  destruct (tickets s !! castObjectId (req_params_id req)) as [t|] eqn:Hlook;
    rewrite Hex in Htk; [|discriminate].
  injection Htk as <-. cbn [fst snd] in *.
  exists value, t. change (tickets s !! castObjectId (req_params_id req) = Some cur) in Hcur.
  rewrite Hcur in Hlook. injection Hlook as ->.
  repeat split; auto.
  cbv zeta in Ht. rewrite Ht.
  pose proof (updateTicketsAvailable_writes t (v_ticketsQuantity value)) as Hw.
  set (n := t_ticketsAvailable (updateTicketsAvailable t (v_ticketsQuantity value))) in *.
  rewrite Hw.
  destruct (js_eq _ _) eqn:Hn; [|reflexivity].
  apply js_eq_eq in Hn. rewrite Hn, set_ticketsAvailable_same.
  symmetry. apply insert_id. exact Hcur.
Qed.

(** No stretch writes to the cache. *)
Lemma purchase_redis env s req :
  redis (fst (purchaseTicketController env s req)) = redis s.
Proof.
  unfold purchaseTicketController.
  destruct (purchase_find env s req) as [r|[value ex]] eqn:Hf; [reflexivity|].
  destruct (purchase_create env s req value ex) as [s1 [r|[tk np]]] eqn:Hc.
  { apply purchase_create_inl in Hc as [-> _]. reflexivity. }
  apply purchase_create_inr in Hc as (_ & _ & _ & _ & -> & ->).
  destruct (purchase_save _ _ _ _ _) as [s2 r] eqn:Hs.
  apply purchase_save_cases in Hs as [[_ ->] | (_ & _ & _ & Hr & _)]; [reflexivity|].
  cbn [fst]. rewrite Hr. reflexivity.
Qed.

(** ** Requests served in turn *)

(** One request for a whole number of tickets takes from a ticket that
    holds a whole number of them exactly what it is granted, and no more than
    there is. *)
Lemma purchase_ticket_effect env s req id t A :
  tickets s !! id = Some t ->
  whole (t_ticketsAvailable t) = Some A ->
  0 <= A <= 2 ^ 53 - 1 ->
  whole_quantity req = true ->
  exists t',
    tickets (fst (purchaseTicketController env s req)) !! id = Some t' /\
    whole (t_ticketsAvailable t')
    = Some (A - granted id req (respond (snd (purchaseTicketController env s req)))) /\
    0 <= granted id req (respond (snd (purchaseTicketController env s req))) <= A.
Proof.
  intros Ht HA HAr Hwhole. unfold granted. pose proof one_pos as Hone.
  destruct (decide (status_of (respond (snd (purchaseTicketController env s req))) = 201))
    as [Hc|Hu].
  - rewrite Hc. cbn [Z.eqb Pos.eqb andb].
    destruct (purchase_committed _ _ _ Hc) as (value & t0 & Hv & Ht0 & _ & Hq & _ & _ & Hts & _).
    apply validate_fields in Hv as [_ Hbq].
    unfold whole_quantity in Hwhole. rewrite Hbq in Hwhole |- *. cbn [mbind option_bind].
    destruct (whole (v_ticketsQuantity value)) as [i|] eqn:Hi; [|discriminate].
    apply andb_true_iff in Hwhole as [Hi0 HiM].
    apply Z.leb_le in Hi0. apply Z.leb_le in HiM.
    rewrite Hts.
    destruct (String.eqb _ id) eqn:Hid; cbn [from_option]; unfold Datatypes.id.
    + apply String.eqb_eq in Hid. rewrite Hid in *.
      rewrite lookup_insert_eq. rewrite Ht0 in Ht. injection Ht as ->.
      apply whole_Some in Hi, HA.
      rewrite Hi, HA in Hq. cbn [js_gt js_lt] in Hq. apply Z.ltb_ge in Hq.
      assert (HiA : i <= A) by nia.
      eexists. split; [reflexivity|]. split; [|lia].
      unfold updateTicketsAvailable. rewrite Hi, HA. cbn [js_sub].
      replace (A * one - i * one) with ((A - i) * one * 1) by ring.
      rewrite round53_whole by lia.
      replace (js_ge (Fin ((A - i) * one)) zero) with true.
      * cbn [t_ticketsAvailable set_ticketsAvailable]. apply whole_Fin.
      * symmetry. unfold js_ge, js_le, js_lt, js_eq, zero.
        destruct (0 <? (A - i) * one) eqn:Hpos; [reflexivity|].
        apply Z.ltb_ge in Hpos. apply Z.eqb_eq. nia.
    + apply String.eqb_neq in Hid. rewrite lookup_insert_ne by exact Hid.
      exists t. split; [exact Ht|]. rewrite Z.sub_0_r. split; [exact HA | lia].
  - rewrite (purchase_uncommitted _ _ _ Hu).
    destruct (_ =? 201) eqn:H201; [apply Z.eqb_eq in H201; contradiction|].
    cbn [andb]. exists t. split; [exact Ht|]. rewrite Z.sub_0_r. split; [exact HA | lia].
Qed.

Lemma serve_no_oversell s reqs id t A :
  tickets s !! id = Some t ->
  whole (t_ticketsAvailable t) = Some A ->
  0 <= A <= 2 ^ 53 - 1 ->
  forallb (fun er => whole_quantity (snd er)) reqs = true ->
  exists t' A',
    tickets (fst (serve s reqs)) !! id = Some t' /\
    whole (t_ticketsAvailable t') = Some A' /\
    0 <= A' /\
    granted_all id reqs (snd (serve s reqs)) = A - A'.
Proof.
  revert s t A. induction reqs as [|[env req] rest IH]; intros s t A Ht HA HAr Hall.
  - exists t, A. cbn. split; [exact Ht|]. split; [exact HA|]. split; [lia|].
    unfold granted_all. cbn. lia.
  - cbn [forallb snd] in Hall. apply andb_true_iff in Hall as [Hreq Hrest].
    destruct (purchase_ticket_effect env s req id t A Ht HA HAr Hreq) as (t1 & Ht1 & HA1 & Hg).
    cbn [serve].
    destruct (purchaseTicketController env s req) as [s1 r] eqn:Hp.
    cbn [fst snd] in *.
    destruct (IH s1 t1 _ Ht1 HA1 ltac:(lia) Hrest) as (t' & A' & Ht' & HA' & Hpos' & Hsum).
    destruct (serve s1 rest) as [s2 rs] eqn:Hs. cbn [fst snd] in *.
    exists t', A'. split; [exact Ht'|]. split; [exact HA'|]. split; [exact Hpos'|].
    unfold granted_all, sum_Z in *. cbn [combine List.map fold_right fst snd].
    lia.
Qed.

(** ** Creation and update of tickets *)

Lemma ticket_validate_fields body value :
  ticketSchema_validate body = inr value ->
  tb_ticketType body = Some (tv_ticketType value) /\
  tb_price body = Some (tv_price value) /\
  tb_ticketsAvailable body = Some (tv_ticketsAvailable value).
Proof.
  unfold ticketSchema_validate, joi_string.
  destruct (tb_ticketType body) as [ty|]; [|discriminate].
  destruct (truthy ty); [|discriminate].
  destruct (joi_number "price" _) as [e|p] eqn:Hp; [discriminate|].
  destruct (joi_number "ticketsAvailable" _) as [e|n] eqn:Hn; [discriminate|].
  apply joi_number_inr in Hp as [Hp _]. apply joi_number_inr in Hn as [Hn _].
  intros [= <-]. auto.
Qed.

(** What [createTicketController] can do to the tickets: nothing, or add
    one document holding the validated [ticketsAvailable]. *)
Lemma create_tickets env s req :
  tickets (fst (createTicketController env s req)) = tickets s \/
  exists value doc,
    ticketSchema_validate (req_body req) = inr value /\
    t_ticketsAvailable doc = tv_ticketsAvailable value /\
    t_price doc = tv_price value /\
    tickets s !! newId env = None /\
    tickets (fst (createTicketController env s req)) = <[newId env := doc]> (tickets s).
Proof.
  unfold createTicketController.
  destruct (ticketSchema_validate (req_body req)) as [e|value] eqn:Hv; [left; reflexivity|].
  destruct (negb (truthy _)); [left; reflexivity|].
  destruct (negb (ObjectId_isValid _)); [left; reflexivity|].
  destruct (Events_findById _ _ _) as [e|[ev|]]; try (left; reflexivity).
  destruct (negb (ev_active ev)); [left; reflexivity|].
  destruct (negb (String.eqb _ _)); [left; reflexivity|].
  destruct (Ticket_create _ _ _) as [e|[[id doc] s']] eqn:Hc; [left; reflexivity|].
  right. apply await_inr in Hc. cbn in Hc.
  destruct (negb (truthy _)); [discriminate|].
  destruct (tickets s !! newId env) eqn:Hfresh; [discriminate|].
  destruct (ticketType_taken _ _ _); [discriminate|].
  injection Hc as <- <- <-.
  eexists value, _. repeat split; [reflexivity..|].
  reflexivity.
Qed.

(** What [updateTicketByIdController] can do to the tickets: nothing, or
    overwrite type, price and [ticketsAvailable] of the named document. *)
Lemma update_tickets env s req :
  tickets (fst (updateTicketByIdController env s req)) = tickets s \/
  exists value t,
    ticketSchema_validate (req_body req) = inr value /\
    tickets s !! castObjectId (req_params_id req) = Some t /\
    tickets (fst (updateTicketByIdController env s req))
      = <[castObjectId (req_params_id req)
          := mkTicket (t_admin t) (t_event t) (trim (tv_ticketType value))
                      (tv_price value) (tv_ticketsAvailable value)]> (tickets s).
Proof.
  unfold updateTicketByIdController.
  destruct (ticketSchema_validate (req_body req)) as [e|value] eqn:Hv; [left; reflexivity|].
  destruct (negb (truthy (user_id _))); [left; reflexivity|].
  destruct (_ || _); [left; reflexivity|].
  destruct (Ticket_findById _ _ _) as [e|[[id0 t0]|]]; try (left; reflexivity).
  destruct (negb (String.eqb _ _)); [left; reflexivity|].
  destruct (Ticket_findByIdAndUpdate _ _ _ _ _ _) as [e|[[[id t']|] s']] eqn:Hu;
    [left; reflexivity| |].
  - right. apply await_inr in Hu. cbn in Hu.
    destruct (tickets s !! castObjectId (req_params_id req)) as [t|] eqn:Ht; [|discriminate].
    destruct (ticketType_taken _ _ _); [discriminate|].
    injection Hu as <- <- <-. exists value, t. auto.
  - left. apply await_inr in Hu. cbn in Hu.
    destruct (tickets s !! castObjectId (req_params_id req)) as [t|] eqn:Ht.
    + destruct (ticketType_taken _ _ _); discriminate.
    + injection Hu as <-. reflexivity.
Qed.

(** An update never writes to the purchase records. *)
Lemma update_purchasedTickets env s req :
  purchasedTickets (fst (updateTicketByIdController env s req)) = purchasedTickets s.
Proof.
  unfold updateTicketByIdController.
  destruct (ticketSchema_validate (req_body req)) as [e|value] eqn:Hv; [reflexivity|].
  destruct (negb (truthy (user_id _))); [reflexivity|].
  destruct (_ || _); [reflexivity|].
  destruct (Ticket_findById _ _ _) as [e|[[id0 t0]|]]; try reflexivity.
  destruct (negb (String.eqb _ _)); [reflexivity|].
  destruct (Ticket_findByIdAndUpdate _ _ _ _ _ _) as [e|[[[id t']|] s']] eqn:Hu;
    [reflexivity| |];
    apply await_inr in Hu; cbn in Hu;
    destruct (tickets s !! castObjectId (req_params_id req)) as [t|];
    try destruct (ticketType_taken _ _ _); simplify_eq; reflexivity.
Qed.

(** ** Payments *)

(** What a verification answered "success" has checked and stored. *)
Lemma paymentVerification_success env s req :
  snd (paymentVerification env s req) = Respond (Send 200 "success") ->
  exists pid oid sig,
    required_string (razorpay_payment_id (req_body req)) = Some pid /\
    required_string (razorpay_order_id (req_body req)) = Some oid /\
    required_string (razorpay_signature (req_body req)) = Some sig /\
    truthy (user_id (req_user req)) = true /\
    option_string_eqb (razorpay_signature (req_body req)) (generated_signature (req_body req))
      = true /\
    payments s !! newId env = None /\
    payments (fst (paymentVerification env s req))
      = <[newId env := mkPayment (user_id (req_user req)) pid oid sig]> (payments s).
Proof.
  unfold paymentVerification.
  destruct (truthy (user_id (req_user req))); [|discriminate].
  destruct (option_string_eqb _ _); [|discriminate].
  cbn [negb].
  destruct (paymentModel_create _ _ _ _ _ _) as [e|[[p|] s']] eqn:Hc; try discriminate.
  intros _. apply await_inr in Hc.
  destruct (required_string (razorpay_payment_id _)) as [pid|]; [|discriminate].
  destruct (required_string (razorpay_order_id _)) as [oid|]; [|discriminate].
  destruct (required_string (razorpay_signature _)) as [sig|]; [|discriminate].
  destruct (payments s !! newId env) eqn:Hfresh; [discriminate|].
  repeat (destruct (payment_holds _ _ _); [discriminate|]).
  injection Hc as <- <-. exists pid, oid, sig. auto 10.
Qed.

(** The outcomes of [paymentModel.create] on a store that already holds the
    signature: it rejects, and whatever it rejects with is answered 500. *)
Lemma create_duplicate_signature env s user pid oid sig id doc :
  payments s !! id = Some doc ->
  required_string sig = Some (pay_razorpay_signature doc) ->
  exists e, paymentModel_create env s user pid oid sig = inl e /\
            status_of (errorHandler e) = 500.
Proof.
  intros Hdoc Hsig. unfold paymentModel_create, await.
  destruct (rejects env paymentModel_create_call); [eexists; split; reflexivity|].
  destruct (required_string pid) as [p|]; [|eexists; split; reflexivity].
  destruct (required_string oid) as [o|]; [|eexists; split; reflexivity].
  rewrite Hsig.
  destruct (payments s !! newId env); [eexists; split; reflexivity|].
  destruct (payment_holds (payments s) pay_razorpay_payment_id p);
    [eexists; split; reflexivity|].
  destruct (payment_holds (payments s) pay_razorpay_order_id o);
    [eexists; split; reflexivity|].
  assert (Hdup : payment_holds (payments s) pay_razorpay_signature
                   (pay_razorpay_signature doc) = true).
  { unfold payment_holds. apply existsb_exists. exists (id, doc). split.
    - apply list_elem_of_In, elem_of_map_to_list, Hdoc.
    - apply String.eqb_refl. }
  rewrite Hdup. eexists; split; reflexivity.
Qed.

(** After a "success", a request with the same signature stores nothing and
    is answered neither 409 nor 200. *)
Lemma second_payment env1 env2 s req1 req2 :
  snd (paymentVerification env1 s req1) = Respond (Send 200 "success") ->
  razorpay_signature (req_body req2) = razorpay_signature (req_body req1) ->
  let s1 := fst (paymentVerification env1 s req1) in
  payments (fst (paymentVerification env2 s1 req2)) = payments s1 /\
  status_of (respond (snd (paymentVerification env2 s1 req2))) <> 409 /\
  status_of (respond (snd (paymentVerification env2 s1 req2))) <> 200 /\
  (truthy (user_id (req_user req2)) = true ->
   razorpay_payment_id (req_body req2) = razorpay_payment_id (req_body req1) ->
   status_of (respond (snd (paymentVerification env2 s1 req2))) = 500).
Proof.
  intros Hok Hsame s1.
  destruct (paymentVerification_success _ _ _ Hok)
    as (pid & oid & sig & _ & _ & Hsig & _ & Hg & _ & Hs1).
  fold s1 in Hs1.
  assert (Hdoc : payments s1 !! newId env1
                 = Some (mkPayment (user_id (req_user req1)) pid oid sig))
    by (rewrite Hs1; apply lookup_insert_eq).
  rewrite <- Hsame in Hsig.
  destruct (create_duplicate_signature env2 s1 (user_id (req_user req2))
              (razorpay_payment_id (req_body req2)) (razorpay_order_id (req_body req2))
              (razorpay_signature (req_body req2)) _ _ Hdoc Hsig) as (e & He & H500).
  unfold paymentVerification.
  destruct (truthy (user_id (req_user req2))); cbn [negb].
  - destruct (option_string_eqb (razorpay_signature (req_body req2))
                (generated_signature (req_body req2))) eqn:Hcheck; cbn [negb].
    + rewrite He. cbn [fst snd respond tryCatch]. rewrite H500.
      repeat split; try discriminate.
    + repeat split; try (cbn; discriminate).
      intros _ Hpid. exfalso.
      unfold generated_signature in Hcheck, Hg.
      rewrite Hsame, Hpid, Hg in Hcheck. discriminate.
  - repeat split; try (cbn; discriminate).
Qed.

(** ** The interleaved model agrees with the controller *)

(** A request resumed three times with no other in between is served as
    [purchaseTicketController] serves it. *)
Lemma three_steps env s req (before after : list Thread) :
  run_schedule [length before; length before; length before]
    (s, before ++ AtFind env req :: after)
  = (fst (purchaseTicketController env s req),
     before ++ Answered req (respond (snd (purchaseTicketController env s req))) :: after).
Proof.
  assert (Hl : forall th, (before ++ th :: after) !! length before = Some th).
  { intros th. rewrite lookup_app_r by lia. rewrite Nat.sub_diag. reflexivity. }
  assert (Hi : forall th th', <[length before := th']> (before ++ th :: after)
                              = before ++ th' :: after).
  { intros th th'. rewrite insert_app_r_alt by lia. rewrite Nat.sub_diag. reflexivity. }
  unfold purchaseTicketController, run_schedule, resume.
  cbn [fold_left fst snd]. rewrite Hl. cbn [thread_step].
  destruct (purchase_find env s req) as [r|[value ex]].
  { rewrite Hi. cbn [fst snd]. rewrite Hl. cbn [thread_step]. rewrite Hi.
    cbn [fst snd]. rewrite Hl. cbn [thread_step]. rewrite Hi. reflexivity. }
  rewrite Hi. cbn [fst snd]. rewrite Hl. cbn [thread_step].
  destruct (purchase_create env s req value ex) as [s1 [r|[tk np]]].
  { rewrite Hi. cbn [fst snd]. rewrite Hl. cbn [thread_step]. rewrite Hi. reflexivity. }
  rewrite Hi. cbn [fst snd]. rewrite Hl. cbn [thread_step].
  destruct (purchase_save env s1 value tk np) as [s2 r]. rewrite Hi. reflexivity.
Qed.

Lemma run_schedule_app a b c :
  run_schedule (a ++ b) c = run_schedule b (run_schedule a c).
Proof. unfold run_schedule. apply fold_left_app. Qed.

(** The schedule without interleaving serves the requests in turn. *)
Lemma in_turn_serves s reqs (before : list Thread) :
  run_schedule (in_turn (length before) (length reqs)) (s, before ++ pending reqs)
  = (fst (serve s reqs), before ++ answered reqs (snd (serve s reqs))).
Proof.
  revert s before. induction reqs as [|[env req] rest IH]; intros s before.
  - reflexivity.
  - cbn [length in_turn pending List.map fst snd].
    change (length before :: length before :: length before
              :: in_turn (S (length before)) (length rest))
      with ([length before; length before; length before]
              ++ in_turn (S (length before)) (length rest)).
    rewrite run_schedule_app, three_steps.
    cbn [serve].
    destruct (purchaseTicketController env s req) as [s1 r]. cbn [fst snd].
    specialize (IH s1 (before ++ [Answered req (respond r)])).
    rewrite length_app, Nat.add_1_r in IH. cbn [length] in IH.
    rewrite <- !app_assoc in IH. cbn [app] in IH.
    unfold pending in IH. rewrite IH.
    destruct (serve s1 rest) as [s2 rs]. reflexivity.
Qed.

Lemma granted_answered id reqs rs :
  sum_Z (List.map (granted_thread id) (answered reqs rs)) = granted_all id reqs rs.
Proof.
  unfold answered, granted_all. rewrite List.map_map. reflexivity.
Qed.

(** ** No oversell (C1) *)

(** C1 (as amended): when purchase requests are served one after the other,
    each resumed to its answer before the next is started, and each asks for
    a whole number of tickets from none to 2^53 - 1, the quantities granted
    against a ticket that starts with a whole number N of tickets, from none
    to 2^53 - 1, add up to the total decrement of the ticket and never exceed
    N. *)
Theorem sequential_purchases_never_oversell s reqs id t N :
  tickets s !! id = Some t ->
  whole (t_ticketsAvailable t) = Some N ->
  0 <= N <= 2 ^ 53 - 1 ->
  forallb (fun er => whole_quantity (snd er)) reqs = true ->
  let c := run_schedule (in_turn 0 (length reqs)) (s, pending reqs) in
  sum_Z (List.map (granted_thread id) (snd c)) <= N /\
  exists t' N',
    tickets (fst c) !! id = Some t' /\
    whole (t_ticketsAvailable t') = Some N' /\
    0 <= N' /\
    sum_Z (List.map (granted_thread id) (snd c)) = N - N'.
Proof.
  intros Ht HN HNr Hall c. subst c.
  pose proof (in_turn_serves s reqs []) as Hrun. cbn [length app] in Hrun.
  rewrite Hrun. cbn [fst snd].
  rewrite granted_answered.
  destruct (serve_no_oversell s reqs id t N Ht HN HNr Hall)
    as (t' & N' & Ht' & HN' & Hpos' & Hsum).
  split; [lia|]. exists t', N'. auto.
Qed.

(** Five tickets, two requests for three served in turn: the first is
    granted, the second is refused, two tickets remain. *)
Lemma sequential_purchases_never_oversell_witness :
  let c := run_schedule [0; 0; 0; 1; 1; 1]%nat
             (Scenario.store,
              [AtFind Scenario.env_a (Scenario.buy 3);
               AtFind Scenario.env_b (Scenario.buy 3)]) in
  List.map (granted_thread Scenario.ticketId) (snd c) = [3; 0] /\
  sum_Z (List.map (granted_thread Scenario.ticketId) (snd c)) <= 5 /\
  exists t' N',
    tickets (fst c) !! Scenario.ticketId = Some t' /\
    whole (t_ticketsAvailable t') = Some N' /\
    0 <= N' /\
    sum_Z (List.map (granted_thread Scenario.ticketId) (snd c)) = 5 - N'.
Proof.
  split; [vm_compute; reflexivity|].
  apply (sequential_purchases_never_oversell Scenario.store
           [(Scenario.env_a, Scenario.buy 3); (Scenario.env_b, Scenario.buy 3)]
           Scenario.ticketId
           (mkTicket Scenario.adminId Scenario.eventId "VIP" (int 100) (int 5)) 5).
  - vm_compute. reflexivity.
  - vm_compute. reflexivity.
  - split; vm_compute; discriminate.
  - vm_compute. reflexivity.
Defined.

(** C1 (counterexample): five tickets and two requests for three, resumed in
    turn at every [await]. Both read five available, both are answered 201,
    six tickets are granted and the ticket is left with two. *)
Lemma interleaved_purchases_oversell :
  let c := run_schedule [0; 1; 0; 1; 0; 1]%nat
             (Scenario.store,
              [AtFind Scenario.env_a (Scenario.buy 3);
               AtFind Scenario.env_b (Scenario.buy 3)]) in
  t_ticketsAvailable <$> tickets Scenario.store !! Scenario.ticketId = Some (int 5) /\
  List.map (granted_thread Scenario.ticketId) (snd c) = [3; 3] /\
  ~ sum_Z (List.map (granted_thread Scenario.ticketId) (snd c)) <= 5 /\
  t_ticketsAvailable <$> tickets (fst c) !! Scenario.ticketId = Some (int 2).
Proof.
  vm_compute. repeat split; try reflexivity. intros H. apply H. reflexivity.
Qed.

(** ** The inventory never goes negative (C2) *)

(** C2 (as amended): a purchase attempt, granted or not, keeps every
    [ticketsAvailable] at or above zero, and so do the creation and the
    update of a ticket whenever the [ticketsAvailable] they are asked to
    store is itself at or above zero. *)
Theorem nonneg_inventory_preserved env s op :
  nonneg_inventory s ->
  (forall n, supplied_ticketsAvailable op = Some n -> js_le zero n = true) ->
  nonneg_inventory (fst (perform env s op)).
Proof.
  unfold nonneg_inventory. intros Hinv Hsup.
  destruct op as [req|req|req]; cbn [perform supplied_ticketsAvailable] in *.
  - destruct (create_tickets env s req) as [-> | (value & doc & Hv & Hn & _ & _ & ->)];
      [exact Hinv|].
    apply ticket_validate_fields in Hv as (_ & _ & Hb).
    apply map_Forall_insert_2; [|exact Hinv]. rewrite Hn. apply Hsup, Hb.
  - destruct (update_tickets env s req) as [-> | (value & t & Hv & _ & ->)]; [exact Hinv|].
    apply ticket_validate_fields in Hv as (_ & _ & Hb).
    apply map_Forall_insert_2; [|exact Hinv]. cbn. apply Hsup, Hb.
  - destruct (decide (status_of (respond (snd (purchaseTicketController env s req))) = 201))
      as [Hc|Hu].
    + destruct (purchase_committed _ _ _ Hc) as (value & t & _ & _ & _ & Hq & _ & _ & -> & _).
      apply map_Forall_insert_2; [|exact Hinv]. apply updateTicketsAvailable_nonneg.
    + rewrite (purchase_uncommitted _ _ _ Hu). exact Hinv.
Qed.

(** The owner adds a ticket type with seven tickets. *)
Lemma nonneg_inventory_preserved_witness :
  nonneg_inventory
    (fst (perform Scenario.env_a Scenario.store (CreateTicket (Scenario.new_ticket 7)))).
Proof.
  apply (nonneg_inventory_preserved Scenario.env_a Scenario.store
           (CreateTicket (Scenario.new_ticket 7))).
  - unfold nonneg_inventory, Scenario.store. cbn [tickets].
    apply map_Forall_singleton. vm_compute. reflexivity.
  - cbn [supplied_ticketsAvailable Scenario.new_ticket req_body tb_ticketsAvailable].
    intros n Hn. replace n with (int 7) by congruence. vm_compute. reflexivity.
Defined.

(** C2 (counterexample): the owner of the event creates a ticket type with
    [ticketsAvailable = -5]; the request is answered 201 and the ticket is
    stored with minus five available. *)
Lemma create_stores_negative_inventory :
  let out := createTicketController Scenario.env_a Scenario.store (Scenario.new_ticket (-5)) in
  status_of (respond (snd out)) = 201 /\
  t_ticketsAvailable <$> tickets (fst out) !! newId Scenario.env_a = Some (int (-5)) /\
  ~ nonneg_inventory (fst out).
Proof.
  split; [vm_compute; reflexivity|]. split; [vm_compute; reflexivity|].
  intros H.
  assert (Hl : tickets (fst (createTicketController Scenario.env_a Scenario.store
                               (Scenario.new_ticket (-5)))) !! newId Scenario.env_a
               = Some (mkTicket Scenario.adminId Scenario.eventId "Standard" (int 40)
                         (int (-5))))
    by (vm_compute; reflexivity).
  specialize (H _ _ Hl). clear Hl. vm_compute in H. discriminate H.
Qed.

(** ** Attempts that are not committed (C3) *)

(** C3: a purchase attempt that is not committed, because it is answered
    with anything other than 201 or because the purchase record cannot be
    persisted, is not answered 201 and leaves every ticket, hence its
    [ticketsAvailable], as it was before the attempt. *)
Theorem uncommitted_purchase_keeps_inventory env s req :
  status_of (respond (snd (purchaseTicketController env s req))) <> 201
  \/ rejects env PurchaseTicketModel_create_call = true ->
  status_of (respond (snd (purchaseTicketController env s req))) <> 201 /\
  tickets (fst (purchaseTicketController env s req)) = tickets s.
Proof.
  intros H.
  assert (Hu : status_of (respond (snd (purchaseTicketController env s req))) <> 201).
  { destruct H as [H|Hrej]; [exact H|].
    unfold purchaseTicketController.
    destruct (purchase_find env s req) as [r|[value ex]] eqn:Hf.
    { exact (purchase_find_inl _ _ _ _ Hf). }
    destruct (purchase_create env s req value ex) as [s1 [r|[tk np]]] eqn:Hc.
    { apply purchase_create_inl in Hc as [_ Hr]. exact Hr. }
    exfalso. unfold purchase_create in Hc.
    destruct ex as [[id ticket]|]; [|discriminate].
    destruct (negb _); [discriminate|].
    destruct (js_gt _ _); [discriminate|].
    unfold PurchaseTicketModel_create, await in Hc. rewrite Hrej in Hc. discriminate. }
  split; [exact Hu|]. apply purchase_uncommitted, Hu.
Qed.

(** The purchase record cannot be persisted: the answer is 500 and the five
    tickets are still there. *)
Lemma uncommitted_purchase_keeps_inventory_witness :
  respond (snd (purchaseTicketController Scenario.env_create_rejects Scenario.store
                  (Scenario.buy 2))) = something_went_wrong /\
  status_of (respond (snd (purchaseTicketController Scenario.env_create_rejects
                             Scenario.store (Scenario.buy 2)))) <> 201 /\
  tickets (fst (purchaseTicketController Scenario.env_create_rejects Scenario.store
                  (Scenario.buy 2))) = tickets Scenario.store.
Proof.
  split; [vm_compute; reflexivity|].
  apply (uncommitted_purchase_keeps_inventory Scenario.env_create_rejects Scenario.store
           (Scenario.buy 2)).
  right. reflexivity.
Defined.

(** ** The cache across a purchase (C4) *)

Lemma client_get_redis env s s' key :
  redis s' = redis s -> client_get env s' key = client_get env s key.
Proof. intros H. unfold client_get. rewrite H. reflexivity. Qed.

Lemma ticket_list_hit env s req cached :
  client_get env s ("tickets:" +:+ req_params_id req) = inr (Some cached) ->
  ticketListByEventController env s req = (s, listing_ok "tickets" cached).
Proof. intros H. unfold ticketListByEventController. rewrite H. reflexivity. Qed.

Lemma comment_list_hit env s req cached :
  client_get env s ("comment:" +:+ req_params_id req) = inr (Some cached) ->
  commentListController env s req = (s, listing_ok "allComments" cached).
Proof. intros H. unfold commentListController. rewrite H. reflexivity. Qed.

(** C4 (as amended): a purchase, committed or not, leaves the cache as it
    was and invalidates no entry; a ticket listing read after the purchase,
    while the entry cached for the event has not expired, returns that entry
    as it was cached before the purchase. *)
Theorem purchase_keeps_cache env s req env' lreq cached :
  client_get env' s ("tickets:" +:+ req_params_id lreq) = inr (Some cached) ->
  let s1 := fst (purchaseTicketController env s req) in
  redis s1 = redis s /\
  ticketListByEventController env' s1 lreq = (s1, listing_ok "tickets" cached).
Proof.
  intros Hhit s1.
  assert (Hr : redis s1 = redis s) by apply purchase_redis.
  split; [exact Hr|].
  apply ticket_list_hit. rewrite (client_get_redis _ _ _ _ Hr). exact Hhit.
Qed.

Lemma purchase_keeps_cache_witness :
  let s0 := fst (ticketListByEventController Scenario.env_a Scenario.store
                   Scenario.list_tickets) in
  let s1 := fst (purchaseTicketController Scenario.env_b s0 (Scenario.buy 2)) in
  redis s1 = redis s0 /\
  ticketListByEventController Scenario.env_c s1 Scenario.list_tickets
  = (s1, listing_ok "tickets" Scenario.listing_before).
Proof.
  intros s0.
  apply (purchase_keeps_cache Scenario.env_b s0 (Scenario.buy 2) Scenario.env_c
           Scenario.list_tickets Scenario.listing_before).
  vm_compute. reflexivity.
Defined.

(** C4 (counterexample): the listing of the event is read (and cached), two
    tickets are bought, and the listing is read again two seconds later. The
    purchase is answered 201 and the ticket holds three, the entry for
    ["tickets:<event>"] is still in the cache, and the second read answers
    with the five tickets of before the purchase. *)
Lemma stale_listing_after_purchase :
  let s0 := fst (ticketListByEventController Scenario.env_a Scenario.store
                   Scenario.list_tickets) in
  let bought := purchaseTicketController Scenario.env_b s0 (Scenario.buy 2) in
  let s1 := fst bought in
  let key := "tickets:" +:+ Scenario.eventId in
  status_of (respond (snd bought)) = 201 /\
  t_ticketsAvailable <$> tickets s1 !! Scenario.ticketId = Some (int 3) /\
  redis s1 !! key = Some (mkCacheEntry Scenario.listing_before 4600) /\
  respond (snd (ticketListByEventController Scenario.env_c s1 Scenario.list_tickets))
  = Json 200 (JObj [("status", JBool true); ("message", JStr "successful");
                    ("tickets", Scenario.listing_before)]).
Proof. vm_compute. repeat split; reflexivity. Qed.

(** ** The signature check (C5) *)

(** The signature check reads the payment id and the signature of the
    request, never its order id: a request passes it exactly when its
    signature is the HMAC of ["undefined|" + payment id]. *)
Lemma signature_check_spec env s req :
  truthy (user_id (req_user req)) = true ->
  snd (paymentVerification env s req) = app_error 400 "payment failed"
  <-> razorpay_signature (req_body req)
      <> Some (expected_signature "undefined" (js_concat (razorpay_payment_id (req_body req)))).
Proof.
  intros Hu. unfold paymentVerification. rewrite Hu. cbn [negb].
  change (generated_signature (req_body req))
    with (expected_signature "undefined" (js_concat (razorpay_payment_id (req_body req)))).
  destruct (razorpay_signature (req_body req)) as [sig|]; cbn [option_string_eqb negb].
  - destruct (String.eqb_spec sig
                (expected_signature "undefined" (js_concat (razorpay_payment_id (req_body req)))))
      as [->|Hne]; cbn [negb].
    + split; [|congruence].
      destruct (paymentModel_create _ _ _ _ _ _) as [e|[[p|] s']]; discriminate.
    + split; [congruence | reflexivity].
  - split; [discriminate | reflexivity].
Qed.

(** C5 (the code at the failing input): the request carries order id
    ["order_1"], payment id ["pay_1"] and the HMAC of ["order_1|pay_1"] under
    the secret, and is answered 400 "payment failed"; with the HMAC of
    ["undefined|pay_1"] it is accepted, be the order id ["order_1"] or
    ["order_2"]. *)
Theorem processor_signature_rejected :
  respond (snd (paymentVerification Scenario.env_a Scenario.store
                  (Scenario.pay "order_1" (expected_signature "order_1" "pay_1"))))
  = rejected 400 "payment failed" /\
  respond (snd (paymentVerification Scenario.env_a Scenario.store
                  (Scenario.pay "order_1" (expected_signature "undefined" "pay_1"))))
  = Send 200 "success" /\
  respond (snd (paymentVerification Scenario.env_a Scenario.store
                  (Scenario.pay "order_2" (expected_signature "undefined" "pay_1"))))
  = Send 200 "success".
Proof. vm_compute. repeat split; reflexivity. Qed.

(** ** A payment verified twice (C6) *)

(** The handler answers 409 to a duplicate e-mail, user name or ticket type
    and has no case for the unique paths of a payment. *)
Example duplicate_handling :
  status_of (errorHandler (DuplicateKey "email" "a@b.c")) = 409 /\
  status_of (errorHandler (DuplicateKey "userName" "bob")) = 409 /\
  status_of (errorHandler (DuplicateKey "ticketType" "VIP")) = 409 /\
  errorHandler (DuplicateKey "razorpay_payment_id" "pay_1") = something_went_wrong /\
  errorHandler (DuplicateKey "razorpay_order_id" "order_1") = something_went_wrong /\
  errorHandler (DuplicateKey "razorpay_signature" "00") = something_went_wrong.
Proof. repeat split; reflexivity. Qed.

(** C6 (the code at the failing input): once a verification has been
    answered "success", no later request carrying the same signature
    persists a payment, and none is answered 409; one that also carries the
    same payment id, and so passes the signature check again, is answered
    500. *)
Theorem duplicate_payment_answered_500 env1 env2 s req1 req2 :
  snd (paymentVerification env1 s req1) = Respond (Send 200 "success") ->
  razorpay_signature (req_body req2) = razorpay_signature (req_body req1) ->
  let s1 := fst (paymentVerification env1 s req1) in
  payments (fst (paymentVerification env2 s1 req2)) = payments s1 /\
  status_of (respond (snd (paymentVerification env2 s1 req2))) <> 409 /\
  (truthy (user_id (req_user req2)) = true ->
   razorpay_payment_id (req_body req2) = razorpay_payment_id (req_body req1) ->
   status_of (respond (snd (paymentVerification env2 s1 req2))) = 500).
Proof.
  intros Hok Hsame s1.
  destruct (second_payment env1 env2 s req1 req2 Hok Hsame) as (Hp & H409 & _ & H500).
  auto.
Qed.

(** The same payment and signature sent twice: the second answer is 500
    "Something went wrong" and one payment is stored. *)
Lemma duplicate_payment_answered_500_witness :
  let req := Scenario.pay "order_1" (expected_signature "undefined" "pay_1") in
  let s1 := fst (paymentVerification Scenario.env_a Scenario.store req) in
  respond (snd (paymentVerification Scenario.env_b s1 req)) = something_went_wrong /\
  payments (fst (paymentVerification Scenario.env_b s1 req)) = payments s1 /\
  status_of (respond (snd (paymentVerification Scenario.env_b s1 req))) <> 409 /\
  (truthy (user_id (req_user req)) = true ->
   razorpay_payment_id (req_body req) = razorpay_payment_id (req_body req) ->
   status_of (respond (snd (paymentVerification Scenario.env_b s1 req))) = 500).
Proof.
  intros req. split; [vm_compute; reflexivity|].
  apply (duplicate_payment_answered_500 Scenario.env_a Scenario.env_b Scenario.store req req).
  - vm_compute. reflexivity.
  - reflexivity.
Defined.

(** ** Quantities that are not positive (C7) *)




(** ** The total price of a purchase (C8) *)

(** C8 (as amended): a purchase answered 201 has created one purchase
    record, under the [_id] allocated for it, whose quantity is the requested
    one and whose [totalPrice] is the product, as JavaScript computes it, of
    the ticket's price at that time and the quantity: the double nearest to
    price x quantity, which is price x quantity itself when both are whole
    and the product is below 2^53 in magnitude. An update of a ticket
    afterwards, whatever it asks, leaves every purchase record as it is. *)
Theorem total_price_captured_and_kept env s req env' req' :
  status_of (respond (snd (purchaseTicketController env s req))) = 201 ->
  let s1 := fst (purchaseTicketController env s req) in
  let s2 := fst (updateTicketByIdController env' s1 req') in
  exists q t rec,
    b_ticketsQuantity (req_body req) = Some q /\
    tickets s !! castObjectId (req_params_id req) = Some t /\
    purchasedTickets s !! newId env = None /\
    purchasedTickets s1 !! newId env = Some rec /\
    p_ticketsQuantity rec = q /\
    p_totalPrice rec = js_mul (t_price t) q /\
    (forall i j, whole (t_price t) = Some i -> whole q = Some j ->
                 Z.abs i < 2 ^ 53 -> Z.abs j < 2 ^ 53 -> Z.abs (i * j) < 2 ^ 53 ->
                 whole (p_totalPrice rec) = Some (i * j)) /\
    purchasedTickets s2 = purchasedTickets s1.
Proof.
  intros Hc s1 s2.
  destruct (purchase_committed _ _ _ Hc)
    as (value & t & Hv & Ht & _ & _ & Hfresh & _ & _ & Hp).
  apply validate_fields in Hv as [_ Hq].
  exists (v_ticketsQuantity value), t, (purchased_doc env req value t).
  repeat split; auto.
  - subst s1. rewrite Hp. apply lookup_insert_eq.
  - intros i j Hi Hj Hib Hjb Hijb. cbn [purchased_doc p_totalPrice].
    apply whole_Some in Hi, Hj. rewrite Hi, Hj.
    rewrite <- (int_exact i), <- (int_exact j) by assumption.
    rewrite js_mul_int by assumption. apply whole_int. exact Hijb.
  - apply update_purchasedTickets.
Qed.

(** Two VIP tickets at 100 cost 200, and still do once the price is 150. *)
Lemma total_price_captured_and_kept_witness :
  let s1 := fst (purchaseTicketController Scenario.env_a Scenario.store (Scenario.buy 2)) in
  let s2 := fst (updateTicketByIdController Scenario.env_b s1 (Scenario.reprice 150)) in
  t_price <$> tickets s2 !! Scenario.ticketId = Some (int 150) /\
  p_totalPrice <$> purchasedTickets s2 !! newId Scenario.env_a = Some (int 200) /\
  exists q t rec,
    b_ticketsQuantity (req_body (Scenario.buy 2)) = Some q /\
    tickets Scenario.store !! castObjectId (req_params_id (Scenario.buy 2)) = Some t /\
    purchasedTickets Scenario.store !! newId Scenario.env_a = None /\
    purchasedTickets s1 !! newId Scenario.env_a = Some rec /\
    p_ticketsQuantity rec = q /\
    p_totalPrice rec = js_mul (t_price t) q /\
    (forall i j, whole (t_price t) = Some i -> whole q = Some j ->
                 Z.abs i < 2 ^ 53 -> Z.abs j < 2 ^ 53 -> Z.abs (i * j) < 2 ^ 53 ->
                 whole (p_totalPrice rec) = Some (i * j)) /\
    purchasedTickets s2 = purchasedTickets s1.
Proof.
  intros s1 s2. split; [vm_compute; reflexivity|]. split; [vm_compute; reflexivity|].
  apply (total_price_captured_and_kept Scenario.env_a Scenario.store (Scenario.buy 2)
           Scenario.env_b (Scenario.reprice 150)).
  vm_compute. reflexivity.
Defined.

(** C8 (counterexample): the owner sets the price of the VIP ticket to
    9007199254740991 and three are bought: the answer is 201 and the record
    holds 27021597764222972, one less than three times the price. With the
    price 4.35 and a hundred tickets bought, the record holds
    434.99999999999994, which is no whole number. *)
Lemma total_price_is_rounded :
  let big := fst (updateTicketByIdController Scenario.env_a Scenario.store
                    (Scenario.reprice (2 ^ 53 - 1))) in
  let three := purchaseTicketController Scenario.env_b big (Scenario.buy 3) in
  let cents := fst (updateTicketByIdController Scenario.env_a Scenario.store
                      (mkRequest Scenario.admin Scenario.ticketId
                         (mkTicketBody (Some "VIP") (Some (decimal 435 (-2)))
                                       (Some (int 200))))) in
  let hundred := purchaseTicketController Scenario.env_b cents (Scenario.buy 100) in
  t_price <$> tickets big !! Scenario.ticketId = Some (int (2 ^ 53 - 1)) /\
  status_of (respond (snd three)) = 201 /\
  (p_totalPrice <$> purchasedTickets (fst three) !! newId Scenario.env_b) ≫= whole
  = Some 27021597764222972 /\
  (2 ^ 53 - 1) * 3 = 27021597764222973 /\
  t_price <$> tickets cents !! Scenario.ticketId = Some (decimal 435 (-2)) /\
  status_of (respond (snd hundred)) = 201 /\
  p_totalPrice <$> purchasedTickets (fst hundred) !! newId Scenario.env_b
  = Some (decimal 43499999999999994 (-14)) /\
  (p_totalPrice <$> purchasedTickets (fst hundred) !! newId Scenario.env_b) ≫= whole = None.
Proof. vm_compute. repeat split; reflexivity. Qed.

(** ** Insufficient inventory (C9) *)

(** C9: a purchase request, served on its own, that asks for more than the
    ticket's [ticketsAvailable] changes nothing in the stores (no purchase
    record, same [ticketsAvailable]) and is not answered 201; when the
    request is otherwise in order (a quantity of the safe range, the ticket
    type of the ticket, an authenticated user, a well-formed id, a ticket
    that can be read) the answer is 400 "tickets not available". *)
Theorem insufficient_inventory_rejected env s req q t :
  b_ticketsQuantity (req_body req) = Some q ->
  tickets s !! castObjectId (req_params_id req) = Some t ->
  js_gt q (t_ticketsAvailable t) = true ->
  fst (purchaseTicketController env s req) = s /\
  status_of (respond (snd (purchaseTicketController env s req))) <> 201 /\
  (is_safe q = true ->
   b_ticketType (req_body req) = Some (t_ticketType t) ->
   truthy (t_ticketType t) = true ->
   truthy (user_id (req_user req)) = true ->
   ObjectId_isValid (req_params_id req) = true ->
   rejects env Ticket_findById_call = false ->
   respond (snd (purchaseTicketController env s req))
   = rejected 400 "tickets not available").
Proof.
  intros Hq Ht Hlow.
  unfold purchaseTicketController.
  destruct (purchase_find env s req) as [r|[value ex]] eqn:Hf.
  - split; [reflexivity|]. split; [exact (purchase_find_inl _ _ _ _ Hf)|].
    intros Hsafe Hty Htr Hu Hid Hrej. exfalso.
    unfold purchase_find, purchaseTicketSchema_validate, joi_string,
      Ticket_findById, await in Hf.
    rewrite Hty, Htr, Hq, (joi_number_safe _ _ Hsafe), Hu, Hid, Hrej in Hf. discriminate Hf.
  - apply purchase_find_inr in Hf as (Hv & _ & _ & ->).
    apply validate_fields in Hv as [Hty' Hq']. rewrite Hq in Hq'. injection Hq' as Hq'.
    rewrite Ht. unfold purchase_create. rewrite <- Hq', Hlow.
    destruct (String.eqb (t_ticketType t) (v_ticketType value)) eqn:Hty; cbn [negb fst snd].
    + split; [reflexivity|]. split; [cbn; discriminate|]. reflexivity.
    + split; [reflexivity|]. split; [cbn; discriminate|].
      intros _ Hb. rewrite Hty' in Hb. injection Hb as Hb.
      rewrite Hb, String.eqb_refl in Hty. discriminate.
Qed.

Lemma insufficient_inventory_rejected_witness :
  fst (purchaseTicketController Scenario.env_a Scenario.store (Scenario.buy 6))
  = Scenario.store /\
  status_of (respond (snd (purchaseTicketController Scenario.env_a Scenario.store
                             (Scenario.buy 6)))) <> 201 /\
  respond (snd (purchaseTicketController Scenario.env_a Scenario.store (Scenario.buy 6)))
  = rejected 400 "tickets not available".
Proof.
  destruct (insufficient_inventory_rejected Scenario.env_a Scenario.store (Scenario.buy 6)
              (int 6)
              (mkTicket Scenario.adminId Scenario.eventId "VIP" (int 100) (int 5)))
    as (Hs & Hr & Hmsg).
  - reflexivity.
  - vm_compute. reflexivity.
  - vm_compute. reflexivity.
  - split; [exact Hs|]. split; [exact Hr|].
    apply Hmsg; vm_compute; reflexivity.
Defined.

(** ** A cache hit (C10) *)

(** C10: when the key of a cached listing (tickets or comments of an event)
    is in the cache and has not expired, the controller answers 200 with the
    cached value and touches nothing, whoever the requester is and whether or
    not the supplied event id is well formed: the answer is the same for
    every principal. *)
Theorem cache_hit_bypasses_checks (k : Listing) env s eventId cached :
  client_get env s (cache_key k eventId) = inr (Some cached) ->
  forall user : User,
    list_controller k env s (mkRequest user eventId tt)
    = (s, Respond (Json 200 (JObj [("status", JBool true); ("message", JStr "successful");
                                   (listing_field k, cached)]))).
Proof.
  intros Hhit user. destruct k; cbn [list_controller cache_key listing_field] in *.
  - apply (ticket_list_hit env s (mkRequest user eventId tt)). exact Hhit.
  - apply (comment_list_hit env s (mkRequest user eventId tt)). exact Hhit.
Qed.

(** A requester without principal asks for the tickets of ["not-an-id"]:
    the id is no ObjectId, and the cached value is served all the same. *)
Lemma cache_hit_bypasses_checks_witness :
  ObjectId_isValid "not-an-id" = false /\
  forall user : User,
    ticketListByEventController Scenario.env_a Scenario.warm_store
      (mkRequest user "not-an-id" tt)
    = (Scenario.warm_store,
       Respond (Json 200 (JObj [("status", JBool true); ("message", JStr "successful");
                                ("tickets", JArr [JStr "cached"])]))).
Proof.
  split; [reflexivity|].
  apply (cache_hit_bypasses_checks TicketListing Scenario.env_a Scenario.warm_store
           "not-an-id" (JArr [JStr "cached"])).
  vm_compute. reflexivity.
Defined.

(** * Further properties of the controllers *)

(** ** The inventory under any schedule *)

Lemma thread_step_nonneg s th :
  nonneg_inventory s -> nonneg_inventory (fst (thread_step s th)).
Proof.
  intros Hinv. destruct th as [env req|env req value ex|env req value tk np|req r];
    cbn [thread_step].
  - destruct (purchase_find env s req) as [r|[value ex]]; exact Hinv.
  - destruct (purchase_create env s req value ex) as [s1 [r|[tk np]]] eqn:Hc; cbn [fst].
    + apply purchase_create_inl in Hc as [-> _]. exact Hinv.
    + apply purchase_create_inr in Hc as (_ & _ & _ & _ & _ & ->). exact Hinv.
  - destruct (purchase_save env s value tk np) as [s1 r] eqn:Hs. cbn [fst].
    destruct np as [[pid rec]|]; [|injection Hs as <- _; exact Hinv].
    apply purchase_save_cases in Hs as [[_ ->] | (_ & _ & _ & _ & cur & Hcur & Ht)];
      [exact Hinv|].
    unfold nonneg_inventory. cbn zeta in Ht. rewrite Ht.
    destruct (js_eq _ _); [exact Hinv|].
    apply map_Forall_insert_2; [|exact Hinv].
    cbn [t_ticketsAvailable set_ticketsAvailable]. apply updateTicketsAvailable_nonneg.
  - exact Hinv.
Qed.

(** X1: whatever the order in which pending purchases are resumed, and
    whatever they had read before, no [ticketsAvailable] goes below zero. *)
Theorem interleaving_keeps_nonneg schedule s ths :
  nonneg_inventory s ->
  nonneg_inventory (fst (run_schedule schedule (s, ths))).
Proof.
  unfold run_schedule. revert s ths.
  induction schedule as [|i rest IH]; intros s ths Hinv; [exact Hinv|].
  cbn [fold_left]. unfold resume at 2. cbn [fst snd].
  destruct (ths !! i) as [th|]; [|apply IH, Hinv].
  pose proof (thread_step_nonneg s th Hinv) as Hstep.
  destruct (thread_step s th) as [s1 th1]. apply IH. exact Hstep.
Qed.

Lemma interleaving_keeps_nonneg_witness :
  nonneg_inventory
    (fst (run_schedule [0; 1; 0; 1; 0; 1]%nat
            (Scenario.store,
             [AtFind Scenario.env_a (Scenario.buy 3);
              AtFind Scenario.env_b (Scenario.buy 3)]))).
Proof.
  apply (interleaving_keeps_nonneg [0; 1; 0; 1; 0; 1]%nat Scenario.store).
  unfold nonneg_inventory, Scenario.store. cbn [tickets].
  apply map_Forall_singleton. vm_compute. reflexivity.
Defined.

(** ** What a purchase leaves alone *)

Lemma purchase_purchasedTickets env s req :
  purchasedTickets (fst (purchaseTicketController env s req)) = purchasedTickets s \/
  exists rec,
    purchasedTickets s !! newId env = None /\
    purchasedTickets (fst (purchaseTicketController env s req))
    = <[newId env := rec]> (purchasedTickets s).
Proof.
  unfold purchaseTicketController.
  destruct (purchase_find env s req) as [r|[value ex]] eqn:Hf; [left; reflexivity|].
  destruct (purchase_create env s req value ex) as [s1 [r|[tk np]]] eqn:Hc.
  { apply purchase_create_inl in Hc as [-> _]. left; reflexivity. }
  apply purchase_create_inr in Hc as (_ & _ & _ & Hfresh & -> & ->).
  right. eexists. split; [exact Hfresh|].
  destruct (purchase_save _ _ _ _ _) as [s2 r] eqn:Hs.
  apply purchase_save_cases in Hs as [[_ ->] | (_ & Hp & _)]; [reflexivity|].
  cbn [fst]. rewrite Hp. reflexivity.
Qed.

(** X2: a purchase, whatever its answer, changes of the tickets at most the
    [ticketsAvailable] of one: no ticket appears or disappears, and owner,
    event, type and price of every ticket stay. *)
Theorem purchase_changes_only_availability env s req id :
  match tickets s !! id, tickets (fst (purchaseTicketController env s req)) !! id with
  | Some t, Some t' =>
      t_admin t' = t_admin t /\ t_event t' = t_event t /\
      t_ticketType t' = t_ticketType t /\ t_price t' = t_price t
  | None, None => True
  | _, _ => False
  end.
Proof.
  destruct (decide (status_of (respond (snd (purchaseTicketController env s req))) = 201))
    as [Hc|Hu].
  - destruct (purchase_committed _ _ _ Hc) as (value & t & _ & Ht & _ & _ & _ & _ & -> & _).
    destruct (decide (castObjectId (req_params_id req) = id)) as [<-|Hne].
    + rewrite Ht, lookup_insert_eq. unfold updateTicketsAvailable.
      destruct (js_ge _ _); cbn; auto.
    + rewrite lookup_insert_ne by exact Hne.
      destruct (tickets s !! id); auto.
  - rewrite (purchase_uncommitted _ _ _ Hu). destruct (tickets s !! id); auto.
Qed.

(** X3: a purchase never changes or removes a purchase record that exists:
    the records only grow. *)
Theorem purchase_history_append_only env s req id rec :
  purchasedTickets s !! id = Some rec ->
  purchasedTickets (fst (purchaseTicketController env s req)) !! id = Some rec.
Proof.
  intros Hrec.
  destruct (purchase_purchasedTickets env s req) as [-> | (new & Hfresh & ->)];
    [exact Hrec|].
  rewrite lookup_insert_ne; [exact Hrec|].
  intros <-. rewrite Hfresh in Hrec. discriminate.
Qed.

Lemma purchase_history_append_only_witness :
  let s1 := fst (purchaseTicketController Scenario.env_a Scenario.store (Scenario.buy 2)) in
  purchasedTickets (fst (purchaseTicketController Scenario.env_b s1 (Scenario.buy 1)))
    !! newId Scenario.env_a
  = Some (mkPurchasedTicket Scenario.buyerId Scenario.eventId "VIP" (int 2) (int 200) 1000).
Proof.
  intros s1.
  apply (purchase_history_append_only Scenario.env_b s1 (Scenario.buy 1)).
  vm_compute. reflexivity.
Defined.

(** ** A purchase that fails half-way, and the answers of a purchase *)

(** X4: when the purchase record is persisted and the save of the ticket
    then rejects, the request is answered 500 while the record stays and the
    ticket keeps its [ticketsAvailable]: a purchase on record, with the
    product of price and quantity as JavaScript computes it, and nothing
    taken from the inventory. *)
Theorem save_failure_leaves_record env s req q t :
  b_ticketsQuantity (req_body req) = Some q ->
  is_safe q = true ->
  js_le q (t_ticketsAvailable t) = true ->
  is_finite (t_price t) = true ->
  b_ticketType (req_body req) = Some (t_ticketType t) ->
  truthy (t_ticketType t) = true ->
  truthy (trim (t_ticketType t)) = true ->
  truthy (user_id (req_user req)) = true ->
  ObjectId_isValid (req_params_id req) = true ->
  tickets s !! castObjectId (req_params_id req) = Some t ->
  purchasedTickets s !! newId env = None ->
  rejects env Ticket_findById_call = false ->
  rejects env PurchaseTicketModel_create_call = false ->
  rejects env Ticket_save_call = true ->
  let s1 := fst (purchaseTicketController env s req) in
  respond (snd (purchaseTicketController env s req)) = something_went_wrong /\
  tickets s1 = tickets s /\
  exists rec, purchasedTickets s1 !! newId env = Some rec /\
              p_ticketsQuantity rec = q /\ p_totalPrice rec = js_mul (t_price t) q.
Proof.
  intros Hq Hsafe Hle Hprice Hty Htr Htrim Hu Hid Ht Hfresh Hf Hc Hs s1. subst s1.
  pose proof (is_safe_finite _ Hsafe) as Hfin.
  unfold purchaseTicketController, purchase_find, purchaseTicketSchema_validate,
    joi_string, Ticket_findById, await.
  rewrite Hty, Htr, Hq, (joi_number_safe _ _ Hsafe), Hu, Hid, Hf. cbn [negb]. rewrite Ht.
  unfold purchase_create. cbn [v_ticketType v_ticketsQuantity].
  rewrite String.eqb_refl. cbn [negb]. rewrite (js_le_not_gt _ _ Hle).
  unfold PurchaseTicketModel_create, await. rewrite Hc.
  cbn [p_ticketType p_user p_event p_ticketsQuantity p_totalPrice].
  rewrite (js_mul_not_nan _ _ Hprice Hfin), Htrim.
  replace (is_nan q) with false by (destruct q; [reflexivity | discriminate..]).
  cbn [negb orb]. rewrite Hfresh.
  unfold purchase_save, Ticket_save, await. rewrite Hs.
  cbn [fst snd]. split; [reflexivity|]. split; [reflexivity|].
  eexists. cbn [purchasedTickets set_purchasedTickets].
  rewrite lookup_insert_eq. split; [reflexivity|]. split; reflexivity.
Qed.

Lemma save_failure_leaves_record_witness :
  let out := purchaseTicketController Cases.env_save_rejects Scenario.store (Scenario.buy 2) in
  js_mul (int 100) (int 2) = int 200 /\
  respond (snd out) = something_went_wrong /\
  tickets (fst out) = tickets Scenario.store /\
  exists rec, purchasedTickets (fst out) !! newId Cases.env_save_rejects = Some rec /\
              p_ticketsQuantity rec = int 2 /\
              p_totalPrice rec = js_mul (int 100) (int 2).
Proof.
  split; [vm_compute; reflexivity|].
  apply (save_failure_leaves_record Cases.env_save_rejects Scenario.store (Scenario.buy 2)
           (int 2) (mkTicket Scenario.adminId Scenario.eventId "VIP" (int 100) (int 5)));
    vm_compute; reflexivity.
Defined.


(** X6: a duplicate-key error of the database is answered 409 exactly when
    the duplicated key is [email], [userName] or [ticketType]; on any other
    key the answer is 500 "Something went wrong". *)
Theorem duplicate_key_409_iff key value :
  (status_of (errorHandler (DuplicateKey key value)) = 409
   <-> key = "email" \/ key = "userName" \/ key = "ticketType") /\
  (status_of (errorHandler (DuplicateKey key value)) <> 409 ->
   errorHandler (DuplicateKey key value) = something_went_wrong).
Proof.
  unfold errorHandler. cbn [is_code_11000 err_code err_keyPattern err_name andb Z.eqb Pos.eqb].
  destruct (String.eqb_spec key "email") as [->|He]; [cbn; split; [tauto|congruence]|].
  destruct (String.eqb_spec key "userName") as [->|Hu]; [cbn; split; [tauto|congruence]|].
  change (String.eqb "MongoServerError" "ValidationError") with false. cbn iota.
  destruct (String.eqb_spec key "ticketType") as [->|Ht]; [cbn; split; [tauto|congruence]|].
  cbn. split; [|reflexivity]. split; [discriminate|tauto].
Qed.

(** ** The ticket listing on a miss *)

(** What the listing does when the cache does not answer. *)
Lemma ticket_list_miss env s req :
  client_get env s ("tickets:" +:+ req_params_id req) = inr None ->
  (fst (ticketListByEventController env s req) = s /\
   status_of (respond (snd (ticketListByEventController env s req))) <> 200) \/
  exists views,
    ObjectId_isValid (req_params_id req) = true /\
    truthy (user_id (req_user req)) = true /\
    ticket_views (admins s)
      (List.filter (fun it => String.eqb (t_event (snd it))
                                (castObjectId (req_params_id req)))
                   (map_to_list (tickets s))) = Some views /\
    views <> [] /\
    ticketListByEventController env s req
    = (set_redis s (<["tickets:" +:+ req_params_id req
                      := mkCacheEntry (JArr views) (now env + 60 * 60)]> (redis s)),
       listing_ok "tickets" (JArr views)).
Proof.
  intros Hmiss. unfold ticketListByEventController. rewrite Hmiss.
  destruct (ObjectId_isValid (req_params_id req)); cbn [negb];
    [|left; split; [reflexivity | cbn; discriminate]].
  destruct (truthy (user_id (req_user req))); cbn [negb];
    [|left; split; [reflexivity | cbn; discriminate]].
  destruct (Ticket_find env s (req_params_id req)) as [e|allTickets] eqn:Hfind.
  { left. split; [reflexivity|].
    apply await_inl in Hfind as [-> | Hfind]; [cbn; discriminate | discriminate]. }
  apply await_inr in Hfind. injection Hfind as <-.
  destruct (is_nil _) eqn:Hnil; [left; split; [reflexivity | cbn; discriminate]|].
  destruct (ticket_views _ _) as [views|] eqn:Hviews;
    [|left; split; [reflexivity | cbn; discriminate]].
  destruct (client_set _ _ _ _ _) as [e|s'] eqn:Hset.
  { left. split; [reflexivity|].
    apply await_inl in Hset as [-> | Hset]; [cbn; discriminate | discriminate]. }
  apply await_inr in Hset. injection Hset as <-.
  right. exists views. repeat split; auto.
  intros ->. destruct (List.filter _ _) as [|[i t] l]; [discriminate|].
  cbn in Hviews. repeat case_match; discriminate.
Qed.

Lemma ticket_views_spec names docs views :
  ticket_views names docs = Some views ->
  Forall2 (fun d v => ticket_view names d = Some v) docs views.
Proof.
  revert views. induction docs as [|[id doc] rest IH]; intros views; cbn.
  - intros [= <-]. constructor.
  - unfold ticket_view at 1. cbn [fst snd].
    destruct (names !! t_admin doc) as [userName|] eqn:Hn; [|discriminate].
    destruct (ticket_views names rest) as [vs|]; [|discriminate].
    intros [= <-]. constructor; [|apply IH; reflexivity].
    unfold ticket_view. cbn [fst snd]. rewrite Hn. reflexivity.
Qed.

(** X7: a listing answered 200 on a miss lists exactly the stored tickets of
    the event, each with its current price and [ticketsAvailable]. *)
Theorem listing_miss_lists_event_tickets env s req payload :
  client_get env s ("tickets:" +:+ req_params_id req) = inr None ->
  snd (ticketListByEventController env s req) = listing_ok "tickets" payload ->
  exists views,
    payload = JArr views /\
    forall v, In v views <->
      exists id t,
        tickets s !! id = Some t /\
        t_event t = castObjectId (req_params_id req) /\
        ticket_view (admins s) (id, t) = Some v.
Proof.
  intros Hmiss Hok.
  destruct (ticket_list_miss env s req Hmiss) as [[_ Hne] | (views & _ & _ & Hv & _ & Heq)].
  { rewrite Hok in Hne. exfalso. apply Hne. reflexivity. }
  rewrite Heq in Hok. cbn [snd] in Hok. injection Hok as <-.
  exists views. split; [reflexivity|].
  apply ticket_views_spec in Hv.
  intros v. split.
  - intros Hin. apply list_elem_of_In in Hin.
    apply list_elem_of_lookup in Hin as [k Hk].
    destruct (Forall2_lookup_r _ _ _ _ _ Hv Hk) as ([id t] & Hd & Hview).
    exists id, t.
    assert (Hd' : In (id, t) (List.filter (fun it => String.eqb (t_event (snd it))
                                (castObjectId (req_params_id req)))
                   (map_to_list (tickets s)))).
    { apply list_elem_of_In, list_elem_of_lookup. eauto. }
    apply filter_In in Hd' as [Hmem Hev]. cbn in Hev.
    apply list_elem_of_In, elem_of_map_to_list in Hmem.
    apply String.eqb_eq in Hev. auto.
  - intros (id & t & Ht & Hev & Hview).
    assert (Hd : In (id, t) (List.filter (fun it => String.eqb (t_event (snd it))
                                (castObjectId (req_params_id req)))
                   (map_to_list (tickets s)))).
    { apply filter_In. split.
      - apply list_elem_of_In, elem_of_map_to_list, Ht.
      - cbn. apply String.eqb_eq, Hev. }
    apply list_elem_of_In, list_elem_of_lookup in Hd as [k Hk].
    destruct (Forall2_lookup_l _ _ _ _ _ Hv Hk) as (v' & Hv' & Hview').
    rewrite Hview in Hview'. injection Hview' as <-.
    apply list_elem_of_In, list_elem_of_lookup. eauto.
Qed.

Lemma listing_miss_lists_event_tickets_witness :
  exists views,
    Scenario.listing_before = JArr views /\
    forall v, In v views <->
      exists id t,
        tickets Scenario.store !! id = Some t /\
        t_event t = castObjectId (req_params_id Scenario.list_tickets) /\
        ticket_view (admins Scenario.store) (id, t) = Some v.
Proof.
  apply (listing_miss_lists_event_tickets Scenario.env_a Scenario.store
           Scenario.list_tickets Scenario.listing_before);
    vm_compute; reflexivity.
Defined.

(** X8: a listing computed on a miss is cached for one hour: until then every
    request for the same event, from whomever, is answered with that very
    listing and reads no collection; from then on the entry is gone. *)
Theorem listing_cached_for_one_hour env s req payload env' user' :
  client_get env s ("tickets:" +:+ req_params_id req) = inr None ->
  snd (ticketListByEventController env s req) = listing_ok "tickets" payload ->
  rejects env' client_get_call = false ->
  let s' := fst (ticketListByEventController env s req) in
  (now env' < now env + 3600 ->
   ticketListByEventController env' s' (mkRequest user' (req_params_id req) tt)
   = (s', listing_ok "tickets" payload)) /\
  (now env + 3600 <= now env' ->
   client_get env' s' ("tickets:" +:+ req_params_id req) = inr None).
Proof.
  intros Hmiss Hok Hget s'. subst s'.
  destruct (ticket_list_miss env s req Hmiss) as [[_ Hne] | (views & _ & _ & _ & _ & Heq)].
  { rewrite Hok in Hne. exfalso. apply Hne. reflexivity. }
  rewrite Heq in Hok |- *. cbn [fst snd] in *. injection Hok as <-.
  assert (Hread : client_get env'
            (set_redis s (<["tickets:" +:+ req_params_id req
                            := mkCacheEntry (JArr views) (now env + 60 * 60)]> (redis s)))
            ("tickets:" +:+ req_params_id req)
          = inr (if now env' <? now env + 60 * 60 then Some (JArr views) else None)).
  { unfold client_get, await. rewrite Hget. cbn [redis set_redis].
    rewrite lookup_insert_eq. reflexivity. }
  split; intros Ht.
  - apply ticket_list_hit. cbn [req_params_id]. rewrite Hread.
    destruct (_ <? _) eqn:Hlt; [reflexivity | lia].
  - rewrite Hread. destruct (_ <? _) eqn:Hlt; [lia | reflexivity].
Qed.

Lemma listing_cached_for_one_hour_witness :
  let s' := fst (ticketListByEventController Scenario.env_a Scenario.store
                   Scenario.list_tickets) in
  (now Scenario.env_c < now Scenario.env_a + 3600 ->
   ticketListByEventController Scenario.env_c s'
     (mkRequest (mkUser "" "") (req_params_id Scenario.list_tickets) tt)
   = (s', listing_ok "tickets" Scenario.listing_before)) /\
  (now Scenario.env_a + 3600 <= now Scenario.env_c ->
   client_get Scenario.env_c s' ("tickets:" +:+ req_params_id Scenario.list_tickets)
   = inr None).
Proof.
  apply (listing_cached_for_one_hour Scenario.env_a Scenario.store Scenario.list_tickets
           Scenario.listing_before Scenario.env_c (mkUser "" ""));
    vm_compute; reflexivity.
Defined.

(** X9: a ticket listing never writes to a collection, and of the cache it
    writes at most the entry of its own event; when it is not answered 200 it
    writes nothing at all, so no error is ever cached. *)
Theorem listing_writes_only_its_key env s req :
  let s' := fst (ticketListByEventController env s req) in
  tickets s' = tickets s /\ purchasedTickets s' = purchasedTickets s /\
  payments s' = payments s /\ events s' = events s /\ comments s' = comments s /\
  (forall k, k <> "tickets:" +:+ req_params_id req -> redis s' !! k = redis s !! k) /\
  (status_of (respond (snd (ticketListByEventController env s req))) <> 200 -> s' = s).
Proof.
  intros s'. subst s'.
  destruct (client_get env s ("tickets:" +:+ req_params_id req)) as [e|[cached|]] eqn:Hget.
  - unfold ticketListByEventController. rewrite Hget. cbn [fst]. repeat split; auto.
  - rewrite (ticket_list_hit env s req cached Hget). cbn [fst]. repeat split; auto.
  - destruct (ticket_list_miss env s req Hget) as [[-> _] | (views & _ & _ & _ & _ & ->)].
    + repeat split; auto.
    + cbn [fst snd]. repeat split; auto.
      * intros k Hk. cbn [redis set_redis]. apply lookup_insert_ne. congruence.
      * intros H. exfalso. apply H. reflexivity.
Qed.

(** ** The ticket routes *)

Lemma ticketType_taken_false (ts : gmap string Ticket) self ticketType :
  ticketType_taken ts self ticketType = false ->
  forall j u, ts !! j = Some u -> j <> self -> t_ticketType u <> ticketType.
Proof.
  unfold ticketType_taken. intros Hno j u Hu Hj Hty.
  assert (Hex : existsb (fun it => negb (String.eqb (fst it) self)
                                   && String.eqb (t_ticketType (snd it)) ticketType)
                        (map_to_list ts) = true).
  { apply existsb_exists. exists (j, u). split.
    - apply list_elem_of_In, elem_of_map_to_list, Hu.
    - cbn. apply andb_true_intro. split.
      + apply negb_true_iff, String.eqb_neq, Hj.
      + apply String.eqb_eq, Hty. }
  rewrite Hex in Hno. discriminate.
Qed.

(** What [createTicketController] has checked and done when the store is no
    longer the same. *)
Lemma create_changes env s req :
  fst (createTicketController env s req) = s \/
  exists value ev,
    ticketSchema_validate (req_body req) = inr value /\
    events s !! castObjectId (req_params_id req) = Some ev /\
    ev_active ev = true /\
    ev_admin ev = user_id (req_user req) /\
    tickets s !! newId env = None /\
    ticketType_taken (tickets s) (newId env) (trim (tv_ticketType value)) = false /\
    fst (createTicketController env s req)
    = set_tickets s
        (<[newId env := mkTicket (user_id (req_user req))
                          (castObjectId (req_params_id req))
                          (trim (tv_ticketType value)) (tv_price value)
                          (tv_ticketsAvailable value)]> (tickets s)).
Proof.
  unfold createTicketController.
  destruct (ticketSchema_validate (req_body req)) as [e|value] eqn:Hv; [left; reflexivity|].
  destruct (negb (truthy _)); [left; reflexivity|].
  destruct (negb (ObjectId_isValid _)); [left; reflexivity|].
  destruct (Events_findById _ _ _) as [e|[ev|]] eqn:Hev; try (left; reflexivity).
  apply await_inr in Hev. injection Hev as Hev.
  destruct (ev_active ev) eqn:Hact; cbn [negb]; [|left; reflexivity].
  destruct (String.eqb_spec (ev_admin ev) (user_id (req_user req))) as [Hown|Hown];
    cbn [negb]; [|left; reflexivity].
  destruct (Ticket_create _ _ _) as [e|[[id doc] s']] eqn:Hc; [left; reflexivity|].
  right. apply await_inr in Hc. cbn in Hc.
  destruct (negb (truthy _)); [discriminate|].
  destruct (tickets s !! newId env) eqn:Hfresh; [discriminate|].
  destruct (ticketType_taken _ _ _) eqn:Htaken; [discriminate|].
  injection Hc as <- <- <-.
  exists value, ev. cbn [fst]. repeat split; auto.
Qed.

(** What [updateTicketByIdController] has checked and done when the store
    is no longer the same. *)
Lemma update_changes env s req :
  fst (updateTicketByIdController env s req) = s \/
  exists value t,
    ticketSchema_validate (req_body req) = inr value /\
    tickets s !! castObjectId (req_params_id req) = Some t /\
    t_admin t = user_id (req_user req) /\
    ticketType_taken (tickets s) (castObjectId (req_params_id req))
      (trim (tv_ticketType value)) = false /\
    fst (updateTicketByIdController env s req)
    = set_tickets s
        (<[castObjectId (req_params_id req)
           := mkTicket (t_admin t) (t_event t) (trim (tv_ticketType value))
                       (tv_price value) (tv_ticketsAvailable value)]> (tickets s)).
Proof.
  unfold updateTicketByIdController.
  destruct (ticketSchema_validate (req_body req)) as [e|value] eqn:Hv; [left; reflexivity|].
  destruct (negb (truthy (user_id _))); [left; reflexivity|].
  destruct (_ || _); [left; reflexivity|].
  destruct (Ticket_findById _ _ _) as [e|[[id0 t0]|]] eqn:Hf; try (left; reflexivity).
  apply await_inr in Hf. cbv zeta in Hf.
  destruct (tickets s !! castObjectId (req_params_id req)) as [t|] eqn:Ht; [|discriminate].
  injection Hf as <- <-.
  destruct (String.eqb_spec (t_admin t) (user_id (req_user req))) as [Hown|Hown];
    cbn [negb]; [|left; reflexivity].
  destruct (Ticket_findByIdAndUpdate _ _ _ _ _ _) as [e|[[[id t']|] s']] eqn:Hu;
    [left; reflexivity| |].
  - right. apply await_inr in Hu. cbv zeta in Hu. rewrite Ht in Hu.
    destruct (ticketType_taken _ _ _) eqn:Htaken; [discriminate|].
    injection Hu as <- <- <-. exists value, t. cbn [fst]. repeat split; auto.
  - left. apply await_inr in Hu. cbv zeta in Hu. rewrite Ht in Hu.
    destruct (ticketType_taken _ _ _); discriminate.
Qed.

(** What [deleteTicketsByIdController] has checked and done when the store
    is no longer the same. *)
Lemma delete_changes env s req :
  (fst (deleteTicketsByIdController env s req) = s /\
   status_of (respond (snd (deleteTicketsByIdController env s req))) <> 200) \/
  exists t,
    tickets s !! castObjectId (req_params_id req) = Some t /\
    t_admin t = user_id (req_user req) /\
    deleteTicketsByIdController env s req
    = (set_tickets s (delete (castObjectId (req_params_id req)) (tickets s)),
       Respond (Json 200 (JObj [("status", JBool true);
                                ("message", JStr "tickets deleted successfully")]))).
Proof.
  unfold deleteTicketsByIdController.
  destruct (_ || _); [left; split; [reflexivity | cbn; discriminate]|].
  destruct (negb (truthy (user_id _))); [left; split; [reflexivity | cbn; discriminate]|].
  destruct (Ticket_findById _ _ _) as [e|[[id0 t0]|]] eqn:Hf.
  - left. split; [reflexivity|].
    apply await_inl in Hf as [-> | Hf]; [cbn; discriminate | discriminate].
  - apply await_inr in Hf. cbv zeta in Hf.
    destruct (tickets s !! castObjectId (req_params_id req)) as [t|] eqn:Ht; [|discriminate].
    injection Hf as <- <-.
    destruct (String.eqb_spec (t_admin t) (user_id (req_user req))) as [Hown|Hown];
      cbn [negb]; [|left; split; [reflexivity | cbn; discriminate]].
    unfold Ticket_findByIdAndDelete, await_more.
    destruct (rejects_more env Ticket_findByIdAndDelete_call);
      [left; split; [reflexivity | cbn; discriminate]|].
    rewrite Ht. right. exists t. auto.
  - left. split; [reflexivity | cbn; discriminate].
Qed.

(** X10: whoever changes the tickets through the ticket routes has the role
    ADMIN and is the owner: of the event for a creation, of the ticket itself
    for an update or a deletion. Another admin changes nothing. *)
Theorem only_owner_changes_tickets env s r :
  fst (ticketRoute env s r) <> s ->
  user_role (route_user r) = "ADMIN" /\
  match r with
  | PostCreate req =>
      exists ev, events s !! castObjectId (req_params_id req) = Some ev /\
                 ev_active ev = true /\ ev_admin ev = user_id (req_user req)
  | PutUpdate req =>
      exists t, tickets s !! castObjectId (req_params_id req) = Some t /\
                t_admin t = user_id (req_user req)
  | DeleteDelete req =>
      exists t, tickets s !! castObjectId (req_params_id req) = Some t /\
                t_admin t = user_id (req_user req)
  end.
Proof.
  unfold ticketRoute, isAdmin.
  destruct (String.eqb_spec (user_role (route_user r)) "ADMIN") as [Hrole|Hrole];
    cbn [negb]; [|intros H; exfalso; apply H; reflexivity].
  intros Hch. split; [exact Hrole|].
  destruct r as [req|req|req].
  - destruct (create_changes (base env) s req) as [Hs | (value & ev & _ & Hev & Ha & Ho & _)];
      [contradiction|]. eauto.
  - destruct (update_changes (base env) s req) as [Hs | (value & t & _ & Ht & Ho & _)];
      [contradiction|]. eauto.
  - destruct (delete_changes env s req) as [[Hs _] | (t & Ht & Ho & _)];
      [contradiction|]. eauto.
Qed.

Lemma only_owner_changes_tickets_witness :
  user_role (route_user (PostCreate (Scenario.new_ticket 7))) = "ADMIN" /\
  exists ev,
    events Scenario.store !! castObjectId (req_params_id (Scenario.new_ticket 7)) = Some ev /\
    ev_active ev = true /\ ev_admin ev = user_id (req_user (Scenario.new_ticket 7)).
Proof.
  apply (only_owner_changes_tickets (Cases.full Scenario.env_a) Scenario.store
           (PostCreate (Scenario.new_ticket 7))).
  intros H.
  assert (Hl : tickets (fst (ticketRoute (Cases.full Scenario.env_a) Scenario.store
                               (PostCreate (Scenario.new_ticket 7))))
                 !! newId Scenario.env_a
               = tickets Scenario.store !! newId Scenario.env_a) by (rewrite H; reflexivity).
  vm_compute in Hl. discriminate.
Defined.

(** X11: no route that creates, updates or deletes a ticket touches the cache:
    a listing cached before is served unchanged afterwards. *)
Theorem ticket_routes_keep_cache env s r :
  redis (fst (ticketRoute env s r)) = redis s.
Proof.
  unfold ticketRoute. destruct (isAdmin (route_user r)); [reflexivity|].
  destruct r as [req|req|req].
  - destruct (create_changes (base env) s req) as [-> | (? & ? & _ & _ & _ & _ & _ & _ & ->)];
      reflexivity.
  - destruct (update_changes (base env) s req) as [-> | (? & ? & _ & _ & _ & _ & ->)];
      reflexivity.
  - destruct (delete_changes env s req) as [[-> _] | (? & _ & _ & ->)]; reflexivity.
Qed.

(** X12: the ticket routes keep the ticket types unique across all tickets,
    whatever their event. *)
Theorem ticket_types_stay_unique env s r :
  unique_ticketTypes s -> unique_ticketTypes (fst (ticketRoute env s r)).
Proof.
  intros Huniq. unfold ticketRoute. destruct (isAdmin (route_user r)); [exact Huniq|].
  assert (Hins : forall k doc,
             ticketType_taken (tickets s) k (t_ticketType doc) = false ->
             unique_ticketTypes (set_tickets s (<[k := doc]> (tickets s)))).
  { intros k doc Hfree i j t u Hi Hj Hty. cbn [tickets set_tickets] in Hi, Hj.
    pose proof (ticketType_taken_false _ _ _ Hfree) as Hno.
    destruct (decide (i = k)) as [->|Hik]; destruct (decide (j = k)) as [->|Hjk];
      [reflexivity| | |].
    - rewrite lookup_insert_eq in Hi. injection Hi as <-.
      rewrite lookup_insert_ne in Hj by congruence.
      exfalso. apply (Hno j u Hj Hjk). congruence.
    - rewrite lookup_insert_eq in Hj. injection Hj as <-.
      rewrite lookup_insert_ne in Hi by congruence.
      exfalso. apply (Hno i t Hi Hik). congruence.
    - rewrite lookup_insert_ne in Hi, Hj by congruence.
      exact (Huniq i j t u Hi Hj Hty). }
  destruct r as [req|req|req].
  - destruct (create_changes (base env) s req)
      as [-> | (value & ev & _ & _ & _ & _ & _ & Hfree & ->)]; [exact Huniq|].
    apply Hins. exact Hfree.
  - destruct (update_changes (base env) s req)
      as [-> | (value & t & _ & _ & _ & Hfree & ->)]; [exact Huniq|].
    apply Hins. exact Hfree.
  - destruct (delete_changes env s req) as [[-> _] | (t & _ & _ & ->)]; [exact Huniq|].
    cbn [fst]. intros i j t1 u Hi Hj Hty. cbn [tickets set_tickets] in Hi, Hj.
    apply lookup_delete_Some in Hi as [_ Hi]. apply lookup_delete_Some in Hj as [_ Hj].
    exact (Huniq i j t1 u Hi Hj Hty).
Qed.

Lemma ticket_types_stay_unique_witness :
  unique_ticketTypes
    (fst (ticketRoute (Cases.full Scenario.env_a) Scenario.store
            (PostCreate (Scenario.new_ticket 7)))).
Proof.
  apply (ticket_types_stay_unique (Cases.full Scenario.env_a) Scenario.store
           (PostCreate (Scenario.new_ticket 7))).
  intros i j t u Hi Hj _. unfold Scenario.store in Hi, Hj. cbn [tickets] in Hi, Hj.
  apply lookup_singleton_Some in Hi as [<- _]. apply lookup_singleton_Some in Hj as [<- _].
  reflexivity.
Defined.

(** X13: an update never moves a ticket to another owner or event, whatever
    the request says, and no ticket appears or disappears. *)
Theorem update_keeps_owner_and_event env s req id :
  match tickets s !! id, tickets (fst (updateTicketByIdController env s req)) !! id with
  | Some t, Some t' => t_admin t' = t_admin t /\ t_event t' = t_event t
  | None, None => True
  | _, _ => False
  end.
Proof.
  destruct (update_changes env s req) as [-> | (value & t & _ & Ht & _ & _ & ->)].
  - destruct (tickets s !! id); auto.
  - cbn [tickets set_tickets].
    destruct (decide (castObjectId (req_params_id req) = id)) as [<-|Hne].
    + rewrite Ht, lookup_insert_eq. cbn. auto.
    + rewrite lookup_insert_ne by exact Hne. destruct (tickets s !! id); auto.
Qed.

Lemma purchase_admins env s req :
  admins (fst (purchaseTicketController env s req)) = admins s.
Proof.
  unfold purchaseTicketController.
  destruct (purchase_find env s req) as [r|[value ex]] eqn:Hf; [reflexivity|].
  destruct (purchase_create env s req value ex) as [s1 [r|[tk np]]] eqn:Hc.
  { apply purchase_create_inl in Hc as [-> _]. reflexivity. }
  apply purchase_create_inr in Hc as (_ & _ & _ & _ & -> & ->).
  unfold purchase_save, Ticket_save, await.
  destruct (rejects env Ticket_save_call); [reflexivity|].
  cbn [tickets set_purchasedTickets].
  destruct (tickets s !! fst tk); [|reflexivity].
  destruct (js_eq _ _); reflexivity.
Qed.

Lemma purchase_committed_request env s req :
  status_of (respond (snd (purchaseTicketController env s req))) = 201 ->
  ObjectId_isValid (req_params_id req) = true.
Proof.
  unfold purchaseTicketController.
  destruct (purchase_find env s req) as [r|[value ex]] eqn:Hf.
  - intros H. exfalso. exact (purchase_find_inl _ _ _ _ Hf H).
  - intros _. apply purchase_find_inr in Hf. tauto.
Qed.

(** X14: the single-ticket route is not cached: read after a purchase
    answered 201, it shows the ticket with what the purchase has left, which
    is [ticketsAvailable - quantity] as JavaScript computes it whenever the
    quantity is at or below [ticketsAvailable]. *)
Theorem single_ticket_shows_purchase env s req env' u :
  status_of (respond (snd (purchaseTicketController env s req))) = 201 ->
  truthy (user_id u) = true ->
  rejects env' Ticket_findById_call = false ->
  exists value t left,
    purchaseTicketSchema_validate (req_body req) = inr value /\
    tickets s !! castObjectId (req_params_id req) = Some t /\
    left = t_ticketsAvailable (updateTicketsAvailable t (v_ticketsQuantity value)) /\
    (js_le (v_ticketsQuantity value) (t_ticketsAvailable t) = true ->
     left = js_sub (t_ticketsAvailable t) (v_ticketsQuantity value)) /\
    let s1 := fst (purchaseTicketController env s req) in
    match admins s !! t_admin t with
    | Some userName =>
        singleTicketByIdController env' s1 (mkRequest u (req_params_id req) tt)
        = (s1, Respond (Json 200 (JObj [("status", JBool true);
                                        ("message", JStr "successful");
                                        ("ticket",
                                         JObj [("id", JStr (castObjectId (req_params_id req)));
                                               ("createBy", JStr userName);
                                               ("type", JStr (t_ticketType t));
                                               ("price", jnum (t_price t));
                                               ("ticketsAvailable", jnum left)])])))
    | None =>
        respond (snd (singleTicketByIdController env' s1 (mkRequest u (req_params_id req) tt)))
        = something_went_wrong
    end.
Proof.
  intros H201 Hu Hrej.
  pose proof (purchase_committed_request _ _ _ H201) as Hvalid.
  pose proof (purchase_admins env s req) as Hadm.
  destruct (purchase_committed _ _ _ H201) as (value & t & Hv & Ht & _ & _ & _ & _ & Htk & _).
  exists value, t, (t_ticketsAvailable (updateTicketsAvailable t (v_ticketsQuantity value))).
  split; [exact Hv|]. split; [exact Ht|]. split; [reflexivity|]. split.
  { intros Hle.
    rewrite (updateTicketsAvailable_le _ _ (is_safe_finite _ (validate_safe _ _ Hv)) Hle).
    reflexivity. }
  intros s1.
  unfold singleTicketByIdController. cbn [req_params_id req_user].
  rewrite Hvalid, Hu. cbn [negb].
  unfold Ticket_findById, await. rewrite Hrej. cbv zeta.
  fold s1 in Htk, Hadm. rewrite Htk, lookup_insert_eq.
  assert (Hsame : forall q, t_admin (updateTicketsAvailable t q) = t_admin t
                            /\ t_ticketType (updateTicketsAvailable t q) = t_ticketType t
                            /\ t_price (updateTicketsAvailable t q) = t_price t).
  { intros q. unfold updateTicketsAvailable. destruct (js_ge _ _); cbn; auto. }
  destruct (Hsame (v_ticketsQuantity value)) as (-> & -> & ->).
  rewrite Hadm. destruct (admins s !! t_admin t); reflexivity.
Qed.

Lemma single_ticket_shows_purchase_witness :
  exists value t left,
    purchaseTicketSchema_validate (req_body (Scenario.buy 2)) = inr value /\
    tickets Scenario.store !! castObjectId (req_params_id (Scenario.buy 2)) = Some t /\
    left = t_ticketsAvailable (updateTicketsAvailable t (v_ticketsQuantity value)) /\
    (js_le (v_ticketsQuantity value) (t_ticketsAvailable t) = true ->
     left = js_sub (t_ticketsAvailable t) (v_ticketsQuantity value)) /\
    let s1 := fst (purchaseTicketController Scenario.env_a Scenario.store (Scenario.buy 2)) in
    match admins Scenario.store !! t_admin t with
    | Some userName =>
        singleTicketByIdController Scenario.env_b s1
          (mkRequest Cases.other (req_params_id (Scenario.buy 2)) tt)
        = (s1, Respond (Json 200 (JObj [("status", JBool true);
                                        ("message", JStr "successful");
                                        ("ticket",
                                         JObj [("id", JStr (castObjectId
                                                              (req_params_id (Scenario.buy 2))));
                                               ("createBy", JStr userName);
                                               ("type", JStr (t_ticketType t));
                                               ("price", jnum (t_price t));
                                               ("ticketsAvailable", jnum left)])])))
    | None =>
        respond (snd (singleTicketByIdController Scenario.env_b s1
                        (mkRequest Cases.other (req_params_id (Scenario.buy 2)) tt)))
        = something_went_wrong
    end.
Proof.
  apply (single_ticket_shows_purchase Scenario.env_a Scenario.store (Scenario.buy 2)
           Scenario.env_b Cases.other); vm_compute; reflexivity.
Defined.

(** X15: once a deletion is answered 200 the ticket is gone for the other
    routes: no purchase of it is granted and it cannot be read; the purchase
    records made of it stay. *)
Theorem deleted_ticket_is_gone env s req env' (buy : Request PurchaseBody) u :
  status_of (respond (snd (deleteTicketsByIdController env s req))) = 200 ->
  castObjectId (req_params_id buy) = castObjectId (req_params_id req) ->
  let s1 := fst (deleteTicketsByIdController env s req) in
  purchasedTickets s1 = purchasedTickets s /\
  status_of (respond (snd (purchaseTicketController env' s1 buy))) <> 201 /\
  tickets (fst (purchaseTicketController env' s1 buy)) = tickets s1 /\
  status_of (respond (snd (singleTicketByIdController env' s1
                             (mkRequest u (req_params_id req) tt)))) <> 200.
Proof.
  intros H200 Hid s1.
  destruct (delete_changes env s req) as [[_ Hne] | (t & Ht & _ & Hres)]; [contradiction|].
  assert (Hgone : tickets s1 !! castObjectId (req_params_id req) = None).
  { unfold s1. rewrite Hres. cbn [fst tickets set_tickets]. apply lookup_delete_eq. }
  assert (Hno : status_of (respond (snd (purchaseTicketController env' s1 buy))) <> 201).
  { intros H201.
    destruct (purchase_committed _ _ _ H201) as (value & t' & _ & Ht' & _).
    rewrite Hid, Hgone in Ht'. discriminate. }
  split; [unfold s1; rewrite Hres; reflexivity|].
  split; [exact Hno|].
  split; [exact (purchase_uncommitted _ _ _ Hno)|].
  unfold singleTicketByIdController. cbn [req_params_id req_user].
  destruct (negb (ObjectId_isValid _)); [cbn; discriminate|].
  destruct (negb (truthy _)); [cbn; discriminate|].
  destruct (Ticket_findById env' s1 (req_params_id req)) as [e|[[id0 t0]|]] eqn:Hf.
  - apply await_inl in Hf as [-> | Hf]; [cbn; discriminate | discriminate].
  - apply await_inr in Hf. cbv zeta in Hf. rewrite Hgone in Hf. discriminate.
  - cbn. discriminate.
Qed.

Lemma deleted_ticket_is_gone_witness :
  let s1 := fst (deleteTicketsByIdController (Cases.full Scenario.env_a) Scenario.store
                   (Cases.ask Scenario.admin Scenario.ticketId)) in
  purchasedTickets s1 = purchasedTickets Scenario.store /\
  status_of (respond (snd (purchaseTicketController Scenario.env_b s1 (Scenario.buy 1))))
    <> 201 /\
  tickets (fst (purchaseTicketController Scenario.env_b s1 (Scenario.buy 1))) = tickets s1 /\
  status_of (respond (snd (singleTicketByIdController Scenario.env_b s1
                             (mkRequest Scenario.buyer
                                (req_params_id (Cases.ask Scenario.admin Scenario.ticketId))
                                tt)))) <> 200.
Proof.
  apply (deleted_ticket_is_gone (Cases.full Scenario.env_a) Scenario.store
           (Cases.ask Scenario.admin Scenario.ticketId) Scenario.env_b (Scenario.buy 1)
           Scenario.buyer); vm_compute; reflexivity.
Defined.

(** ** The purchase history *)

Lemma await_more_inr {A : Type} (env : FullEnv) (c : MoreCall) (r : Error + A) (a : A) :
  await_more env c r = inr a -> r = inr a.
Proof. unfold await_more. destruct (rejects_more env c); [discriminate | auto]. Qed.

Lemma await_more_inl {A : Type} (env : FullEnv) (c : MoreCall) (r : Error + A) (e : Error) :
  await_more env c r = inl e -> e = MongoNetworkError \/ r = inl e.
Proof. unfold await_more. destruct (rejects_more env c); [left; congruence | auto]. Qed.

(** The records [PurchaseTicketModel.find] returns for a user. *)
Lemma history_cases env s req :
  (fst (getAllPurchasedTicketsController env s req) = s /\
   respond (snd (getAllPurchasedTicketsController env s req)) = something_went_wrong) \/
  exists l,
    l = List.filter (fun ip => String.eqb (p_user (snd ip)) (user_id (req_user req)))
                    (map_to_list (purchasedTickets s)) /\
    l <> [] /\
    truthy (user_id (req_user req)) = true /\
    getAllPurchasedTicketsController env s req
    = (set_redis s (<["users:" +:+ user_id (req_user req)
                      := mkCacheEntry (JArr (List.map purchased_view l))
                                      (now (base env) + 60 * 60)]> (redis s)),
       listing_ok "tickets" (JArr (List.map purchased_view l))).
Proof.
  unfold getAllPurchasedTicketsController.
  destruct (truthy (user_id (req_user req))) eqn:Hu; cbn [negb]; [|left; split; reflexivity].
  destruct (PurchaseTicketModel_find env s _) as [e|l] eqn:Hf.
  { left. split; [reflexivity|].
    apply await_more_inl in Hf as [-> | Hf]; [reflexivity | discriminate]. }
  apply await_more_inr in Hf. injection Hf as Hl.
  destruct l as [|ip l]; cbn [is_nil]; [left; split; reflexivity|].
  destruct (client_set _ _ _ _ _) as [e|s'] eqn:Hs.
  { left. split; [reflexivity|].
    apply await_inl in Hs as [-> | Hs]; [reflexivity | discriminate]. }
  apply await_inr in Hs. injection Hs as <-.
  right. exists (ip :: l). repeat split; auto; try discriminate.
Qed.

(** X16: when the history is answered 200, it lists the purchases of the
    requesting user, all of them and no other's, each once. *)
Theorem history_lists_own_purchases env s req :
  status_of (respond (snd (getAllPurchasedTicketsController env s req))) = 200 ->
  exists l,
    snd (getAllPurchasedTicketsController env s req)
    = listing_ok "tickets" (JArr (List.map purchased_view l)) /\
    NoDup l /\
    forall id rec,
      In (id, rec) l <->
      purchasedTickets s !! id = Some rec /\ p_user rec = user_id (req_user req).
Proof.
  intros H200.
  destruct (history_cases env s req) as [[_ H500] | (l & Hl & _ & _ & Hres)].
  { rewrite H500 in H200. discriminate. }
  exists l. rewrite Hres. split; [reflexivity|]. split.
  - rewrite Hl. apply NoDup_ListNoDup, List.NoDup_filter, NoDup_ListNoDup, NoDup_map_to_list.
  - intros id rec. rewrite Hl, filter_In. cbn [fst snd].
    rewrite <- list_elem_of_In, elem_of_map_to_list, String.eqb_eq. reflexivity.
Qed.

Lemma history_lists_own_purchases_witness :
  let s1 := fst (purchaseTicketController Scenario.env_a Scenario.store (Scenario.buy 2)) in
  exists l,
    snd (getAllPurchasedTicketsController (Cases.full Scenario.env_b) s1
           (Cases.ask Scenario.buyer ""))
    = listing_ok "tickets" (JArr (List.map purchased_view l)) /\
    NoDup l /\
    forall id rec,
      In (id, rec) l <->
      purchasedTickets s1 !! id = Some rec /\
      p_user rec = user_id (req_user (Cases.ask Scenario.buyer "")).
Proof.
  intros s1.
  apply (history_lists_own_purchases (Cases.full Scenario.env_b) s1
           (Cases.ask Scenario.buyer "")).
  vm_compute. reflexivity.
Defined.

(** X17: a user without purchases is answered 500 "Something went wrong", not
    the 404 the controller words: [next] is no parameter of the controller. *)
Theorem empty_history_answered_500 env s req :
  (forall id rec, purchasedTickets s !! id = Some rec ->
                  p_user rec <> user_id (req_user req)) ->
  fst (getAllPurchasedTicketsController env s req) = s /\
  respond (snd (getAllPurchasedTicketsController env s req)) = something_went_wrong.
Proof.
  intros Hnone.
  destruct (history_cases env s req) as [H | (l & Hl & Hne & _ & _)]; [exact H|].
  exfalso. destruct l as [|[id rec] l]; [contradiction|].
  assert (Hin : In (id, rec)
                  (List.filter (fun ip => String.eqb (p_user (snd ip)) (user_id (req_user req)))
                     (map_to_list (purchasedTickets s)))) by (rewrite <- Hl; left; reflexivity).
  apply filter_In in Hin as [Hin Hu]. cbn [snd] in Hu.
  apply list_elem_of_In, elem_of_map_to_list in Hin.
  apply String.eqb_eq in Hu. exact (Hnone id rec Hin Hu).
Qed.

Lemma empty_history_answered_500_witness :
  fst (getAllPurchasedTicketsController (Cases.full Scenario.env_a) Scenario.store
         (Cases.ask Scenario.buyer "")) = Scenario.store /\
  respond (snd (getAllPurchasedTicketsController (Cases.full Scenario.env_a) Scenario.store
                  (Cases.ask Scenario.buyer ""))) = something_went_wrong.
Proof.
  apply (empty_history_answered_500 (Cases.full Scenario.env_a) Scenario.store
           (Cases.ask Scenario.buyer "")).
  intros id rec H. unfold Scenario.store in H. cbn [purchasedTickets] in H.
  rewrite lookup_empty in H. discriminate.
Defined.

(** X18: a purchase answered 201 shows in the history of the buyer read
    afterwards, with its quantity and its total price, the product of price
    and quantity as JavaScript computes it. *)
Theorem history_lists_new_purchase env s req env' :
  status_of (respond (snd (purchaseTicketController env s req))) = 201 ->
  rejects_more env' PurchaseTicketModel_find_call = false ->
  rejects (base env') client_set_call = false ->
  let s1 := fst (purchaseTicketController env s req) in
  exists value t l,
    purchaseTicketSchema_validate (req_body req) = inr value /\
    tickets s !! castObjectId (req_params_id req) = Some t /\
    snd (getAllPurchasedTicketsController env' s1 (mkRequest (req_user req) "" tt))
    = listing_ok "tickets" (JArr l) /\
    In (JObj [("id", JStr (newId env)); ("ticket", JStr (trim (v_ticketType value)));
              ("ticketsQuantity", jnum (v_ticketsQuantity value));
              ("price", jnum (js_mul (t_price t) (v_ticketsQuantity value)))]) l.
Proof.
  intros H201 Hfind Hset s1.
  destruct (purchase_committed _ _ _ H201) as (value & t & Hv & Ht & _ & _ & _ & _ & _ & Hp).
  fold s1 in Hp.
  assert (Huser : truthy (user_id (req_user req)) = true).
  { revert H201. unfold purchaseTicketController.
    destruct (purchase_find env s req) as [r|[v ex]] eqn:Hf.
    - intros H. exfalso. exact (purchase_find_inl _ _ _ _ Hf H).
    - intros _. apply purchase_find_inr in Hf. tauto. }
  assert (Hin : In (newId env, purchased_doc env req value t)
                  (List.filter (fun ip => String.eqb (p_user (snd ip)) (user_id (req_user req)))
                     (map_to_list (purchasedTickets s1)))).
  { apply filter_In. split.
    - apply list_elem_of_In, elem_of_map_to_list. rewrite Hp. apply lookup_insert_eq.
    - cbn. apply String.eqb_refl. }
  exists value, t.
  destruct (history_cases env' s1 (mkRequest (req_user req) "" tt))
    as [[_ H500] | (l & Hl & _ & _ & Hres)].
  - exfalso. revert H500. unfold getAllPurchasedTicketsController.
    cbn [req_user]. rewrite Huser. cbn [negb].
    unfold PurchaseTicketModel_find, await_more. rewrite Hfind.
    destruct (List.filter _ _) as [|ip l]; [destruct Hin|]. cbn [is_nil].
    unfold client_set, await. rewrite Hset. cbn. discriminate.
  - cbn [req_user] in Hl. exists (List.map purchased_view l).
    split; [exact Hv|]. split; [exact Ht|]. rewrite Hres. split; [reflexivity|].
    rewrite <- Hl in Hin.
    exact (in_map purchased_view _ _ Hin).
Qed.

Lemma history_lists_new_purchase_witness :
  let s1 := fst (purchaseTicketController Scenario.env_a Scenario.store (Scenario.buy 2)) in
  exists value t l,
    purchaseTicketSchema_validate (req_body (Scenario.buy 2)) = inr value /\
    tickets Scenario.store !! castObjectId (req_params_id (Scenario.buy 2)) = Some t /\
    snd (getAllPurchasedTicketsController (Cases.full Scenario.env_b) s1
           (mkRequest (req_user (Scenario.buy 2)) "" tt))
    = listing_ok "tickets" (JArr l) /\
    In (JObj [("id", JStr (newId Scenario.env_a));
              ("ticket", JStr (trim (v_ticketType value)));
              ("ticketsQuantity", jnum (v_ticketsQuantity value));
              ("price", jnum (js_mul (t_price t) (v_ticketsQuantity value)))]) l.
Proof.
  apply (history_lists_new_purchase Scenario.env_a Scenario.store (Scenario.buy 2)
           (Cases.full Scenario.env_b)); vm_compute; reflexivity.
Defined.

(** X19: the two history routes answer 200 or 500 and nothing else: the 400,
    401 and 404 their source words never reach the client. *)
Theorem history_routes_answer_200_or_500 env s req :
  In (status_of (respond (snd (getAllPurchasedTicketsController env s req)))) [200; 500] /\
  In (status_of (respond (snd (purchasedTicketByIdController env s req)))) [200; 500].
Proof.
  split.
  - destruct (history_cases env s req) as [[_ ->] | (l & _ & _ & _ & ->)]; cbn; auto.
  - unfold purchasedTicketByIdController.
    destruct (negb (truthy _)); [cbn; auto|].
    destruct (negb (ObjectId_isValid _)); [cbn; auto|].
    destruct (PurchaseTicketModel_findById _ _ _) as [e|[[id p]|]] eqn:Hf; [|cbn; auto..].
    apply await_more_inl in Hf as [-> | Hf]; [cbn; auto | discriminate].
Qed.

(** X20: a purchase record can be read by any authenticated user who has its
    id, not only by its buyer: the controller compares no user. The price
    shown is the product of price and quantity as JavaScript computes it. *)
Theorem purchase_record_readable_by_any_user env s req env' u :
  status_of (respond (snd (purchaseTicketController env s req))) = 201 ->
  truthy (user_id u) = true ->
  ObjectId_isValid (newId env) = true ->
  castObjectId (newId env) = newId env ->
  rejects_more env' PurchaseTicketModel_findById_call = false ->
  let s1 := fst (purchaseTicketController env s req) in
  exists value t,
    purchaseTicketSchema_validate (req_body req) = inr value /\
    tickets s !! castObjectId (req_params_id req) = Some t /\
    purchasedTicketByIdController env' s1 (mkRequest u (newId env) tt)
    = (s1, Respond (Json 200 (JObj [("status", JBool true);
                                    ("message", JStr "successful");
                                    ("ticket",
                                     JObj [("id", JStr (newId env));
                                           ("ticketType", JStr (trim (v_ticketType value)));
                                           ("ticketsQuantity", jnum (v_ticketsQuantity value));
                                           ("price",
                                            jnum (js_mul (t_price t)
                                                    (v_ticketsQuantity value)))])]))).
Proof.
  intros H201 Hu Hvalid Hcast Hrej s1.
  destruct (purchase_committed _ _ _ H201) as (value & t & Hv & Ht & _ & _ & _ & _ & _ & Hp).
  fold s1 in Hp. exists value, t. split; [exact Hv|]. split; [exact Ht|].
  unfold purchasedTicketByIdController. cbn [req_params_id req_user].
  rewrite Hu, Hvalid. cbn [negb].
  unfold PurchaseTicketModel_findById, await_more. rewrite Hrej. cbv zeta.
  rewrite Hcast, Hp, lookup_insert_eq. reflexivity.
Qed.

Lemma purchase_record_readable_by_any_user_witness :
  let s1 := fst (purchaseTicketController Scenario.env_a Scenario.store (Scenario.buy 2)) in
  exists value t,
    purchaseTicketSchema_validate (req_body (Scenario.buy 2)) = inr value /\
    tickets Scenario.store !! castObjectId (req_params_id (Scenario.buy 2)) = Some t /\
    purchasedTicketByIdController (Cases.full Scenario.env_b) s1
      (mkRequest Cases.other (newId Scenario.env_a) tt)
    = (s1, Respond (Json 200 (JObj [("status", JBool true);
                                    ("message", JStr "successful");
                                    ("ticket",
                                     JObj [("id", JStr (newId Scenario.env_a));
                                           ("ticketType", JStr (trim (v_ticketType value)));
                                           ("ticketsQuantity", jnum (v_ticketsQuantity value));
                                           ("price",
                                            jnum (js_mul (t_price t)
                                                    (v_ticketsQuantity value)))])]))).
Proof.
  apply (purchase_record_readable_by_any_user Scenario.env_a Scenario.store (Scenario.buy 2)
           (Cases.full Scenario.env_b) Cases.other); vm_compute; reflexivity.
Defined.

(** ** Payments *)

Lemma payment_holds_false (ps : gmap string Payment) field v :
  payment_holds ps field v = false ->
  forall id p, ps !! id = Some p -> field p <> v.
Proof.
  unfold payment_holds. intros Hno id p Hp Hv.
  assert (Hex : existsb (fun ip => String.eqb (field (snd ip)) v) (map_to_list ps) = true).
  { apply existsb_exists. exists (id, p). split.
    - apply list_elem_of_In, elem_of_map_to_list, Hp.
    - cbn. apply String.eqb_eq, Hv. }
  rewrite Hex in Hno. discriminate.
Qed.

(** What [paymentVerification] has checked and done when the store is no
    longer the same. *)
Lemma payment_changes env s req :
  (fst (paymentVerification env s req) = s /\
   respond (snd (paymentVerification env s req)) <> Send 200 "success") \/
  exists doc,
    pay_user doc = user_id (req_user req) /\
    payments s !! newId env = None /\
    payment_holds (payments s) pay_razorpay_payment_id (pay_razorpay_payment_id doc) = false /\
    payment_holds (payments s) pay_razorpay_order_id (pay_razorpay_order_id doc) = false /\
    payment_holds (payments s) pay_razorpay_signature (pay_razorpay_signature doc) = false /\
    paymentVerification env s req
    = (set_payments s (<[newId env := doc]> (payments s)), Respond (Send 200 "success")).
Proof.
  unfold paymentVerification.
  destruct (negb (truthy _)); [left; split; [reflexivity | cbn; discriminate]|].
  destruct (negb (option_string_eqb _ _)); [left; split; [reflexivity | cbn; discriminate]|].
  destruct (paymentModel_create _ _ _ _ _ _) as [e|[[[id doc]|] s']] eqn:Hc.
  - left. split; [reflexivity|]. apply await_inl in Hc as [-> | Hc]; [cbn; discriminate|].
    destruct (required_string (razorpay_payment_id _)) as [pid|];
      [|injection Hc as <-; cbn; discriminate].
    destruct (required_string (razorpay_order_id _)) as [oid|];
      [|injection Hc as <-; cbn; discriminate].
    destruct (required_string (razorpay_signature _)) as [sig|];
      [|injection Hc as <-; cbn; discriminate].
    destruct (payments s !! newId env); [injection Hc as <-; cbn; discriminate|].
    destruct (payment_holds _ pay_razorpay_payment_id _);
      [injection Hc as <-; cbn; discriminate|].
    destruct (payment_holds _ pay_razorpay_order_id _);
      [injection Hc as <-; cbn; discriminate|].
    destruct (payment_holds _ pay_razorpay_signature _);
      [injection Hc as <-; cbn; discriminate|].
    discriminate.
  - right. apply await_inr in Hc.
    destruct (required_string (razorpay_payment_id _)) as [pid|]; [|discriminate].
    destruct (required_string (razorpay_order_id _)) as [oid|]; [|discriminate].
    destruct (required_string (razorpay_signature _)) as [sig|]; [|discriminate].
    destruct (payments s !! newId env) eqn:Hfresh; [discriminate|].
    destruct (payment_holds _ pay_razorpay_payment_id _) eqn:H1; [discriminate|].
    destruct (payment_holds _ pay_razorpay_order_id _) eqn:H2; [discriminate|].
    destruct (payment_holds _ pay_razorpay_signature _) eqn:H3; [discriminate|].
    cbv zeta in Hc. injection Hc as <- <- <-.
    eexists. repeat split; eauto.
  - exfalso. apply await_inr in Hc.
    destruct (required_string (razorpay_payment_id _)) as [pid|]; [|discriminate].
    destruct (required_string (razorpay_order_id _)) as [oid|]; [|discriminate].
    destruct (required_string (razorpay_signature _)) as [sig|]; [|discriminate].
    destruct (payments s !! newId env); [discriminate|].
    destruct (payment_holds _ pay_razorpay_payment_id _); [discriminate|].
    destruct (payment_holds _ pay_razorpay_order_id _); [discriminate|].
    destruct (payment_holds _ pay_razorpay_signature _); discriminate.
Qed.

(** X21: the stored payments never share a payment id, an order id or a
    signature, whatever verification is served next. *)
Theorem payments_stay_unique env s req :
  unique_payments s -> unique_payments (fst (paymentVerification env s req)).
Proof.
  intros Huniq.
  destruct (payment_changes env s req)
    as [[-> _] | (doc & _ & Hfresh & H1 & H2 & H3 & ->)]; [exact Huniq|].
  pose proof (payment_holds_false _ _ _ H1) as N1.
  pose proof (payment_holds_false _ _ _ H2) as N2.
  pose proof (payment_holds_false _ _ _ H3) as N3.
  intros i j p q Hi Hj Heq. cbn [fst payments set_payments] in Hi, Hj.
  destruct (decide (i = newId env)) as [->|Hik];
    destruct (decide (j = newId env)) as [->|Hjk]; [reflexivity| | |].
  - rewrite lookup_insert_eq in Hi. injection Hi as <-.
    rewrite lookup_insert_ne in Hj by congruence. exfalso.
    destruct Heq as [E | [E | E]];
      [exact (N1 _ _ Hj (eq_sym E)) | exact (N2 _ _ Hj (eq_sym E))
       | exact (N3 _ _ Hj (eq_sym E))].
  - rewrite lookup_insert_eq in Hj. injection Hj as <-.
    rewrite lookup_insert_ne in Hi by congruence. exfalso.
    destruct Heq as [E | [E | E]];
      [exact (N1 _ _ Hi E) | exact (N2 _ _ Hi E) | exact (N3 _ _ Hi E)].
  - rewrite lookup_insert_ne in Hi, Hj by congruence.
    exact (Huniq i j p q Hi Hj Heq).
Qed.

Lemma payments_stay_unique_witness :
  unique_payments
    (fst (paymentVerification Scenario.env_a Scenario.store
            (Scenario.pay "order_1" (generated_signature
                                       (mkPaymentBody (Some "pay_1") None None))))).
Proof.
  apply (payments_stay_unique Scenario.env_a Scenario.store).
  intros i j p q Hi. unfold Scenario.store in Hi. cbn [payments] in Hi.
  rewrite lookup_empty in Hi. discriminate.
Defined.

(** X22: a verification writes nothing but the payments, and those only when
    it answers "success": it never touches a ticket, a purchase record or the
    cache, and the payment it stores is the requesting user's. *)
Theorem payment_touches_only_payments env s req :
  let s1 := fst (paymentVerification env s req) in
  tickets s1 = tickets s /\ purchasedTickets s1 = purchasedTickets s /\
  redis s1 = redis s /\
  (respond (snd (paymentVerification env s req)) <> Send 200 "success" -> s1 = s) /\
  forall id doc, payments s1 !! id = Some doc ->
                 payments s !! id = Some doc \/
                 (id = newId env /\ pay_user doc = user_id (req_user req)).
Proof.
  intros s1. unfold s1.
  destruct (payment_changes env s req) as [[-> Hno] | (doc & Hu & Hfresh & _ & _ & _ & ->)].
  - repeat split; auto.
  - cbn [fst snd]. repeat split.
    + intros H. exfalso. apply H. reflexivity.
    + intros id d Hd. cbn [payments set_payments] in Hd.
      destruct (decide (id = newId env)) as [->|Hne].
      * rewrite lookup_insert_eq in Hd. injection Hd as <-. right. auto.
      * rewrite lookup_insert_ne in Hd by congruence. left. exact Hd.
Qed.

(** ** Comments *)

(** What [editCommentController] has checked and done when the store is no
    longer the same. *)
Lemma edit_changes env s req :
  fst (editCommentController env s req) = s \/
  exists c text,
    commentSchema_validate (req_body req) = inr text /\
    comments s !! castObjectId (req_params_id req) = Some c /\
    c_user c = user_id (req_user req) /\
    fst (editCommentController env s req)
    = set_comments s
        (<[castObjectId (req_params_id req)
           := mkComment (c_user c) (c_event c) (trim text) (c_createdAt c)]> (comments s)).
Proof.
  unfold editCommentController.
  destruct (commentSchema_validate (req_body req)) as [e|text]; [left; reflexivity|].
  destruct (negb (truthy _)); [left; reflexivity|].
  destruct (negb (ObjectId_isValid _)); [left; reflexivity|].
  destruct (Comments_findById _ _ _) as [e|[[id0 c0]|]] eqn:Hf; try (left; reflexivity).
  apply await_more_inr in Hf. cbv zeta in Hf.
  destruct (comments s !! castObjectId (req_params_id req)) as [c|] eqn:Hc; [|discriminate].
  injection Hf as <- <-.
  destruct (String.eqb_spec (c_user c) (user_id (req_user req))) as [Hown|Hown];
    cbn [negb]; [|left; reflexivity].
  unfold Comments_findByIdAndUpdate, await_more.
  destruct (rejects_more env Comments_findByIdAndUpdate_call); [left; reflexivity|].
  cbv zeta. rewrite Hc. right. exists c, text. rewrite <- Hown. auto.
Qed.

(** What [deleteCommentController] has checked and done when the store is
    no longer the same. *)
Lemma delete_comment_changes env s req :
  fst (deleteCommentController env s req) = s \/
  exists c,
    comments s !! castObjectId (req_params_id req) = Some c /\
    c_user c = user_id (req_user req) /\
    fst (deleteCommentController env s req)
    = set_comments s (delete (castObjectId (req_params_id req)) (comments s)).
Proof.
  unfold deleteCommentController.
  destruct (negb (truthy _)); [left; reflexivity|].
  destruct (negb (ObjectId_isValid _)); [left; reflexivity|].
  destruct (Comments_findById _ _ _) as [e|[[id0 c0]|]] eqn:Hf; try (left; reflexivity).
  apply await_more_inr in Hf. cbv zeta in Hf.
  destruct (comments s !! castObjectId (req_params_id req)) as [c|] eqn:Hc; [|discriminate].
  injection Hf as <- <-.
  destruct (String.eqb_spec (c_user c) (user_id (req_user req))) as [Hown|Hown];
    cbn [negb]; [|left; reflexivity].
  unfold Comments_findByIdAndDelete, await_more.
  destruct (rejects_more env Comments_findByIdAndDelete_call); [left; reflexivity|].
  cbv zeta. rewrite Hc. right. exists c. auto.
Qed.

(** X23: an edit changes at most the text of one comment, and only its author
    gets that far: author, event and date of every comment stay, no comment
    appears or disappears, and a changed text is the trimmed, non-empty text
    of the request. *)
Theorem edit_changes_only_own_text env s req id :
  match comments s !! id, comments (fst (editCommentController env s req)) !! id with
  | Some c, Some c' =>
      c_user c' = c_user c /\ c_event c' = c_event c /\ c_createdAt c' = c_createdAt c /\
      (c_comments c' <> c_comments c ->
       id = castObjectId (req_params_id req) /\
       c_user c = user_id (req_user req) /\
       truthy (c_comments c') = true /\
       exists text, cb_comment (req_body req) = Some text /\ c_comments c' = trim text)
  | None, None => True
  | _, _ => False
  end.
Proof.
  destruct (edit_changes env s req) as [-> | (c & text & Hv & Hc & Hown & ->)].
  - destruct (comments s !! id); [|exact I]. do 3 (split; [reflexivity|]). congruence.
  - cbn [fst comments set_comments].
    destruct (decide (id = castObjectId (req_params_id req))) as [->|Hne].
    + rewrite Hc, lookup_insert_eq. cbn [c_user c_event c_createdAt c_comments].
      revert Hv. unfold commentSchema_validate.
      destruct (cb_comment (req_body req)) as [raw|]; [|discriminate].
      destruct (truthy (trim raw)) eqn:Ht; [|discriminate].
      intros [= <-]. rewrite trim_idempotent. repeat split; auto.
      exists raw. auto.
    + rewrite lookup_insert_ne by congruence.
      destruct (comments s !! id); [|exact I]. do 3 (split; [reflexivity|]). congruence.
Qed.

(** X24: a comment is removed only by its author, and a deletion removes that
    comment and no other. *)
Theorem only_author_deletes_comment env s req :
  fst (deleteCommentController env s req) <> s ->
  exists c,
    comments s !! castObjectId (req_params_id req) = Some c /\
    c_user c = user_id (req_user req) /\
    comments (fst (deleteCommentController env s req)) !! castObjectId (req_params_id req)
    = None /\
    forall id, id <> castObjectId (req_params_id req) ->
               comments (fst (deleteCommentController env s req)) !! id = comments s !! id.
Proof.
  intros Hch.
  destruct (delete_comment_changes env s req) as [Hs | (c & Hc & Hown & Hres)];
    [contradiction|].
  exists c. rewrite Hres. cbn [comments set_comments].
  split; [exact Hc|]. split; [exact Hown|]. split; [apply lookup_delete_eq|].
  intros id Hne. apply lookup_delete_ne. congruence.
Qed.

Lemma only_author_deletes_comment_witness :
  exists c,
    comments Cases.commented
      !! castObjectId (req_params_id (Cases.ask Scenario.buyer Cases.commentId)) = Some c /\
    c_user c = user_id (req_user (Cases.ask Scenario.buyer Cases.commentId)) /\
    comments (fst (deleteCommentController (Cases.full Scenario.env_a) Cases.commented
                     (Cases.ask Scenario.buyer Cases.commentId)))
      !! castObjectId (req_params_id (Cases.ask Scenario.buyer Cases.commentId)) = None /\
    forall id, id <> castObjectId (req_params_id (Cases.ask Scenario.buyer Cases.commentId)) ->
               comments (fst (deleteCommentController (Cases.full Scenario.env_a)
                                Cases.commented
                                (Cases.ask Scenario.buyer Cases.commentId))) !! id
               = comments Cases.commented !! id.
Proof.
  apply (only_author_deletes_comment (Cases.full Scenario.env_a) Cases.commented
           (Cases.ask Scenario.buyer Cases.commentId)).
  intros H.
  assert (Hl : comments (fst (deleteCommentController (Cases.full Scenario.env_a)
                                Cases.commented (Cases.ask Scenario.buyer Cases.commentId)))
                 !! Cases.commentId
               = comments Cases.commented !! Cases.commentId) by (rewrite H; reflexivity).
  vm_compute in Hl. discriminate.
Defined.

(** ** Purchases and payments are independent *)

Lemma find_ignores_payments env s req ps :
  purchase_find env (set_payments s ps) req = purchase_find env s req.
Proof. reflexivity. Qed.

Lemma create_ignores_payments env s req value ex ps :
  purchase_create env (set_payments s ps) req value ex
  = (set_payments (fst (purchase_create env s req value ex)) ps,
     snd (purchase_create env s req value ex)).
Proof.
  unfold purchase_create, PurchaseTicketModel_create, await.
  cbn [purchasedTickets set_payments].
  repeat case_match; simplify_eq; reflexivity.
Qed.

Lemma save_ignores_payments env s value tk np ps :
  purchase_save env (set_payments s ps) value tk np
  = (set_payments (fst (purchase_save env s value tk np)) ps,
     snd (purchase_save env s value tk np)).
Proof.
  unfold purchase_save, Ticket_save, await.
  cbn [tickets set_payments].
  repeat case_match; simplify_eq; reflexivity.
Qed.

(** X25: a purchase never reads the payments: with any other payments in the
    store it gives the same answer and the same changes. No payment is needed
    for a purchase to be granted. *)
Theorem purchase_ignores_payments env s req ps :
  purchaseTicketController env (set_payments s ps) req
  = (set_payments (fst (purchaseTicketController env s req)) ps,
     snd (purchaseTicketController env s req)).
Proof.
  unfold purchaseTicketController. rewrite find_ignores_payments.
  destruct (purchase_find env s req) as [r|[value ex]]; [reflexivity|].
  rewrite create_ignores_payments.
  destruct (purchase_create env s req value ex) as [s1 [r|[tk np]]]; cbn [fst snd];
    [reflexivity|].
  apply save_ignores_payments.
Qed.

(** X26: editing or deleting a comment leaves the cache alone: the comment
    listing cached for the event is served as it was, with the old text or
    the deleted comment, until it expires. *)
Theorem comment_changes_keep_cached_listing env s ereq dreq env' lreq cached :
  client_get env' s ("comment:" +:+ req_params_id lreq) = inr (Some cached) ->
  let s1 := fst (editCommentController env s ereq) in
  let s2 := fst (deleteCommentController env s dreq) in
  redis s1 = redis s /\ redis s2 = redis s /\
  commentListController env' s1 lreq = (s1, listing_ok "allComments" cached) /\
  commentListController env' s2 lreq = (s2, listing_ok "allComments" cached).
Proof.
  intros Hhit s1 s2.
  assert (H1 : redis s1 = redis s).
  { unfold s1. destruct (edit_changes env s ereq) as [-> | (? & ? & _ & _ & _ & ->)];
      reflexivity. }
  assert (H2 : redis s2 = redis s).
  { unfold s2. destruct (delete_comment_changes env s dreq) as [-> | (? & _ & _ & ->)];
      reflexivity. }
  split; [exact H1|]. split; [exact H2|]. split.
  - apply comment_list_hit. rewrite (client_get_redis _ _ _ _ H1). exact Hhit.
  - apply comment_list_hit. rewrite (client_get_redis _ _ _ _ H2). exact Hhit.
Qed.

Lemma comment_changes_keep_cached_listing_witness :
  let s := fst (commentListController Scenario.env_a Cases.commented
                  (Cases.ask Scenario.buyer Scenario.eventId)) in
  let cached :=
    JArr [comment_view (users Cases.commented)
            (Cases.commentId,
             mkComment Scenario.buyerId Scenario.eventId "see you there" "1/1/2024")] in
  let s1 := fst (editCommentController (Cases.full Scenario.env_b) s
                   (Cases.edit Scenario.buyer "sorry, cannot come")) in
  let s2 := fst (deleteCommentController (Cases.full Scenario.env_b) s
                   (Cases.ask Scenario.buyer Cases.commentId)) in
  redis s1 = redis s /\ redis s2 = redis s /\
  commentListController Scenario.env_c s1 (Cases.ask Cases.other Scenario.eventId)
  = (s1, listing_ok "allComments" cached) /\
  commentListController Scenario.env_c s2 (Cases.ask Cases.other Scenario.eventId)
  = (s2, listing_ok "allComments" cached).
Proof.
  intros s cached.
  apply (comment_changes_keep_cached_listing (Cases.full Scenario.env_b) s
           (Cases.edit Scenario.buyer "sorry, cannot come")
           (Cases.ask Scenario.buyer Cases.commentId) Scenario.env_c
           (Cases.ask Cases.other Scenario.eventId) cached).
  vm_compute. reflexivity.
Defined.

(** ** The purchase records under any schedule *)

Lemma thread_step_keeps_records s th id rec :
  purchasedTickets s !! id = Some rec ->
  purchasedTickets (fst (thread_step s th)) !! id = Some rec.
Proof.
  intros Hrec. destruct th as [env req|env req value ex|env req value tk np|req r];
    cbn [thread_step].
  - destruct (purchase_find env s req) as [r|[value ex]]; exact Hrec.
  - destruct (purchase_create env s req value ex) as [s1 [r|[tk np]]] eqn:Hc; cbn [fst].
    + apply purchase_create_inl in Hc as [-> _]. exact Hrec.
    + apply purchase_create_inr in Hc as (_ & _ & _ & Hfresh & _ & ->).
      cbn [purchasedTickets set_purchasedTickets].
      rewrite lookup_insert_ne; [exact Hrec|].
      intros <-. rewrite Hfresh in Hrec. discriminate.
  - destruct (purchase_save env s value tk np) as [s1 r] eqn:Hs. cbn [fst].
    destruct np as [[pid prec]|]; [|injection Hs as <- _; exact Hrec].
    apply purchase_save_cases in Hs as [[_ ->] | (_ & Hp & _)]; [exact Hrec|].
    rewrite Hp. exact Hrec.
  - exact Hrec.
Qed.

(** X27: whatever the order in which pending purchases are resumed, a
    purchase record that exists is never changed or removed. *)
Theorem interleaving_keeps_records schedule s ths id rec :
  purchasedTickets s !! id = Some rec ->
  purchasedTickets (fst (run_schedule schedule (s, ths))) !! id = Some rec.
Proof.
  unfold run_schedule. revert s ths.
  induction schedule as [|i rest IH]; intros s ths Hrec; [exact Hrec|].
  cbn [fold_left]. unfold resume at 2. cbn [fst snd].
  destruct (ths !! i) as [th|]; [|apply IH, Hrec].
  pose proof (thread_step_keeps_records s th id rec Hrec) as Hstep.
  destruct (thread_step s th) as [s1 th1]. apply IH. exact Hstep.
Qed.

Lemma interleaving_keeps_records_witness :
  let s1 := fst (purchaseTicketController Scenario.env_a Scenario.store (Scenario.buy 1)) in
  purchasedTickets
    (fst (run_schedule [0; 1; 0; 1; 0; 1]%nat
            (s1, [AtFind Scenario.env_b (Scenario.buy 2);
                  AtFind Scenario.env_c (Scenario.buy 2)])))
    !! newId Scenario.env_a
  = Some (mkPurchasedTicket Scenario.buyerId Scenario.eventId "VIP" (int 1) (int 100) 1000).
Proof.
  intros s1.
  apply (interleaving_keeps_records [0; 1; 0; 1; 0; 1]%nat s1).
  vm_compute. reflexivity.
Defined.

(** ** Edges of ticket creation *)

(** X28: on an inactive event a creation stores nothing and is answered 200
    with "event is inactive", before the ownership of the event is looked
    at: an admin who does not own the event gets the same answer. *)
Theorem inactive_event_creates_nothing env s req value ev :
  ticketSchema_validate (req_body req) = inr value ->
  truthy (user_id (req_user req)) = true ->
  ObjectId_isValid (req_params_id req) = true ->
  rejects env Events_findById_call = false ->
  events s !! castObjectId (req_params_id req) = Some ev ->
  ev_active ev = false ->
  createTicketController env s req
  = (s, Respond (Json 200 (JObj [("status", JBool true);
                                 ("message", JStr "event is inactive")]))).
Proof.
  intros Hv Hu Hid Hrej Hev Hact. unfold createTicketController.
  rewrite Hv, Hu, Hid. cbn [negb].
  unfold Events_findById, await. rewrite Hrej, Hev, Hact. reflexivity.
Qed.

Lemma inactive_event_creates_nothing_witness :
  createTicketController Scenario.env_a Cases.closed
    (mkRequest Cases.other_admin Scenario.eventId
       (mkTicketBody (Some "Standard") (Some (int 40)) (Some (int 7))))
  = (Cases.closed,
     Respond (Json 200 (JObj [("status", JBool true);
                              ("message", JStr "event is inactive")]))).
Proof.
  apply (inactive_event_creates_nothing Scenario.env_a Cases.closed
           (mkRequest Cases.other_admin Scenario.eventId
              (mkTicketBody (Some "Standard") (Some (int 40)) (Some (int 7))))
           (mkTicketValue "Standard" (int 40) (int 7)) (mkEvent Scenario.adminId false));
    vm_compute; reflexivity.
Defined.

(** X29: a ticket type of white space only passes the Joi schema, is trimmed
    to the empty string by the model and fails its [required]; the error
    handler reads [details] off that error and throws, so the request ends
    in the final handler of Express (500) and nothing is stored. *)
Theorem blank_ticket_type_reaches_final_handler env s req value ev :
  ticketSchema_validate (req_body req) = inr value ->
  trim (tv_ticketType value) = "" ->
  truthy (user_id (req_user req)) = true ->
  ObjectId_isValid (req_params_id req) = true ->
  rejects env Events_findById_call = false ->
  rejects env Ticket_create_call = false ->
  events s !! castObjectId (req_params_id req) = Some ev ->
  ev_active ev = true ->
  ev_admin ev = user_id (req_user req) ->
  fst (createTicketController env s req) = s /\
  respond (snd (createTicketController env s req)) = FinalHandler TypeError.
Proof.
  intros Hv Hblank Hu Hid Hr1 Hr2 Hev Hact Hown. unfold createTicketController.
  rewrite Hv, Hu, Hid. cbn [negb].
  unfold Events_findById, await. rewrite Hr1, Hev, Hact, Hown, String.eqb_refl.
  cbn [negb]. unfold Ticket_create, await. rewrite Hr2.
  cbn [t_ticketType t_admin t_event t_price t_ticketsAvailable]. rewrite Hblank.
  split; reflexivity.
Qed.

Lemma blank_ticket_type_reaches_final_handler_witness :
  fst (createTicketController Scenario.env_a Scenario.store
         (mkRequest Scenario.admin Scenario.eventId
            (mkTicketBody (Some "  ") (Some (int 40)) (Some (int 7))))) = Scenario.store /\
  respond (snd (createTicketController Scenario.env_a Scenario.store
                  (mkRequest Scenario.admin Scenario.eventId
                     (mkTicketBody (Some "  ") (Some (int 40)) (Some (int 7))))))
  = FinalHandler TypeError.
Proof.
  apply (blank_ticket_type_reaches_final_handler Scenario.env_a Scenario.store
           (mkRequest Scenario.admin Scenario.eventId
              (mkTicketBody (Some "  ") (Some (int 40)) (Some (int 7))))
           (mkTicketValue "  " (int 40) (int 7)) (mkEvent Scenario.adminId true));
    vm_compute; reflexivity.
Defined.
